(** * Teacher allocation engine: a shallow embedding of [optimization.py]

    The development follows [optimize_teacher_allocation] and
    [generate_recommendations] statement by statement.

    Conventions of the embedding.
    - Python [int] values are [Z]. In the model of the whole function
      Python [float] values are exact rationals [Q]: the binary rounding of
      the float operations is idealised away. Two kinds of statement do
      not lean on that idealisation. Statements about the integer passes
      ([reconcile_teachers], [balance_students]) hold for whatever
      integers the float roundings before them produced. Statements about
      line 30 and lines 305-341 that depend on a rounding are made in
      IEEE 754 binary64 (module [B64]). The requests [request_half_teacher]
      and [request_threshold] are inputs on which the rational and the
      binary64 evaluation differ; on the other concrete requests the two
      give the same shares and, to within 1e-9, the same optimal ratio
      ([binary64_agrees_on_requests]).
    - A Python [dict] is an insertion-ordered association list: iteration
      order is observable in the source (capacity is consumed in dictionary
      order, ties of [sorted] are broken by it).
    - A raised exception is the [Raise] outcome of the [result] monad.
    - A [for i in range(num_classrooms)] loop over lists of that length is
      a recursion on the lists themselves. *)

From Stdlib Require Import ZArith QArith Qround List String Bool Lia Lqa.
From Stdlib Require Import Permutation.
From Stdlib Require Import Floats.SpecFloat.
Import ListNotations.

Local Open Scope Z_scope.

(** ** Exceptions *)

Inductive exn : Type :=
| KeyError (key : string)
| ZeroDivisionError
| ValueError
| IndexError
| OverflowError.

Inductive result (A : Type) : Type :=
| Ok (a : A)
| Raise (e : exn).
Arguments Ok {A} a.
Arguments Raise {A} e.

Definition bind {A B} (c : result A) (k : A -> result B) : result B :=
  match c with
  | Ok a => k a
  | Raise e => Raise e
  end.

(** ** Python numeric primitives *)

Module Py.

Definition Qltb (x y : Q) : bool := negb (Qle_bool y x).

(** [round(x)] on a float: nearest integer, ties to the even one. *)
Definition round (x : Q) : Z :=
  let f := Qfloor x in
  match Qcompare (x - inject_Z f)%Q (1 # 2)%Q with
  | Lt => f
  | Gt => f + 1
  | Eq => if Z.even f then f else f + 1
  end.

(** [int(x)] on a float: truncation towards zero. *)
Definition int (x : Q) : Z := Z.quot (Qnum x) (Zpos (Qden x)).

(** [min(a, b)] and [max(a, b)]: the first argument wins a tie. *)
Definition min (a b : Q) : Q := if Qltb b a then b else a.
Definition max (a b : Q) : Q := if Qltb a b then b else a.
Definition zmin (a b : Z) : Z := if b <? a then b else a.
Definition zmax (a b : Z) : Z := if a <? b then b else a.

(** [a / b] (true division). *)
Definition div (a b : Q) : result Q :=
  if Qeq_bool b 0 then Raise ZeroDivisionError else Ok (a / b)%Q.

(** [a // b] and [a % b] with a float (or int) [a] and an int [b]. *)
Definition floordiv (a : Q) (b : Z) : Q := inject_Z (Qfloor (a / inject_Z b)%Q).
Definition fmod (a : Q) (b : Z) : Q := (a - inject_Z b * floordiv a b)%Q.

(** [range(a, b)]. *)
Definition range (a b : Z) : list Z :=
  map (fun k => a + Z.of_nat k) (seq 0 (Z.to_nat (b - a))).

Definition sum (l : list Z) : Z := fold_left Z.add l 0.
Definition fsum (l : list Q) : Q := fold_left Qplus l 0%Q.

(** [sorted(items, key=lambda x: x[1])] and its [reverse=True] variant:
    a stable sort, so entries of equal key keep their dictionary order in
    both directions. *)
Fixpoint insert_by {A} (before : Z -> Z -> bool) (x : A * Z) (l : list (A * Z))
  : list (A * Z) :=
  match l with
  | [] => [x]
  | y :: l' => if before (snd x) (snd y) then x :: l else y :: insert_by before x l'
  end.

Definition sorted_by {A} (before : Z -> Z -> bool) (l : list (A * Z)) : list (A * Z) :=
  fold_right (insert_by before) [] l.

Definition sorted_by_value {A} (l : list (A * Z)) : list (A * Z) :=
  sorted_by Z.leb l.
Definition sorted_by_value_reverse {A} (l : list (A * Z)) : list (A * Z) :=
  sorted_by Z.geb l.

End Py.

Declare Scope py_scope.
Delimit Scope py_scope with py.
Notation "x <- c ;; k" := (bind c (fun x => k))
  (at level 61, c at next level, right associativity) : py_scope.
Notation "' pat <- c ;; k" := (bind c (fun x => match x with pat => k end))
  (at level 61, pat pattern, c at next level, right associativity) : py_scope.
Local Open Scope py_scope.

(** ** Insertion-ordered dictionaries *)

Module Dict.

Definition dict (V : Type) : Type := list (string * V).

Section Ops.
Context {V : Type}.

Fixpoint get (k : string) (d : dict V) : option V :=
  match d with
  | [] => None
  | (k', v) :: d' => if String.eqb k k' then Some v else get k d'
  end.

(** [d[k]]: raises [KeyError] on a missing key. *)
Definition lookup (k : string) (d : dict V) : result V :=
  match get k d with
  | Some v => Ok v
  | None => Raise (KeyError k)
  end.

(** [d.get(k, default)]. *)
Definition get_default (k : string) (default : V) (d : dict V) : V :=
  match get k d with
  | Some v => v
  | None => default
  end.

(** [k in d]. *)
Definition mem (k : string) (d : dict V) : bool :=
  match get k d with
  | Some _ => true
  | None => false
  end.

(** [d[k] = v]: an existing key keeps its position, a new key goes last. *)
Fixpoint set (k : string) (v : V) (d : dict V) : dict V :=
  match d with
  | [] => [(k, v)]
  | (k', v') :: d' =>
      if String.eqb k k' then (k', v) :: d' else (k', v') :: set k v d'
  end.

Definition keys (d : dict V) : list string := map fst d.
Definition values (d : dict V) : list V := map snd d.
End Ops.

End Dict.

Abbreviation dict := Dict.dict.

(** ** Data model *)

Record AllocationRequest : Type := {
  total_students : Z;
  total_teachers : Z;
  num_classrooms : Z;
  min_students_per_teacher : Z;
  max_students_per_teacher : Z;
  ideal_ratio : Q;
  max_class_size : Z;
  subject_names : list string;
  subject_difficulties : dict Z;
  teacher_distribution : dict Q;
  (** read with [input_data.get('prioritize_experience', True)] *)
  prioritize_experience : option bool
}.

Record SubjectAllocation : Type := {
  teachers_allocated : Z;
  students_allocated : Z;
  ratio : Q
}.

Record ClassroomAllocation : Type := {
  teachers_assigned : Z;
  students_assigned : Q;
  subjects : list string;
  classroom_ratio : Q
}.

Record TeacherRecord : Type := {
  subject : string;
  teacher_students_assigned : Q;
  (** the number [i+1] of the label ["Classroom {i+1}"] *)
  classroom : Z;
  utilization : Q
}.

(** ** Teachers per subject (source lines 27-58) *)

Definition initial_teachers (total_teachers : Z) (teacher_distribution : dict Q)
  : dict Z :=
  fold_left
    (fun tps sp =>
       Dict.set (fst sp)
                (Py.round ((snd sp / 100) * inject_Z total_teachers)%Q) tps)
    teacher_distribution [].

(** The loop of lines 41-45; [total] is [total_allocated]. *)
Fixpoint add_teachers (total_teachers : Z) (sorted_subjects : list (string * Z))
  (tps : dict Z) (total : Z) : result (dict Z) :=
  match sorted_subjects with
  | [] => Ok tps
  | (subject, _) :: rest =>
      if total >=? total_teachers then Ok tps
      else
        t <- Dict.lookup subject tps ;;
        add_teachers total_teachers rest (Dict.set subject (t + 1) tps) (total + 1)
  end.

(** The loop of lines 53-58. *)
Fixpoint remove_teachers (total_teachers : Z) (sorted_subjects : list (string * Z))
  (tps : dict Z) (total : Z) : result (dict Z) :=
  match sorted_subjects with
  | [] => Ok tps
  | (subject, _) :: rest =>
      if total <=? total_teachers then Ok tps
      else
        t <- Dict.lookup subject tps ;;
        if 1 <? t
        then remove_teachers total_teachers rest (Dict.set subject (t - 1) tps) (total - 1)
        else remove_teachers total_teachers rest tps total
  end.

Definition teachers_per_subject (inp : AllocationRequest) : result (dict Z) :=
  let tps := initial_teachers (total_teachers inp) (teacher_distribution inp) in
  let total_allocated := Py.sum (Dict.values tps) in
  if total_allocated <? total_teachers inp then
    add_teachers (total_teachers inp)
      (Py.sorted_by_value_reverse (subject_difficulties inp)) tps total_allocated
  else if total_teachers inp <? total_allocated then
    remove_teachers (total_teachers inp)
      (Py.sorted_by_value (subject_difficulties inp)) tps total_allocated
  else Ok tps.

(** ** Students per subject (source lines 60-120) *)

Definition avg_ratio (inp : AllocationRequest) : Q :=
  if 0 <? total_teachers inp
  then (inject_Z (total_students inp) / inject_Z (total_teachers inp))%Q
  else 15%Q.

(** [max(lo, min(hi, (10 - difficulty) / 5))]. *)
Definition clamped_factor (lo hi : Q) (difficulty : Z) : Q :=
  Py.max lo (Py.min hi (inject_Z (10 - difficulty) / 5)%Q).

Definition ideal_subject_ratios (inp : AllocationRequest) : dict Q :=
  fold_left
    (fun isr sd =>
       Dict.set (fst sd)
                (avg_ratio inp * clamped_factor (6 # 10) (14 # 10) (snd sd))%Q isr)
    (subject_difficulties inp) [].

(** The loop of lines 75-86 over [teachers_per_subject.items()]. *)
Fixpoint initial_students (total_students : Z) (isr : dict Q)
  (items : list (string * Z)) (sps : dict Z) (remaining_students : Z)
  : result (dict Z * Z) :=
  match items with
  | [] => Ok (sps, remaining_students)
  | (subject, teachers) :: rest =>
      n <- (if 0 <? teachers then
              r <- Dict.lookup subject isr ;;
              let ideal_students := Py.round (inject_Z teachers * r)%Q in
              let max_students_for_subject :=
                Py.int (inject_Z total_students * (4 # 10))%Q in
              Ok (Py.zmin max_students_for_subject ideal_students)
            else Ok 0) ;;
      initial_students total_students isr rest
        (Dict.set subject n sps) (remaining_students - n)
  end.

(** The loop of lines 93-104 over the subjects sorted by difficulty. *)
Fixpoint distribute_remaining (sorted_subjects : list (string * Z))
  (sps : dict Z) (remaining_students : Z) : result (dict Z * Z) :=
  match sorted_subjects with
  | [] => Ok (sps, remaining_students)
  | (subject, _) :: rest =>
      if remaining_students =? 0 then Ok (sps, remaining_students)
      else if 0 <? remaining_students then
        n <- Dict.lookup subject sps ;;
        distribute_remaining rest (Dict.set subject (n + 1) sps)
          (remaining_students - 1)
      else
        n <- Dict.lookup subject sps ;;
        if 1 <? n
        then distribute_remaining rest (Dict.set subject (n - 1) sps)
               (remaining_students + 1)
        else distribute_remaining rest sps remaining_students
  end.

(** The loop of lines 112-120 over [subject_names]. *)
Fixpoint balance (names : list string) (sps : dict Z) (diff : Z)
  : result (dict Z) :=
  match names with
  | [] => Ok sps
  | subject :: rest =>
      if diff =? 0 then Ok sps
      else if 0 <? diff then
        n <- Dict.lookup subject sps ;;
        balance rest (Dict.set subject (n + 1) sps) (diff - 1)
      else
        n <- Dict.lookup subject sps ;;
        balance rest (Dict.set subject (n - 1) sps) (diff + 1)
  end.

Definition students_per_subject (inp : AllocationRequest) (tps : dict Z)
  : result (dict Z) :=
  '(sps, remaining_students) <-
    initial_students (total_students inp) (ideal_subject_ratios inp) tps []
      (total_students inp) ;;
  '(sps, _) <-
    distribute_remaining (Py.sorted_by_value (subject_difficulties inp))
      sps remaining_students ;;
  let total_student_allocated := Py.sum (Dict.values sps) in
  let diff := total_students inp - total_student_allocated in
  if diff =? 0 then Ok sps else balance (subject_names inp) sps diff.

(** ** Subject allocation (source lines 128-133) *)

Fixpoint init_subject_allocation (names : list string) (tps sps : dict Z)
  (sa : dict SubjectAllocation) : result (dict SubjectAllocation) :=
  match names with
  | [] => Ok sa
  | subject :: rest =>
      t <- Dict.lookup subject tps ;;
      s <- Dict.lookup subject sps ;;
      let entry :=
        {| teachers_allocated := t;
           students_allocated := s;
           ratio := if 0 <? t then (inject_Z s / inject_Z t)%Q else 0%Q |} in
      init_subject_allocation rest tps sps (Dict.set subject entry sa)
  end.

(** ** Teachers per classroom (source lines 153-179) *)

Definition extra_classrooms (num_classrooms : Z) : list Z :=
  if 3 <? num_classrooms
  then Py.range 1 (num_classrooms - 1) ++ [0; num_classrooms - 1]
  else Py.range 0 num_classrooms.

(** The list built by lines 162-179 for one subject with [count] teachers. *)
Definition teacher_counts (num_classrooms count : Z) : list Z :=
  let base_teachers := count / num_classrooms in
  let extra_teachers := count mod num_classrooms in
  map
    (fun i =>
       if (i <? extra_teachers)
          && existsb (Z.eqb i)
               (firstn (Z.to_nat extra_teachers) (extra_classrooms num_classrooms))
       then base_teachers + 1
       else base_teachers)
    (Py.range 0 num_classrooms).

Definition teachers_per_classroom_subject (num_classrooms : Z) (tps : dict Z)
  : dict (list Z) :=
  fold_left
    (fun tpcs sc =>
       if snd sc =? 0 then tpcs
       else Dict.set (fst sc) (teacher_counts num_classrooms (snd sc)) tpcs)
    tps [].

(** ** Students per classroom (source lines 183-244) *)

(** Lines 199-212: the allocation in proportion to the teacher counts.
    Returns the subject's row, the capacities and [remaining_students]. *)
Fixpoint proportional_pass (total_teachers count : Z) (tcs : list Z)
  (classroom_capacities : list Q) (remaining_students : Z)
  : list Q * list Q * Z :=
  match tcs, classroom_capacities with
  | tc :: tcs', cap :: caps' =>
      let student_count :=
        if total_teachers =? 0 then 0
        else
          let ideal_count :=
            Py.round ((inject_Z tc / inject_Z total_teachers) * inject_Z count)%Q in
          Py.zmin (Py.zmin ideal_count (Py.int cap)) remaining_students in
      let '(row, caps'', rem) :=
        proportional_pass total_teachers count tcs' caps'
          (remaining_students - student_count) in
      (inject_Z student_count :: row, (cap - inject_Z student_count)%Q :: caps'', rem)
  | _, _ => ([], classroom_capacities, remaining_students)
  end.

(** Lines 216-222 and 239-244: leftover students go to classrooms that
    still have capacity. *)
Fixpoint sweep (row classroom_capacities : list Q) (remaining_students : Q)
  : list Q * list Q * Q :=
  match row, classroom_capacities with
  | cell :: row', cap :: caps' =>
      if Py.Qltb 0 cap && Py.Qltb 0 remaining_students then
        let extra := Py.min cap remaining_students in
        let '(row'', caps'', rem) := sweep row' caps' (remaining_students - extra)%Q in
        ((cell + extra)%Q :: row'', (cap - extra)%Q :: caps'', rem)
      else
        let '(row'', caps'', rem) := sweep row' caps' remaining_students in
        (cell :: row'', cap :: caps'', rem)
  | _, _ => (row, classroom_capacities, remaining_students)
  end.

(** Lines 225-236: the even spread of a subject without teachers; [i] is
    the loop index and the cells after a [break] keep their initial 0. *)
Fixpoint even_pass (num_classrooms i : Z) (classroom_capacities : list Q)
  (remaining_students : Z) : list Q * list Q * Z :=
  match classroom_capacities with
  | [] => ([], [], remaining_students)
  | cap :: caps' =>
      if remaining_students <=? 0
      then (map (fun _ => 0%Q) classroom_capacities, classroom_capacities,
            remaining_students)
      else
        let even_share := remaining_students / (num_classrooms - i) in
        let student_count := Py.zmin even_share (Py.int cap) in
        let '(row, caps'', rem) :=
          even_pass num_classrooms (i + 1) caps' (remaining_students - student_count) in
        (inject_Z student_count :: row, (cap - inject_Z student_count)%Q :: caps'', rem)
  end.

(** State of the loop of line 189: the rows built so far, the capacities,
    and the local variable [total_teachers], which line 196 overwrites. *)
Record SpreadState : Type := {
  spcs : dict (list Q);
  capacities : list Q;
  total_teachers_var : Z
}.

(** One iteration of the loop of line 189. *)
Definition spread_subject (num_classrooms : Z) (tpcs : dict (list Z))
  (st : SpreadState) (subject : string) (count : Z) : SpreadState :=
  let with_teachers :=
    match Dict.get subject tpcs with
    | Some tcs => if 0 <? Py.sum tcs then Some tcs else None
    | None => None
    end in
  match with_teachers with
  | Some tcs =>
      let total_teachers := Py.sum tcs in
      let '(row, caps, rem) :=
        proportional_pass total_teachers count tcs (capacities st) count in
      let '(row, caps, _) :=
        if 0 <? rem then sweep row caps (inject_Z rem)
        else (row, caps, inject_Z rem) in
      {| spcs := Dict.set subject row (spcs st);
         capacities := caps;
         total_teachers_var := total_teachers |}
  | None =>
      let '(row, caps, rem) := even_pass num_classrooms 0 (capacities st) count in
      let '(row, caps, _) := sweep row caps (inject_Z rem) in
      {| spcs := Dict.set subject row (spcs st);
         capacities := caps;
         total_teachers_var := total_teachers_var st |}
  end.

Definition students_per_classroom_subject (num_classrooms : Z) (max_size : Q)
  (total_teachers : Z) (tpcs : dict (list Z)) (sps : dict Z) : SpreadState :=
  fold_left
    (fun st sc => spread_subject num_classrooms tpcs st (fst sc) (snd sc))
    sps
    {| spcs := [];
       capacities := map (fun _ => max_size) (Py.range 0 num_classrooms);
       total_teachers_var := total_teachers |}.

(** ** Classroom totals and teacher records (source lines 246-300) *)

(** [l[i]] for an index [0 <= i]. *)
Definition index {A} (l : list A) (i : Z) : result A :=
  match nth_error l (Z.to_nat i) with
  | Some x => Ok x
  | None => Raise IndexError
  end.

(** Lines 264-294: the records of the teachers of one subject in classroom
    [i]. *)
Definition teacher_records (inp : AllocationRequest) (subject : string) (i : Z)
  (teachers_to_allocate : Z) (students_to_allocate : Q) : list TeacherRecord :=
  let base_students_per_teacher :=
    if 0 <? teachers_to_allocate
    then Py.floordiv students_to_allocate teachers_to_allocate else 0%Q in
  let extra_students :=
    if 0 <? teachers_to_allocate
    then Py.fmod students_to_allocate teachers_to_allocate else 0%Q in
  let difficulty := Dict.get_default subject 5 (subject_difficulties inp) in
  map
    (fun t_idx =>
       let students_for_this_teacher :=
         if Py.Qltb (inject_Z t_idx) extra_students
         then (base_students_per_teacher + 1)%Q
         else base_students_per_teacher in
       let difficulty_factor := clamped_factor (7 # 10) (13 # 10) difficulty in
       let adjusted_students :=
         inject_Z
           (Py.zmax 1 (Py.round (students_for_this_teacher * difficulty_factor)%Q)) in
       let adjusted_students :=
         if Py.Qltb (students_for_this_teacher + 2)%Q adjusted_students
         then (students_for_this_teacher + 2)%Q else adjusted_students in
       let adjusted_students :=
         if Py.Qltb adjusted_students (students_for_this_teacher - 2)%Q
         then (students_for_this_teacher - 2)%Q else adjusted_students in
       {| subject := subject;
          teacher_students_assigned := adjusted_students;
          classroom := i + 1;
          utilization :=
            if 0 <? max_students_per_teacher inp
            then (adjusted_students / inject_Z (max_students_per_teacher inp) * 100)%Q
            else 0%Q |})
    (Py.range 0 teachers_to_allocate).

Definition empty_classroom : ClassroomAllocation :=
  {| teachers_assigned := 0; students_assigned := 0%Q; subjects := [];
     classroom_ratio := 0%Q |}.

(** The loop of line 250 for classroom [i]. *)
Fixpoint update_classroom (inp : AllocationRequest) (tpcs : dict (list Z))
  (spcs : dict (list Q)) (i : Z) (names : list string)
  (c : ClassroomAllocation) (teacher_allocation : list TeacherRecord)
  : result (ClassroomAllocation * list TeacherRecord) :=
  match names with
  | [] => Ok (c, teacher_allocation)
  | subject :: rest =>
      match Dict.get subject tpcs with
      | None => update_classroom inp tpcs spcs i rest c teacher_allocation
      | Some tcs =>
          teachers_to_allocate <- index tcs i ;;
          row <- Dict.lookup subject spcs ;;
          students_to_allocate <- index row i ;;
          if (0 <? teachers_to_allocate) || Py.Qltb 0 students_to_allocate then
            let c' :=
              {| teachers_assigned := teachers_assigned c + teachers_to_allocate;
                 students_assigned := (students_assigned c + students_to_allocate)%Q;
                 subjects :=
                   if existsb (String.eqb subject) (subjects c)
                   then subjects c else subjects c ++ [subject];
                 classroom_ratio := classroom_ratio c |} in
            update_classroom inp tpcs spcs i rest c'
              (teacher_allocation
                 ++ teacher_records inp subject i teachers_to_allocate
                      students_to_allocate)
          else update_classroom inp tpcs spcs i rest c teacher_allocation
      end
  end.

(** Lines 296-300. *)
Definition with_ratio (c : ClassroomAllocation) : ClassroomAllocation :=
  {| teachers_assigned := teachers_assigned c;
     students_assigned := students_assigned c;
     subjects := subjects c;
     classroom_ratio :=
       if 0 <? teachers_assigned c
       then (students_assigned c / inject_Z (teachers_assigned c))%Q else 0%Q |}.

(** The loop of line 247 over the classroom indices. *)
Fixpoint update_classrooms (inp : AllocationRequest) (tpcs : dict (list Z))
  (spcs : dict (list Q)) (indices : list Z)
  (teacher_allocation : list TeacherRecord)
  : result (list ClassroomAllocation * list TeacherRecord) :=
  match indices with
  | [] => Ok ([], teacher_allocation)
  | i :: rest =>
      '(c, teacher_allocation) <-
        update_classroom inp tpcs spcs i (subject_names inp) empty_classroom
          teacher_allocation ;;
      '(cs, teacher_allocation) <-
        update_classrooms inp tpcs spcs rest teacher_allocation ;;
      Ok (with_ratio c :: cs, teacher_allocation)
  end.

(** ** Overall ratio (source lines 305-341) *)

Definition prioritizes_experience (inp : AllocationRequest) : bool :=
  match prioritize_experience inp with
  | Some b => b
  | None => true
  end.

(** The factor chosen at lines 312-319. *)
Definition weight_factor (difficulty : Z) : Q :=
  if 7 <=? difficulty then (85 # 100)%Q
  else if difficulty <=? 3 then (115 # 100)%Q
  else 1%Q.

(** The loop of lines 310-322: [(weighted_students, weighted_teachers)]. *)
Definition weighted_totals (inp : AllocationRequest)
  (subject_allocation : dict SubjectAllocation) : Z * Q :=
  fold_left
    (fun w sd =>
       let difficulty := Dict.get_default (fst sd) 5 (subject_difficulties inp) in
       (fst w + students_allocated (snd sd),
        (snd w + inject_Z (teachers_allocated (snd sd)) * weight_factor difficulty)%Q))
    subject_allocation (0, 0%Q).

(** Lines 338-341. *)
Definition pull_towards_ideal (ideal_ratio overall_ratio : Q) : Q :=
  if Py.Qltb (ideal_ratio * (12 # 10))%Q overall_ratio
  then ((overall_ratio + ideal_ratio) / 2)%Q
  else if Py.Qltb overall_ratio (ideal_ratio * (8 # 10))%Q
  then ((overall_ratio + ideal_ratio) / 2)%Q
  else overall_ratio.

(** [total_teachers] is the local variable as it stands at line 332. *)
Definition overall_ratio (inp : AllocationRequest)
  (subject_allocation : dict SubjectAllocation) (total_teachers : Z) : result Q :=
  let '(weighted_students, weighted_teachers) :=
    weighted_totals inp subject_allocation in
  overall_ratio <-
    (if Py.Qltb 0 weighted_teachers then
       let base_ratio := (inject_Z weighted_students / weighted_teachers)%Q in
       let experience_factor :=
         if prioritizes_experience inp then (9 # 10)%Q else 1%Q in
       Ok (base_ratio * experience_factor)%Q
     else
       q <- Py.div (inject_Z (total_students inp)) (inject_Z total_teachers) ;;
       Ok (q * (9 # 10))%Q) ;;
  Ok (pull_towards_ideal (ideal_ratio inp) overall_ratio).

(** ** Recommendations (source lines 360-488)

    A recommendation is a fixed template; its record keeps the scores, the
    timeline and the numbers that the template formats into its text. *)

Inductive SubjectAdvice : Type :=
| ReduceRatio (subject : string) (from to : Q)
| IncreaseRatio (subject : string) (from to : Q).

Inductive RecommendationText : Type :=
| UseBestRatio (optimal_ratio : Q)
| AdjustEachSubject (action_items : list SubjectAdvice)
| BalanceClassrooms (min_ratio max_ratio : Q)
| UseTeachersEfficiently (avg_utilization : Q)
| PlanStaffing.

Record Recommendation : Type := {
  text : RecommendationText;
  impact_score : Z;
  ease_score : Z;
  timeline_start : Z;
  timeline_duration : Z
}.

(** The loop of lines 396-405. *)
Definition subject_recommendations (inp : AllocationRequest) (optimal_ratio : Q)
  (subject_allocation : dict SubjectAllocation) : list SubjectAdvice :=
  fold_left
    (fun acc sd =>
       let difficulty := Dict.get_default (fst sd) 5 (subject_difficulties inp) in
       let r := ratio (snd sd) in
       if (7 <=? difficulty) && Py.Qltb optimal_ratio r then
         acc ++ [ReduceRatio (fst sd) r (Py.max (optimal_ratio - 2) (r * (8 # 10)))%Q]
       else if (difficulty <=? 3) && Py.Qltb r optimal_ratio then
         acc ++ [IncreaseRatio (fst sd) r (Py.min (optimal_ratio + 2) (r * (12 # 10)))%Q]
       else acc)
    subject_allocation [].

(** [min(...)] and [max(...)] over a generator: [ValueError] when it is
    empty. *)
Definition min_of (l : list Q) : result Q :=
  match l with
  | [] => Raise ValueError
  | x :: l' => Ok (fold_left (fun m y => if Py.Qltb y m then y else m) l' x)
  end.

Definition max_of (l : list Q) : result Q :=
  match l with
  | [] => Raise ValueError
  | x :: l' => Ok (fold_left (fun m y => if Py.Qltb m y then y else m) l' x)
  end.

Definition generate_recommendations (inp : AllocationRequest) (optimal_ratio : Q)
  (teacher_allocation : list TeacherRecord)
  (classroom_allocation : list ClassroomAllocation)
  (subject_allocation : dict SubjectAllocation) : result (list Recommendation) :=
  let recommendations :=
    [{| text := UseBestRatio optimal_ratio; impact_score := 9; ease_score := 6;
        timeline_start := 0; timeline_duration := 8 |}] in
  let advice := subject_recommendations inp optimal_ratio subject_allocation in
  let recommendations :=
    match advice with
    | [] => recommendations
    | _ => recommendations
             ++ [{| text := AdjustEachSubject advice; impact_score := 8;
                    ease_score := 5; timeline_start := 2; timeline_duration := 6 |}]
    end in
  recommendations <-
    (if (1 <? Z.of_nat (List.length classroom_allocation)) then
       let positive :=
         filter (fun r => Py.Qltb 0 r) (map classroom_ratio classroom_allocation) in
       min_ratio <- min_of positive ;;
       max_ratio <- max_of positive ;;
       if Py.Qltb 3 (max_ratio - min_ratio)%Q then
         Ok (recommendations
               ++ [{| text := BalanceClassrooms min_ratio max_ratio;
                      impact_score := 7; ease_score := 3;
                      timeline_start := 1; timeline_duration := 4 |}])
       else Ok recommendations
     else Ok recommendations) ;;
  let teacher_utilization := map utilization teacher_allocation in
  let avg_utilization :=
    match teacher_utilization with
    | [] => 0%Q
    | _ => (Py.fsum teacher_utilization
            / inject_Z (Z.of_nat (List.length teacher_utilization)))%Q
    end in
  let recommendations :=
    if Py.Qltb avg_utilization 80 then
      recommendations
        ++ [{| text := UseTeachersEfficiently avg_utilization; impact_score := 8;
               ease_score := 4; timeline_start := 4; timeline_duration := 10 |}]
    else recommendations in
  Ok (recommendations
        ++ [{| text := PlanStaffing; impact_score := 9; ease_score := 3;
               timeline_start := 6; timeline_duration := 12 |}]).

(** ** The entry point (source lines 4-358) *)

Record OptimizationResult : Type := {
  optimal_ratio : Q;
  teacher_allocation : list TeacherRecord;
  classroom_allocation : list ClassroomAllocation;
  subject_allocation : dict SubjectAllocation;
  recommendations : list Recommendation
}.

(** Lines 150-151. *)
Definition capacity_ceiling (inp : AllocationRequest) : result Q :=
  avg_students_per_classroom <-
    Py.div (inject_Z (total_students inp)) (inject_Z (num_classrooms inp)) ;;
  Ok (if 0 <? max_class_size inp
      then Py.min (avg_students_per_classroom * (12 # 10))%Q
                  (inject_Z (max_class_size inp))
      else (avg_students_per_classroom * (12 # 10))%Q).

Definition optimize_teacher_allocation (inp : AllocationRequest)
  : result OptimizationResult :=
  tps <- teachers_per_subject inp ;;
  sps <- students_per_subject inp tps ;;
  subject_allocation <- init_subject_allocation (subject_names inp) tps sps [] ;;
  max_size <- capacity_ceiling inp ;;
  let tpcs := teachers_per_classroom_subject (num_classrooms inp) tps in
  let st :=
    students_per_classroom_subject (num_classrooms inp) max_size
      (total_teachers inp) tpcs sps in
  '(classroom_allocation, teacher_allocation) <-
    update_classrooms inp tpcs (spcs st) (Py.range 0 (num_classrooms inp)) [] ;;
  overall_ratio <- overall_ratio inp subject_allocation (total_teachers_var st) ;;
  recommendations <-
    generate_recommendations inp overall_ratio teacher_allocation
      classroom_allocation subject_allocation ;;
  Ok {| optimal_ratio := overall_ratio;
        teacher_allocation := teacher_allocation;
        classroom_allocation := classroom_allocation;
        subject_allocation := subject_allocation;
        recommendations := recommendations |}.

(** ** Well-formed requests

    The constraints of the data model on a request: positive counts, a
    positive ideal ratio and class size, unique subject names,
    difficulties between 1 and 10, percentages that are not negative, and
    dictionaries whose keys are subjects of the subject list. *)

Record valid_request (inp : AllocationRequest) : Prop := {
  valid_students : 1 <= total_students inp;
  valid_teachers : 1 <= total_teachers inp;
  valid_classrooms : 1 <= num_classrooms inp;
  valid_ideal_ratio : (0 < ideal_ratio inp)%Q;
  valid_class_size : 0 < max_class_size inp;
  valid_names : NoDup (subject_names inp);
  valid_difficulties :
    Forall (fun sd => 1 <= snd sd <= 10) (subject_difficulties inp);
  valid_difficulty_keys :
    NoDup (Dict.keys (subject_difficulties inp))
    /\ incl (Dict.keys (subject_difficulties inp)) (subject_names inp);
  valid_percentages :
    Forall (fun sp => (0 <= snd sp)%Q) (teacher_distribution inp);
  valid_distribution_keys :
    NoDup (Dict.keys (teacher_distribution inp))
    /\ incl (Dict.keys (teacher_distribution inp)) (subject_names inp)
}.

(** Sums over the result. *)
Definition total_teachers_allocated (r : OptimizationResult) : Z :=
  Py.sum (map teachers_allocated (Dict.values (subject_allocation r))).

Definition total_students_allocated (r : OptimizationResult) : Z :=
  Py.sum (map students_allocated (Dict.values (subject_allocation r))).

Definition total_students_assigned (r : OptimizationResult) : Q :=
  Py.fsum (map students_assigned (classroom_allocation r)).

(** ** Reach of the single reconciliation pass (source lines 33-58) *)

Definition holds_more_than_one (tps : dict Z) (sd : string * Z) : bool :=
  match Dict.get (fst sd) tps with
  | Some t => 1 <? t
  | None => false
  end.

(** The rounded shares miss [total_teachers] by no more than one pass can
    repair: at most one teacher added per subject, at most one removed per
    subject that holds more than one. *)
Definition single_pass_suffices (inp : AllocationRequest) : Prop :=
  let tps := initial_teachers (total_teachers inp) (teacher_distribution inp) in
  let total_allocated := Py.sum (Dict.values tps) in
  let subjects := Z.of_nat (List.length (subject_difficulties inp)) in
  let reducible :=
    Z.of_nat (List.length (filter (holds_more_than_one tps) (subject_difficulties inp))) in
  total_teachers inp - subjects <= total_allocated <= total_teachers inp + reducible.

(** ** Auxiliary notions of the proofs *)

(** A dictionary filled by a loop [for k, x in items: d[k] = f(k, x)]. *)
Definition fill {K V : Type} (f : string * K -> V) (l : list (string * K))
  (acc : dict V) : dict V :=
  fold_left (fun d e => Dict.set (fst e) (f e) d) l acc.

(** The number of entries of [order] that hold more than one teacher. *)
Definition reducible (tps : dict Z) (order : list (string * Z)) : Z :=
  Z.of_nat (List.length (filter (holds_more_than_one tps) order)).

(** The entry that lines 129-133 build for a subject. *)
Definition entry_of (tps sps : dict Z) (subject : string) : SubjectAllocation :=
  let t := Dict.get_default subject 0 tps in
  let s := Dict.get_default subject 0 sps in
  {| teachers_allocated := t;
     students_allocated := s;
     ratio := if 0 <? t then (inject_Z s / inject_Z t)%Q else 0%Q |}.

(** ** The weighted teachers as the specification words them *)

(** 0.85 for a difficulty of 7 or more, 1.15 for 3 or less, 1.0 otherwise;
    a subject without a difficulty counts as difficulty 5. *)
Definition spec_difficulty_factor (inp : AllocationRequest) (subject : string) : Q :=
  let difficulty := Dict.get_default subject 5 (subject_difficulties inp) in
  if 7 <=? difficulty then (85 # 100)%Q
  else if difficulty <=? 3 then (115 # 100)%Q
  else 1%Q.

Definition spec_weighted_teachers (inp : AllocationRequest)
  (sa : dict SubjectAllocation) : Q :=
  Py.fsum
    (map (fun e => (inject_Z (teachers_allocated (snd e))
                    * spec_difficulty_factor inp (fst e))%Q) sa).

(** ** Invariants of the spread over the classrooms *)

(** The students of all rows in classroom [i]. *)
Definition column (rows : dict (list Q)) (i : nat) : Q :=
  Py.fsum (map (fun e => nth i (snd e) 0%Q) rows).

(** The students placed by all rows. *)
Definition placed (rows : dict (list Q)) : Q :=
  Py.fsum (map (fun e => Py.fsum (snd e)) rows).

(** [m] capacities and rows of [m] cells, none of them negative. *)
Definition rows_ok (m : nat) (st : SpreadState) : Prop :=
  List.length (capacities st) = m
  /\ Forall (fun c => (0 <= c)%Q) (capacities st)
  /\ Forall (fun e => List.length (snd e) = m
                      /\ Forall (fun c => (0 <= c)%Q) (snd e)) (spcs st).

(** The teacher lists have [m] entries, and a list with a positive sum has
    no negative entry. *)
Definition teacher_rows_ok (m : nat) (tpcs : dict (list Z)) : Prop :=
  forall s tcs,
    Dict.get s tpcs = Some tcs ->
    List.length tcs = m /\ (0 < Py.sum tcs -> Forall (fun t => 0 <= t) tcs).

(** What line 258 adds to classroom [i] for a subject. *)
Definition contribution (tpcs : dict (list Z)) (rows : dict (list Q)) (i : nat)
  (subject : string) : Q :=
  match Dict.get subject tpcs with
  | None => 0%Q
  | Some tcs =>
      let t := nth i tcs 0 in
      let s := nth i (Dict.get_default subject [] rows) 0%Q in
      if (0 <? t) || Py.Qltb 0 s then s else 0%Q
  end.

(** ** Concrete requests *)

Definition request (students teachers classrooms class_size : Z)
  (names : list string) (difficulties : dict Z) (distribution : dict Q)
  : AllocationRequest :=
  {| total_students := students;
     total_teachers := teachers;
     num_classrooms := classrooms;
     min_students_per_teacher := 5;
     max_students_per_teacher := 25;
     ideal_ratio := 15%Q;
     max_class_size := class_size;
     subject_names := names;
     subject_difficulties := difficulties;
     teacher_distribution := distribution;
     prioritize_experience := Some true |}.

(** Two subjects at 100 % each, four teachers. *)
Definition request_unnormalised : AllocationRequest :=
  request 100 4 1 30 ["A"; "B"]%string
    [("A", 5); ("B", 5)]%string [("A", 100%Q); ("B", 100%Q)]%string.

(** Five subjects at 20 % each, three teachers: every share rounds to 1. *)
Definition request_floor_of_one : AllocationRequest :=
  request 100 3 1 30 ["A"; "B"; "C"; "D"; "E"]%string
    [("A", 5); ("B", 5); ("C", 5); ("D", 5); ("E", 5)]%string
    [("A", 20%Q); ("B", 20%Q); ("C", 20%Q); ("D", 20%Q); ("E", 20%Q)]%string.

(** The scenario of the application's defaults: 500 students, 50 teachers,
    20 classrooms, five subjects. *)
Definition request_school : AllocationRequest :=
  request 500 50 20 30 ["Math"; "Science"; "History"; "English"; "Art"]%string
    [("Math", 7); ("Science", 6); ("History", 5); ("English", 4); ("Art", 3)]%string
    [("Math", 20%Q); ("Science", 20%Q); ("History", 20%Q); ("English", 20%Q);
     ("Art", 20%Q)]%string.

(** A hard and an easy subject, one teacher each. *)
Definition request_two_subjects : AllocationRequest :=
  request 100 2 1 30 ["Math"; "Art"]%string
    [("Math", 7); ("Art", 3)]%string [("Math", 50%Q); ("Art", 50%Q)]%string.

(** A subject with 0 % of the teachers. *)
Definition request_no_teacher_subject : AllocationRequest :=
  request 10 1 1 30 ["A"; "B"]%string
    [("A", 5); ("B", 5)]%string [("A", 100%Q); ("B", 0%Q)]%string.

(** Two classrooms of 10 places for 100 students. *)
Definition request_tight_classrooms : AllocationRequest :=
  request 100 10 2 10 ["Math"]%string [("Math", 5)]%string [("Math", 100%Q)]%string.

(** One classroom of 30 places for 100 students. *)
Definition request_small_classroom : AllocationRequest :=
  request 100 10 1 30 ["Math"]%string [("Math", 5)]%string [("Math", 100%Q)]%string.

(** A subject of the distribution without a difficulty. *)
Definition request_missing_difficulty : AllocationRequest :=
  request 10 1 1 30 ["Math"]%string [] [("Math", 100%Q)]%string.

(** One teacher and four classrooms. *)
Definition request_one_teacher_four_classrooms : AllocationRequest :=
  request 10 1 4 30 ["Math"]%string [("Math", 5)]%string [("Math", 100%Q)]%string.

(** Ten teachers and four classrooms. *)
Definition request_four_classrooms : AllocationRequest :=
  request 100 10 4 30 ["Math"]%string [("Math", 5)]%string [("Math", 100%Q)]%string.

(** One teacher, one classroom, one subject. *)
Definition request_single_teacher : AllocationRequest :=
  request 10 1 1 30 ["Math"]%string [("Math", 5)]%string [("Math", 100%Q)]%string.

(** Twenty students, eighty teachers, five classrooms of four places. *)
Definition request_negative_count : AllocationRequest :=
  request 20 80 5 4 ["A"; "B"; "C"; "D"]%string
    [("A", 10); ("B", 1); ("C", 1); ("D", 1)]%string
    [("A", (375 # 100)%Q); ("B", (3125 # 100)%Q); ("C", (325 # 10)%Q);
     ("D", (325 # 10)%Q)]%string.

(** Three subjects at a third of the teachers each, ten teachers. *)
Definition request_thirds : AllocationRequest :=
  request 100 10 2 30 ["Math"; "Science"; "Art"]%string
    [("Math", 7); ("Science", 5); ("Art", 3)]%string
    [("Math", (100 # 3)%Q); ("Science", (100 # 3)%Q); ("Art", (100 # 3)%Q)]%string.

(** ** Tactics *)

(** Evaluation of a closed goal. *)
Ltac evaluates := vm_compute; reflexivity.

(** From [H : bind c k = Ok b], the value [x] of [c] with [Hx : c = Ok x];
    [H] becomes [k x = Ok b]. *)
Ltac inv_bind H :=
  let a := fresh "x" in
  let Ha := fresh "H" a in
  match type of H with
  | bind ?c _ = Ok _ =>
      destruct c as [a|] eqn:Ha; [cbn [bind] in H | discriminate H]
  end.

(** Validity of a concrete request. *)
Ltac valid_request_tac :=
  constructor; cbn;
  repeat match goal with
         | |- _ /\ _ => split
         | |- NoDup _ => constructor
         | |- Forall _ _ => constructor
         | |- incl _ _ => intros ? ?
         | |- ~ In _ _ => cbn; intuition discriminate
         | H : In _ _ |- In _ _ => cbn in H |- *; intuition auto
         end;
  cbn; try lia; try reflexivity; try (unfold Qle; cbn; lia); auto.

(** * Notions of the further properties *)

(** ** Rounded shares (source line 30) *)

(** The sum of the rounded shares, [total_allocated] at line 33. *)
Definition rounded_total (inp : AllocationRequest) : Z :=
  Py.sum (Dict.values (initial_teachers (total_teachers inp) (teacher_distribution inp))).

(** Each subject of [subject_names] has a difficulty and a percentage. *)
Definition complete_request (inp : AllocationRequest) : Prop :=
  incl (subject_names inp) (Dict.keys (subject_difficulties inp))
  /\ incl (subject_names inp) (Dict.keys (teacher_distribution inp)).


(** Two subjects at 50 % each and five teachers: each share is 2.5 and
    rounds to 2. *)
Definition request_halves : AllocationRequest :=
  request 100 5 2 30 ["Math"; "Art"]%string
    [("Math", 7); ("Art", 3)]%string [("Math", 50%Q); ("Art", 50%Q)]%string.

(** A subject with 0 % of the teachers and without a difficulty. *)
Definition request_unstaffed_without_difficulty : AllocationRequest :=
  request 10 1 1 30 ["A"; "B"]%string [("A", 5)]%string
    [("A", 100%Q); ("B", 0%Q)]%string.

(** ** Teachers in the classrooms (source lines 162-179 and 250-258) *)

(** The remainder [count % num_classrooms] for which the test of line 177
    leaves one teacher out. *)
Definition loses_teacher (num_classrooms count : Z) : bool :=
  (3 <? num_classrooms)
  && (1 <=? count mod num_classrooms)
  && (count mod num_classrooms <=? num_classrooms - 2).

(** [teachers_to_allocate] of line 252 for a subject in classroom [i], and
    0 for a subject that line 251 skips. *)
Definition teachers_in (tpcs : dict (list Z)) (i : nat) (subject : string) : Z :=
  match Dict.get subject tpcs with
  | Some tcs => nth i tcs 0
  | None => 0
  end.

(** The number of subjects of a result whose teacher count loses a teacher
    on the way to the classrooms. *)
Definition teachers_lost (inp : AllocationRequest) (r : OptimizationResult) : Z :=
  Py.sum
    (map (fun e =>
            if loses_teacher (num_classrooms inp) (teachers_allocated (snd e))
            then 1 else 0)
       (subject_allocation r)).

(** ** Advice on single subjects (source lines 396-405) *)

(** A reduction proposes a lower ratio, no lower than 80 % of the current
    one; an increase proposes at most 120 % of the current ratio, and a
    higher one when the current ratio is positive. *)
Definition sound_advice (a : SubjectAdvice) : Prop :=
  match a with
  | ReduceRatio _ from to => (from * (8 # 10) <= to)%Q /\ (to < from)%Q
  | IncreaseRatio _ from to =>
      (to <= from * (12 # 10))%Q /\ ((0 < from)%Q -> (from < to)%Q)
  end.

(** Scores lie between 1 and 10; the timeline starts in week 0 or later
    and lasts at least one week. *)
Definition well_scored (rec : Recommendation) : Prop :=
  1 <= impact_score rec <= 10 /\ 1 <= ease_score rec <= 10
  /\ 0 <= timeline_start rec /\ 1 <= timeline_duration rec.

(** ** Consistency of the returned records (source lines 128-133, 250-300) *)

(** The [ratio] of a subject entry is its students per teacher, or 0
    without teachers. *)
Definition subject_entry_consistent (e : SubjectAllocation) : Prop :=
  ratio e
  = if 0 <? teachers_allocated e
    then (inject_Z (students_allocated e) / inject_Z (teachers_allocated e))%Q
    else 0%Q.

(** The ratio of a classroom is its students per teacher, or 0 without
    teachers; its subjects are listed subjects, each named once. *)
Definition classroom_consistent (inp : AllocationRequest) (c : ClassroomAllocation)
  : Prop :=
  classroom_ratio c
  = (if 0 <? teachers_assigned c
     then (students_assigned c / inject_Z (teachers_assigned c))%Q
     else 0%Q)
  /\ 0 <= teachers_assigned c
  /\ NoDup (subjects c)
  /\ incl (subjects c) (subject_names inp).

(** A teacher record names a listed subject and a classroom between 1 and
    [num_classrooms], and its utilization is its students over
    [max_students_per_teacher], in percent. *)
Definition teacher_record_consistent (inp : AllocationRequest) (rec : TeacherRecord)
  : Prop :=
  In (subject rec) (subject_names inp)
  /\ 1 <= classroom rec <= num_classrooms inp
  /\ utilization rec
     = if 0 <? max_students_per_teacher inp
       then (teacher_students_assigned rec
             / inject_Z (max_students_per_teacher inp) * 100)%Q
       else 0%Q.

(** * The input page: a shallow embedding of [show_input_page] of [app.py]
    (source lines 156-218)

    The values returned by the widgets are the arguments; the page builds
    the request from them and calls the engine. *)

Module App.

(** The three widgets of one subject (lines 173-180). *)
Record SubjectForm : Type := {
  name : string;
  difficulty : Z;
  percentage : Z
}.

(** The loop of lines 171-184: [(subject_names, subject_difficulties,
    teacher_distribution)]. *)
Definition subject_dictionaries (forms : list SubjectForm)
  : list string * dict Z * dict Q :=
  fold_left
    (fun acc f =>
       let '(subject_names, subject_difficulties, teacher_distribution) := acc in
       (subject_names ++ [name f],
        Dict.set (name f) (difficulty f) subject_difficulties,
        Dict.set (name f) (inject_Z (percentage f)) teacher_distribution))
    forms ([], [], []).

(** The loop of lines 190-191 over the keys of [teacher_distribution]. *)
Fixpoint normalize (subjects : list string) (total_percentage : Q)
  (teacher_distribution : dict Q) : result (dict Q) :=
  match subjects with
  | [] => Ok teacher_distribution
  | subject :: rest =>
      p <- Dict.lookup subject teacher_distribution ;;
      q <- Py.div p total_percentage ;;
      normalize rest total_percentage
        (Dict.set subject (q * 100)%Q teacher_distribution)
  end.

(** Lines 187-191. *)
Definition normalized (teacher_distribution : dict Q) : result (dict Q) :=
  let total_percentage := Py.fsum (Dict.values teacher_distribution) in
  if negb (Qeq_bool total_percentage 100)
  then normalize (Dict.keys teacher_distribution) total_percentage
         teacher_distribution
  else Ok teacher_distribution.

(** [input_data] of lines 199-212. *)
Definition input_data (total_students total_teachers num_classrooms : Z)
  (forms : list SubjectForm) : result AllocationRequest :=
  let '(subject_names, subject_difficulties, teacher_distribution) :=
    subject_dictionaries forms in
  teacher_distribution <- normalized teacher_distribution ;;
  Ok {| total_students := total_students;
        total_teachers := total_teachers;
        num_classrooms := num_classrooms;
        min_students_per_teacher := 5;
        max_students_per_teacher := 25;
        ideal_ratio := 15%Q;
        max_class_size := 30;
        subject_names := subject_names;
        subject_difficulties := subject_difficulties;
        teacher_distribution := teacher_distribution;
        prioritize_experience := Some true |}.

(** The press of the button (lines 196-223): the request, the current
    ratio of line 215, and the call of the engine. *)
Definition show_input_page (total_students total_teachers num_classrooms : Z)
  (forms : list SubjectForm) : result OptimizationResult :=
  input_data <- input_data total_students total_teachers num_classrooms forms ;;
  _ <- Py.div (inject_Z total_students) (inject_Z total_teachers) ;;
  optimize_teacher_allocation input_data.

(** The ranges of the widgets (lines 156-158, 164 and 176-180). *)
Record widgets_in_range (total_students total_teachers num_classrooms : Z)
  (forms : list SubjectForm) : Prop := {
  students_in_range : 10 <= total_students <= 10000;
  teachers_in_range : 1 <= total_teachers <= 1000;
  classrooms_in_range : 1 <= num_classrooms <= 100;
  subjects_in_range : (1 <= List.length forms <= 10)%nat;
  sliders_in_range :
    Forall (fun f => 1 <= difficulty f <= 10 /\ 1 <= percentage f <= 100) forms
}.

(** Three subjects at 50, 30 and 50 percent. *)
Definition three_subjects : list SubjectForm :=
  [ {| name := "Math"; difficulty := 7; percentage := 50 |};
    {| name := "Science"; difficulty := 5; percentage := 30 |};
    {| name := "Art"; difficulty := 3; percentage := 50 |} ].

End App.

(** ** Students of staffed subjects *)

(** ** The reconciliation passes on their own

    Lines 30 and 79-81 round floats; the passes that follow work on the
    resulting integers only. The two definitions below are those passes
    with the integers they start from as a parameter. *)

(** Lines 33-58, from the dictionary [teachers_per_subject] that the loop
    of lines 29-30 has filled. *)
Definition reconcile_teachers (inp : AllocationRequest) (tps : dict Z)
  : result (dict Z) :=
  let total_allocated := Py.sum (Dict.values tps) in
  if total_allocated <? total_teachers inp then
    add_teachers (total_teachers inp)
      (Py.sorted_by_value_reverse (subject_difficulties inp)) tps total_allocated
  else if total_teachers inp <? total_allocated then
    remove_teachers (total_teachers inp)
      (Py.sorted_by_value (subject_difficulties inp)) tps total_allocated
  else Ok tps.

(** The integers [tps] miss [total_teachers] by no more than
    [reconcile_teachers] can repair. *)
Definition within_reach (inp : AllocationRequest) (tps : dict Z) : Prop :=
  total_teachers inp - Z.of_nat (List.length (subject_difficulties inp))
  <= Py.sum (Dict.values tps)
  <= total_teachers inp + reducible tps (subject_difficulties inp).

(** Lines 88-120, from the dictionary [students_per_subject] and the
    [remaining_students] that the loop of lines 75-86 has left. *)
Definition balance_students (inp : AllocationRequest) (sps : dict Z)
  (remaining_students : Z) : result (dict Z) :=
  '(sps, _) <-
    distribute_remaining (Py.sorted_by_value (subject_difficulties inp))
      sps remaining_students ;;
  let total_student_allocated := Py.sum (Dict.values sps) in
  let diff := total_students inp - total_student_allocated in
  if diff =? 0 then Ok sps else balance (subject_names inp) sps diff.

(** ** Binary64 arithmetic

    Where a result depends on how a float operation rounds (a tie of
    [round], a comparison with a threshold), the rational model above and
    the source can part. This module evaluates lines 30 and 305-341 in
    IEEE 754 binary64, the format of a Python [float], with the
    operations of the standard library's [SpecFloat]. A float field of a
    request is the binary64 value nearest to the rational of the record. *)

Module B64.

Definition prec : Z := 53.
Definition emax : Z := 1024.

Abbreviation float := spec_float.

Definition zero : float := S754_zero false.

(** A float above zero, plus infinity included, with an exponent of at
    least [k] when it is finite. *)
Definition positive (k : Z) (x : float) : Prop :=
  match x with
  | S754_finite false _ e => k <= e
  | S754_infinity false => True
  | _ => False
  end.

Definition add : float -> float -> float := SFadd prec emax.
Definition mul : float -> float -> float := SFmul prec emax.
Definition ltb : float -> float -> bool := SFltb.
Definition eqb : float -> float -> bool := SFeqb.

(** [float(n)] for an int [n], as also done implicitly when an int meets a
    float: the nearest float, ties to even; an int beyond the largest
    float raises [OverflowError]. *)
Definition of_int (n : Z) : result float :=
  match binary_normalize prec emax n 0 false with
  | S754_infinity _ => Raise OverflowError
  | x => Ok x
  end.

(** [a / b] on two ints: the float nearest to the quotient. *)
Definition int_div (a b : Z) : result float :=
  match b with
  | 0 => Raise ZeroDivisionError
  | _ =>
      match a with
      | 0 => Ok (S754_zero (b <? 0))
      | _ =>
          let '(mz, ez, lz) :=
            SFdiv_core_binary prec emax (Z.abs a) 0 (Z.abs b) 0 in
          match binary_round_aux prec emax (xorb (a <? 0) (b <? 0)) mz ez lz with
          | S754_infinity _ => Raise OverflowError
          | x => Ok x
          end
      end
  end.

(** The float nearest to a rational: a float literal or a float field of
    the request. *)
Definition of_Q (q : Q) : float :=
  match int_div (Qnum q) (Zpos (Qden q)) with
  | Ok x => x
  | Raise _ => S754_infinity (Qnum q <? 0)
  end.

(** The rational a finite float stands for. *)
Definition to_Q (x : float) : Q :=
  match x with
  | S754_finite s m e =>
      let n := if s then Zneg m else Zpos m in
      match e with
      | Zneg p => Qmake n (2 ^ p)
      | _ => inject_Z (n * 2 ^ e)
      end
  | _ => 0%Q
  end.

(** [round(x)] on a float. *)
Definition round (x : float) : result Z :=
  match x with
  | S754_nan => Raise ValueError
  | S754_infinity _ => Raise OverflowError
  | _ => Ok (Py.round (to_Q x))
  end.

(** The literals of the source. *)
Definition c0_85 : float := S754_finite false 7656119366529843 (-53).
Definition c1_15 : float := S754_finite false 5179139571476070 (-52).
Definition c1_0 : float := S754_finite false 4503599627370496 (-52).
Definition c0_9 : float := S754_finite false 8106479329266893 (-53).
Definition c1_2 : float := S754_finite false 5404319552844595 (-52).
Definition c0_8 : float := S754_finite false 7205759403792794 (-53).
Definition c2 : float := S754_finite false 4503599627370496 (-51).
Definition c100 : float := S754_finite false 7036874417766400 (-46).

(** *** Line 30 *)

(** [round((percentage / 100) * total_teachers)]. *)
Definition rounded_share (total_teachers : Z) (percentage : Q) : result Z :=
  t <- of_int total_teachers ;;
  round (mul (SFdiv prec emax (of_Q percentage) c100) t).

(** The loop of lines 29-30. *)
Definition initial_teachers (total_teachers : Z) (teacher_distribution : dict Q)
  : result (dict Z) :=
  fold_left
    (fun acc sp =>
       tps <- acc ;;
       n <- rounded_share total_teachers (snd sp) ;;
       Ok (Dict.set (fst sp) n tps))
    teacher_distribution (Ok []).

(** *** Lines 305-341 *)

(** The factor chosen at lines 312-319. *)
Definition weight_factor (difficulty : Z) : float :=
  if 7 <=? difficulty then c0_85
  else if difficulty <=? 3 then c1_15
  else c1_0.

(** The loop of lines 310-322: [(weighted_students, weighted_teachers)];
    the int [0] that [weighted_teachers] starts from becomes a float with
    the first addition. *)
Definition weighted_totals (inp : AllocationRequest)
  (subject_allocation : dict SubjectAllocation) : result (Z * float) :=
  fold_left
    (fun acc sd =>
       w <- acc ;;
       let difficulty := Dict.get_default (fst sd) 5 (subject_difficulties inp) in
       t <- of_int (teachers_allocated (snd sd)) ;;
       Ok (fst w + students_allocated (snd sd),
           add (snd w) (mul t (weight_factor difficulty))))
    subject_allocation (Ok (0, zero)).

(** Lines 338-341. *)
Definition pull_towards_ideal (ideal_ratio overall_ratio : float) : float :=
  if ltb (mul ideal_ratio c1_2) overall_ratio
  then SFdiv prec emax (add overall_ratio ideal_ratio) c2
  else if ltb overall_ratio (mul ideal_ratio c0_8)
  then SFdiv prec emax (add overall_ratio ideal_ratio) c2
  else overall_ratio.

(** [total_teachers] is the local variable as it stands at line 332. *)
Definition overall_ratio (inp : AllocationRequest)
  (subject_allocation : dict SubjectAllocation) (total_teachers : Z)
  : result float :=
  '(weighted_students, weighted_teachers) <-
    weighted_totals inp subject_allocation ;;
  overall_ratio <-
    (if ltb zero weighted_teachers then
       s <- of_int weighted_students ;;
       let base_ratio := SFdiv prec emax s weighted_teachers in
       let experience_factor :=
         if prioritizes_experience inp then c0_9 else c1_0 in
       Ok (mul base_ratio experience_factor)
     else
       q <- int_div (total_students inp) total_teachers ;;
       Ok (mul q c0_9)) ;;
  Ok (pull_towards_ideal (of_Q (ideal_ratio inp)) overall_ratio).

(** *** The optimal ratio as the specification words it

    The formula of the specification, its operations taken left to right
    in binary64. A request without the flag counts as prioritising
    experience. *)

Definition spec_difficulty_factor (inp : AllocationRequest) (subject : string)
  : float :=
  match Dict.get subject (subject_difficulties inp) with
  | Some difficulty =>
      if 7 <=? difficulty then c0_85
      else if difficulty <=? 3 then c1_15
      else c1_0
  | None => c1_0
  end.

Fixpoint spec_weighted_teachers (inp : AllocationRequest)
  (weighted_teachers : float) (sa : dict SubjectAllocation) : result float :=
  match sa with
  | [] => Ok weighted_teachers
  | (subject, details) :: rest =>
      t <- of_int (teachers_allocated details) ;;
      spec_weighted_teachers inp
        (add weighted_teachers (mul t (spec_difficulty_factor inp subject))) rest
  end.

Definition spec_experience_factor (inp : AllocationRequest) : float :=
  match prioritize_experience inp with
  | Some false => c1_0
  | _ => c0_9
  end.

Definition spec_optimal_ratio (inp : AllocationRequest)
  (sa : dict SubjectAllocation) : result float :=
  let weighted_students :=
    Py.sum (map (fun e => students_allocated (snd e)) sa) in
  weighted_teachers <- spec_weighted_teachers inp zero sa ;;
  overall <-
    (if eqb weighted_teachers zero then
       q <- int_div (total_students inp) (total_teachers inp) ;;
       Ok (mul q c0_9)
     else
       s <- of_int weighted_students ;;
       Ok (mul (SFdiv prec emax s weighted_teachers) (spec_experience_factor inp))) ;;
  let ideal := of_Q (ideal_ratio inp) in
  if ltb (mul ideal c1_2) overall || ltb overall (mul ideal c0_8)
  then Ok (SFdiv prec emax (add overall ideal) c2)
  else Ok overall.

(** The float is within 1e-9 of the rational. *)
Definition near (x : float) (q : Q) : bool :=
  match x with
  | S754_finite _ _ _ | S754_zero _ =>
      Qle_bool (to_Q x - q) (1 # 1000000000)
      && Qle_bool (q - to_Q x) (1 # 1000000000)
  | _ => false
  end.

End B64.

(** ** Agreement of the two evaluations on a request *)

Fixpoint same_entries (a b : dict Z) : bool :=
  match a, b with
  | [], [] => true
  | (k, v) :: a', (k', v') :: b' => String.eqb k k' && (v =? v') && same_entries a' b'
  | _, _ => false
  end.

(** Line 30 rounds to the same shares in binary64 and in the rationals,
    and on the subject allocation of the rational model lines 305-341
    give the same ratio to within 1e-9. *)
Definition binary64_agrees (inp : AllocationRequest) : bool :=
  match B64.initial_teachers (total_teachers inp) (teacher_distribution inp) with
  | Ok shares =>
      same_entries shares
        (initial_teachers (total_teachers inp) (teacher_distribution inp))
      && match optimize_teacher_allocation inp with
         | Ok r =>
             match B64.overall_ratio inp (subject_allocation r) (total_teachers inp) with
             | Ok x => B64.near x (optimal_ratio r)
             | Raise _ => false
             end
         | Raise _ => true
         end
  | Raise _ => false
  end.

(** The request of one classroom with 64 students and three teachers, a
    third of them for each of two hard subjects and an easy one. *)
Definition request_threshold : AllocationRequest :=
  request 64 3 1 30 ["A"; "B"; "C"]%string
    [("A", 7); ("B", 7); ("C", 3)]%string
    [("A", 33%Q); ("B", 33%Q); ("C", 34%Q)]%string.

(** 50 students, 75 teachers, three subjects at 56, 35 and 14 per cent. *)
Definition request_half_teacher : AllocationRequest :=
  request 50 75 3 30 ["A"; "B"; "C"]%string
    [("A", 5); ("B", 5); ("C", 5)]%string
    [("A", 56%Q); ("B", 35%Q); ("C", 14%Q)]%string.

(** One student and one teacher; subject B has 0 % of the teachers. *)
Definition request_one_student : AllocationRequest :=
  request 1 1 1 30 ["A"; "B"]%string
    [("A", 5); ("B", 5)]%string [("A", 100%Q); ("B", 0%Q)]%string.

(** * General lemmas *)

(** ** The primitives on examples *)

Example round_ties_to_even :
  map Py.round [(1 # 2); (3 # 2); (5 # 2); (-1 # 2); (6 # 10); (45 # 100)]%Q
  = [0; 2; 2; 0; 1; 0].
Proof. reflexivity. Qed.

Example int_truncates : map Py.int [(48 # 10); (-48 # 10); 4]%Q = [4; -4; 4].
Proof. reflexivity. Qed.

Example sorted_is_stable :
  Py.sorted_by_value [("a", 5); ("b", 3); ("c", 5); ("d", 3)]%string
  = [("b", 3); ("d", 3); ("a", 5); ("c", 5)]%string
  /\ Py.sorted_by_value_reverse [("a", 5); ("b", 3); ("c", 5); ("d", 3)]%string
     = [("a", 5); ("c", 5); ("b", 3); ("d", 3)]%string.
Proof. split; reflexivity. Qed.

Example teacher_counts_examples :
  extra_classrooms 5 = [1; 2; 3; 0; 4]
  /\ teacher_counts 5 3 = [0; 1; 1; 0; 0]
  /\ teacher_counts 4 10 = [2; 3; 2; 2]
  /\ teacher_counts 3 5 = [2; 2; 1].
Proof. repeat split; reflexivity. Qed.

(** ** The result monad *)

Lemma lookup_Ok {V} (k : string) (d : dict V) (v : V) :
  Dict.lookup k d = Ok v <-> Dict.get k d = Some v.
Proof.
  unfold Dict.lookup. destruct (Dict.get k d); split; intros H;
    inversion H; reflexivity.
Qed.

(** ** Sums of integers *)

Lemma fold_add_shift (l : list Z) (a : Z) :
  fold_left Z.add l a = a + fold_left Z.add l 0.
Proof.
  revert a. induction l as [|x l IH]; intros a; cbn; [lia|].
  rewrite (IH (a + x)), (IH x). lia.
Qed.

Lemma sum_cons (x : Z) (l : list Z) : Py.sum (x :: l) = x + Py.sum l.
Proof. unfold Py.sum. cbn. apply fold_add_shift. Qed.

Lemma sum_app (l l' : list Z) : Py.sum (l ++ l') = Py.sum l + Py.sum l'.
Proof.
  induction l as [|x l IH]; [reflexivity|].
  cbn [app]. rewrite !sum_cons, IH. lia.
Qed.

Lemma sum_Permutation (l l' : list Z) :
  Permutation l l' -> Py.sum l = Py.sum l'.
Proof.
  induction 1; rewrite ?sum_cons in *; lia.
Qed.

(** ** Dictionaries *)

Section DictFacts.
Context {V : Type}.
Implicit Types (d : dict V) (k : string) (v : V).

Lemma get_set_eq k v d : Dict.get k (Dict.set k v d) = Some v.
Proof.
  induction d as [|[k' v'] d IH]; cbn.
  - now rewrite String.eqb_refl.
  - destruct (String.eqb k k') eqn:E; cbn; rewrite E; auto.
Qed.

Lemma get_set_neq k k' v d :
  k <> k' -> Dict.get k (Dict.set k' v d) = Dict.get k d.
Proof.
  intros Hne. induction d as [|[k1 v1] d IH]; cbn.
  - apply String.eqb_neq in Hne. now rewrite Hne.
  - destruct (String.eqb k' k1) eqn:E; cbn.
    + apply String.eqb_eq in E. subst k1.
      apply String.eqb_neq in Hne. now rewrite Hne.
    + now rewrite IH.
Qed.

Lemma get_In_keys k d v : Dict.get k d = Some v -> In k (Dict.keys d).
Proof.
  induction d as [|[k' v'] d IH]; cbn; [discriminate|].
  destruct (String.eqb k k') eqn:E.
  - apply String.eqb_eq in E. auto.
  - auto.
Qed.

Lemma In_keys_get k d : In k (Dict.keys d) -> exists v, Dict.get k d = Some v.
Proof.
  induction d as [|[k' v'] d IH]; cbn; [tauto|].
  intros [H|H]; destruct (String.eqb k k') eqn:E; eauto.
  subst. now rewrite String.eqb_refl in E.
Qed.

Lemma get_None_keys k d : Dict.get k d = None <-> ~ In k (Dict.keys d).
Proof.
  split.
  - intros H Hin. apply In_keys_get in Hin. destruct Hin as [v Hv]. congruence.
  - intros H. destruct (Dict.get k d) eqn:E; [|reflexivity].
    apply get_In_keys in E. contradiction.
Qed.

Lemma keys_set_present k v d :
  In k (Dict.keys d) -> Dict.keys (Dict.set k v d) = Dict.keys d.
Proof.
  induction d as [|[k' v'] d IH]; cbn; [tauto|].
  intros H. destruct (String.eqb k k') eqn:E; cbn; [reflexivity|].
  f_equal. apply IH. destruct H as [H|H]; [|exact H].
  subst. now rewrite String.eqb_refl in E.
Qed.

Lemma set_fresh k v d :
  ~ In k (Dict.keys d) -> Dict.set k v d = d ++ [(k, v)].
Proof.
  induction d as [|[k' v'] d IH]; cbn; [reflexivity|].
  intros H. destruct (String.eqb k k') eqn:E.
  - apply String.eqb_eq in E. subst. tauto.
  - f_equal. apply IH. tauto.
Qed.

Lemma NoDup_In_get k v d :
  NoDup (Dict.keys d) -> In (k, v) d -> Dict.get k d = Some v.
Proof.
  induction d as [|[k' v'] d IH]; cbn; [tauto|].
  intros Hnd [H|H].
  - inversion H; subst. now rewrite String.eqb_refl.
  - inversion Hnd; subst. destruct (String.eqb k k') eqn:E.
    + apply String.eqb_eq in E. subst. exfalso. apply H2.
      change k' with (fst (k', v)). now apply in_map.
    + auto.
Qed.

Lemma get_In k v d : Dict.get k d = Some v -> In (k, v) d.
Proof.
  induction d as [|[k' v'] d IH]; cbn; [discriminate|].
  destruct (String.eqb k k') eqn:E.
  - apply String.eqb_eq in E. intros [= ->]. subst. auto.
  - auto.
Qed.

(** A dictionary filled with [set] from the empty one has unique keys. *)
Lemma NoDup_keys_set k v d :
  NoDup (Dict.keys d) -> NoDup (Dict.keys (Dict.set k v d)).
Proof.
  intros Hnd. destruct (in_dec string_dec k (Dict.keys d)) as [Hin|Hout].
  - now rewrite keys_set_present.
  - rewrite set_fresh by assumption. unfold Dict.keys in *.
    rewrite map_app. cbn. apply NoDup_app; auto.
    + repeat constructor. cbn. tauto.
    + intros x Hx [Hx'|[]]. subst. contradiction.
Qed.

End DictFacts.

Lemma sum_values_set (d : dict Z) (k : string) (v v' : Z) :
  Dict.get k d = Some v ->
  Py.sum (Dict.values (Dict.set k v' d)) = Py.sum (Dict.values d) - v + v'.
Proof.
  unfold Dict.values.
  induction d as [|[k1 v1] d IH]; cbn [Dict.get Dict.set]; [discriminate|].
  destruct (String.eqb k k1) eqn:E; cbn [map snd].
  - intros [= ->]. rewrite !sum_cons. lia.
  - intros H. rewrite !sum_cons, IH by assumption. lia.
Qed.

(** ** Rationals *)

Lemma Qltb_lt (x y : Q) : Py.Qltb x y = true <-> (x < y)%Q.
Proof.
  unfold Py.Qltb. rewrite negb_true_iff, <- not_true_iff_false, Qle_bool_iff.
  split; [apply Qnot_le_lt | apply Qlt_not_le].
Qed.

Lemma Qltb_ge (x y : Q) : Py.Qltb x y = false <-> (y <= x)%Q.
Proof.
  unfold Py.Qltb. rewrite negb_false_iff. apply Qle_bool_iff.
Qed.

#[global] Instance Qltb_comp : Proper (Qeq ==> Qeq ==> eq) Py.Qltb.
Proof.
  intros x x' Hx y y' Hy. unfold Py.Qltb. now rewrite Hx, Hy.
Qed.

Lemma fold_plus_shift (l : list Q) (a : Q) :
  (fold_left Qplus l a == a + fold_left Qplus l 0)%Q.
Proof.
  revert a. induction l as [|x l IH]; intros a; cbn; [lra|].
  rewrite (IH (a + x)%Q), (IH (0 + x)%Q). lra.
Qed.

Lemma fsum_cons (x : Q) (l : list Q) : (Py.fsum (x :: l) == x + Py.fsum l)%Q.
Proof.
  unfold Py.fsum. cbn. rewrite fold_plus_shift. lra.
Qed.

Lemma fsum_app (l l' : list Q) :
  (Py.fsum (l ++ l') == Py.fsum l + Py.fsum l')%Q.
Proof.
  induction l as [|x l IH]; cbn [app].
  - unfold Py.fsum at 2. cbn. lra.
  - rewrite !fsum_cons, IH. lra.
Qed.

Lemma fsum_nonneg (l : list Q) :
  Forall (fun x => (0 <= x)%Q) l -> (0 <= Py.fsum l)%Q.
Proof.
  induction 1 as [|x l Hx Hl IH]; [unfold Py.fsum; cbn; lra|].
  rewrite fsum_cons. lra.
Qed.


(** * Teachers per subject *)

(** ** Dictionaries filled by a loop *)

Section Filled.
Context {K V : Type} (f : string * K -> V).

Lemma fill_keys (l : list (string * K)) (acc : dict V) :
  NoDup (Dict.keys acc ++ map fst l) ->
  Dict.keys (fill f l acc) = Dict.keys acc ++ map fst l.
Proof.
  revert acc. induction l as [|[k x] l IH]; intros acc Hnd.
  - cbn. now rewrite app_nil_r.
  - assert (Hk : ~ In k (Dict.keys acc)).
    { intros Hin. apply NoDup_remove_2 in Hnd. apply Hnd.
      apply in_or_app. now left. }
    change (fill f ((k, x) :: l) acc) with (fill f l (Dict.set k (f (k, x)) acc)).
    cbn [map fst]. rewrite IH.
    + rewrite set_fresh by assumption. unfold Dict.keys.
      rewrite map_app, <- app_assoc. reflexivity.
    + rewrite set_fresh by assumption. unfold Dict.keys.
      rewrite map_app, <- app_assoc. exact Hnd.
Qed.

Lemma fill_values_Forall (P : V -> Prop) (l : list (string * K)) (acc : dict V) :
  Forall (fun e => P (snd e)) acc ->
  Forall (fun e => P (f e)) l ->
  Forall (fun e => P (snd e)) (fill f l acc).
Proof.
  revert acc. induction l as [|e l IH]; intros acc Hacc Hl; [exact Hacc|].
  change (fill f (e :: l) acc) with (fill f l (Dict.set (fst e) (f e) acc)).
  inversion Hl; subst. apply IH; [|assumption].
  clear - Hacc H1. induction acc as [|[k' v'] acc IHa]; cbn.
  - repeat constructor. exact H1.
  - inversion Hacc; subst.
    destruct (String.eqb (fst e) k'); constructor; auto.
Qed.

End Filled.

Lemma Forall_values_set {V} (P : V -> Prop) (k : string) (v : V) (d : dict V) :
  Forall (fun e => P (snd e)) d -> P v ->
  Forall (fun e => P (snd e)) (Dict.set k v d).
Proof.
  intros Hd Hv. induction d as [|[k' v'] d IH]; cbn.
  - repeat constructor. exact Hv.
  - inversion Hd; subst. destruct (String.eqb k k'); constructor; auto.
Qed.

Lemma Forall_values_get {V} (P : V -> Prop) (k : string) (v : V) (d : dict V) :
  Forall (fun e => P (snd e)) d -> Dict.get k d = Some v -> P v.
Proof.
  intros Hd Hg. apply get_In in Hg. rewrite Forall_forall in Hd.
  exact (Hd _ Hg).
Qed.

Lemma initial_teachers_keys (T : Z) (td : dict Q) :
  NoDup (Dict.keys td) ->
  Dict.keys (initial_teachers T td) = Dict.keys td.
Proof.
  intros Hnd. unfold initial_teachers.
  change (Dict.keys (fill (fun sp => Py.round ((snd sp / 100) * inject_Z T)%Q) td [])
          = Dict.keys td).
  rewrite fill_keys; [reflexivity | exact Hnd].
Qed.

(** ** Rounding *)

Lemma round_nonneg (x : Q) : (0 <= x)%Q -> 0 <= Py.round x.
Proof.
  intros Hx. unfold Py.round.
  assert (Hf : 0 <= Qfloor x).
  { change 0 with (Qfloor (inject_Z 0)) at 1. rewrite Qfloor_Z.
    change 0 with (Qfloor 0). apply Qfloor_resp_le. exact Hx. }
  destruct (Qcompare _ _); [destruct (Z.even _)| |]; lia.
Qed.

(** ** The adding pass *)

Lemma add_teachers_spec (T : Z) (order : list (string * Z)) :
  forall (tps : dict Z) (total : Z) (tps' : dict Z),
    add_teachers T order tps total = Ok tps' ->
    total = Py.sum (Dict.values tps) ->
    total <= T ->
    Dict.keys tps' = Dict.keys tps
    /\ Py.sum (Dict.values tps') = Z.min T (total + Z.of_nat (List.length order))
    /\ (Forall (fun e => 0 <= snd e) tps -> Forall (fun e => 0 <= snd e) tps').
Proof.
  induction order as [|[subject d] rest IH]; intros tps total tps' Hrun Htot Hle.
  - cbn in Hrun. inversion Hrun; subst tps'. cbn. repeat split; auto; lia.
  - cbn [add_teachers] in Hrun.
    destruct (total >=? T) eqn:Hge.
    + inversion Hrun; subst tps'. apply Z.geb_le in Hge.
      repeat split; auto. cbn [List.length]. lia.
    + inv_bind Hrun. rename x into t. apply lookup_Ok in Hx.
      apply IH in Hrun.
      * destruct Hrun as (Hk & Hs & Hn).
        rewrite keys_set_present in Hk by (eapply get_In_keys; eauto).
        repeat split; auto.
        -- rewrite Hs. cbn [List.length]. lia.
        -- intros Hpos. apply Hn. apply Forall_values_set; [exact Hpos|].
           pose proof (Forall_values_get _ _ _ _ Hpos Hx). cbn in *. lia.
      * rewrite (sum_values_set _ _ _ _ Hx). lia.
      * rewrite Z.geb_leb in Hge. apply Z.leb_gt in Hge. lia.
Qed.

(** ** The removing pass *)

Lemma reducible_set_other (tps : dict Z) (k : string) (v : Z)
  (order : list (string * Z)) :
  ~ In k (map fst order) ->
  reducible (Dict.set k v tps) order = reducible tps order.
Proof.
  intros Hout. unfold reducible. f_equal. f_equal.
  apply filter_ext_in. intros [s d] Hin. unfold holds_more_than_one. cbn.
  rewrite get_set_neq; [reflexivity|].
  intros ->. apply Hout. change k with (fst (k, d)). now apply in_map.
Qed.

Lemma remove_teachers_spec (T : Z) (order : list (string * Z)) :
  forall (tps : dict Z) (total : Z) (tps' : dict Z),
    remove_teachers T order tps total = Ok tps' ->
    total = Py.sum (Dict.values tps) ->
    NoDup (map fst order) ->
    T <= total <= T + reducible tps order ->
    Dict.keys tps' = Dict.keys tps
    /\ Py.sum (Dict.values tps') = T
    /\ (Forall (fun e => 0 <= snd e) tps -> Forall (fun e => 0 <= snd e) tps').
Proof.
  induction order as [|[subject d] rest IH];
    intros tps total tps' Hrun Htot Hnd Hle.
  - cbn in Hrun. inversion Hrun; subst tps'. unfold reducible in Hle. cbn in Hle.
    repeat split; auto; lia.
  - cbn [remove_teachers] in Hrun. inversion Hnd as [|? ? Hout Hnd']; subst.
    destruct (Py.sum (Dict.values tps) <=? T) eqn:Hdone.
    + inversion Hrun; subst tps'. apply Z.leb_le in Hdone.
      repeat split; auto; lia.
    + apply Z.leb_gt in Hdone. inv_bind Hrun. rename x into t.
      apply lookup_Ok in Hx.
      assert (Hred : reducible tps ((subject, d) :: rest)
                     = (if 1 <? t then 1 else 0) + reducible tps rest).
      { unfold reducible. cbn [filter]. unfold holds_more_than_one at 1.
        cbn [fst]. rewrite Hx. destruct (1 <? t); cbn [List.length]; lia. }
      destruct (1 <? t) eqn:Ht.
      * apply IH in Hrun; auto.
        -- destruct Hrun as (Hk & Hs & Hn).
           rewrite keys_set_present in Hk by (eapply get_In_keys; eauto).
           repeat split; auto.
           intros Hpos. apply Hn. apply Forall_values_set; [exact Hpos|].
           apply Z.ltb_lt in Ht. lia.
        -- rewrite (sum_values_set _ _ _ _ Hx). lia.
        -- rewrite reducible_set_other by exact Hout. lia.
      * apply IH in Hrun; auto. lia.
Qed.

(** ** Sorting keeps the entries *)

Lemma insert_by_Permutation {A} (before : Z -> Z -> bool) (x : A * Z)
  (l : list (A * Z)) : Permutation (Py.insert_by before x l) (x :: l).
Proof.
  induction l as [|y l IH]; cbn; [reflexivity|].
  destruct (before (snd x) (snd y)); [reflexivity|].
  rewrite IH. apply perm_swap.
Qed.

Lemma sorted_by_Permutation {A} (before : Z -> Z -> bool) (l : list (A * Z)) :
  Permutation (Py.sorted_by before l) l.
Proof.
  induction l as [|x l IH]; cbn; [reflexivity|].
  rewrite insert_by_Permutation. now constructor.
Qed.

Lemma reducible_Permutation (tps : dict Z) (l l' : list (string * Z)) :
  Permutation l l' -> reducible tps l = reducible tps l'.
Proof.
  intros HP. unfold reducible. f_equal. apply Permutation_length.
  induction HP; cbn;
    repeat match goal with |- context [holds_more_than_one ?t ?e] =>
             destruct (holds_more_than_one t e) end;
    eauto using Permutation.
Qed.

(** ** The whole stage *)

Lemma add_teachers_keeps (T : Z) (order : list (string * Z)) :
  forall (tps : dict Z) (total : Z) (tps' : dict Z),
    add_teachers T order tps total = Ok tps' ->
    Dict.keys tps' = Dict.keys tps
    /\ (Forall (fun e => 0 <= snd e) tps -> Forall (fun e => 0 <= snd e) tps').
Proof.
  induction order as [|[subject d] rest IH]; intros tps total tps' Hrun;
    cbn [add_teachers] in Hrun.
  - inversion Hrun; subst. auto.
  - destruct (total >=? T); [inversion Hrun; subst; auto|].
    inv_bind Hrun. apply lookup_Ok in Hx. apply IH in Hrun.
    destruct Hrun as (Hk & Hn).
    rewrite keys_set_present in Hk by (eapply get_In_keys; eauto).
    split; [exact Hk|]. intros Hpos. apply Hn.
    apply Forall_values_set; [exact Hpos|].
    pose proof (Forall_values_get _ _ _ _ Hpos Hx). cbn in *. lia.
Qed.

Lemma remove_teachers_keeps (T : Z) (order : list (string * Z)) :
  forall (tps : dict Z) (total : Z) (tps' : dict Z),
    remove_teachers T order tps total = Ok tps' ->
    Dict.keys tps' = Dict.keys tps
    /\ (Forall (fun e => 0 <= snd e) tps -> Forall (fun e => 0 <= snd e) tps').
Proof.
  induction order as [|[subject d] rest IH]; intros tps total tps' Hrun;
    cbn [remove_teachers] in Hrun.
  - inversion Hrun; subst. auto.
  - destruct (total <=? T); [inversion Hrun; subst; auto|].
    inv_bind Hrun. apply lookup_Ok in Hx.
    destruct (1 <? x) eqn:Ht; apply IH in Hrun; [|exact Hrun].
    destruct Hrun as (Hk & Hn).
    rewrite keys_set_present in Hk by (eapply get_In_keys; eauto).
    split; [exact Hk|]. intros Hpos. apply Hn.
    apply Forall_values_set; [exact Hpos|].
    apply Z.ltb_lt in Ht. lia.
Qed.

Lemma initial_teachers_nonneg (T : Z) (td : dict Q) :
  0 <= T ->
  Forall (fun sp => (0 <= snd sp)%Q) td ->
  Forall (fun e => 0 <= snd e) (initial_teachers T td).
Proof.
  intros HT Htd. unfold initial_teachers.
  apply (fill_values_Forall
           (fun sp => Py.round ((snd sp / 100) * inject_Z T)%Q) (fun v => 0 <= v)).
  - constructor.
  - eapply Forall_impl; [|exact Htd]. cbn. intros [s p] Hp. cbn in *.
    apply round_nonneg. apply Qmult_le_0_compat.
    + apply Qle_shift_div_l; [reflexivity|]. now rewrite Qmult_0_l.
    + change 0%Q with (inject_Z 0). now rewrite <- Zle_Qle.
Qed.

(** The keys and the signs after the whole stage. *)
Lemma teachers_per_subject_keeps (inp : AllocationRequest) (tps : dict Z) :
  teachers_per_subject inp = Ok tps ->
  Dict.keys tps
  = Dict.keys (initial_teachers (total_teachers inp) (teacher_distribution inp))
  /\ (Forall (fun e => 0 <= snd e)
        (initial_teachers (total_teachers inp) (teacher_distribution inp)) ->
      Forall (fun e => 0 <= snd e) tps).
Proof.
  unfold teachers_per_subject. intros Hrun.
  destruct (_ <? total_teachers inp).
  - now apply add_teachers_keeps in Hrun.
  - destruct (total_teachers inp <? _).
    + now apply remove_teachers_keeps in Hrun.
    + inversion Hrun; subst. auto.
Qed.

(** When the single pass can repair the rounded shares, the teachers of the
    stage sum to [total_teachers]. *)
Lemma teachers_per_subject_sum (inp : AllocationRequest) (tps : dict Z) :
  NoDup (Dict.keys (subject_difficulties inp)) ->
  single_pass_suffices inp ->
  teachers_per_subject inp = Ok tps ->
  Py.sum (Dict.values tps) = total_teachers inp.
Proof.
  unfold single_pass_suffices, teachers_per_subject.
  set (tps0 := initial_teachers _ _). set (T := total_teachers inp).
  intros Hnd [Hlo Hhi] Hrun.
  destruct (Py.sum (Dict.values tps0) <? T) eqn:Hlt.
  - apply Z.ltb_lt in Hlt.
    apply add_teachers_spec in Hrun; [|reflexivity|lia].
    destruct Hrun as (_ & Hs & _). rewrite Hs.
    unfold Py.sorted_by_value_reverse.
    rewrite (Permutation_length (sorted_by_Permutation Z.geb _)). lia.
  - apply Z.ltb_ge in Hlt. destruct (T <? Py.sum (Dict.values tps0)) eqn:Hgt.
    + apply Z.ltb_lt in Hgt.
      apply remove_teachers_spec in Hrun; [tauto|reflexivity| |].
      * unfold Py.sorted_by_value.
        eapply Permutation_NoDup; [|exact Hnd].
        apply Permutation_map. symmetry. apply sorted_by_Permutation.
      * unfold Py.sorted_by_value.
        rewrite (reducible_Permutation _ _ _ (sorted_by_Permutation Z.leb _)).
        unfold reducible. lia.
    + apply Z.ltb_ge in Hgt. inversion Hrun; subst. lia.
Qed.

(** * Students per subject and the subject allocation *)

Lemma initial_students_keys (S : Z) (isr : dict Q) (items : list (string * Z)) :
  forall (sps : dict Z) (rem : Z) (sps' : dict Z) (rem' : Z),
    initial_students S isr items sps rem = Ok (sps', rem') ->
    NoDup (Dict.keys sps ++ map fst items) ->
    Dict.keys sps' = Dict.keys sps ++ map fst items.
Proof.
  induction items as [|[subject teachers] rest IH];
    intros sps rem sps' rem' Hrun Hnd; cbn [initial_students] in Hrun.
  - inversion Hrun; subst. cbn. now rewrite app_nil_r.
  - inv_bind Hrun. rename x into n. cbn [map fst] in *.
    assert (Hk : ~ In subject (Dict.keys sps)).
    { intros Hin. apply NoDup_remove_2 in Hnd. apply Hnd.
      apply in_or_app. now left. }
    apply IH in Hrun.
    + rewrite Hrun, set_fresh by assumption. unfold Dict.keys.
      rewrite map_app, <- app_assoc. reflexivity.
    + rewrite set_fresh by assumption. unfold Dict.keys.
      rewrite map_app, <- app_assoc. exact Hnd.
Qed.

Lemma distribute_remaining_keys (order : list (string * Z)) :
  forall (sps : dict Z) (rem : Z) (sps' : dict Z) (rem' : Z),
    distribute_remaining order sps rem = Ok (sps', rem') ->
    Dict.keys sps' = Dict.keys sps.
Proof.
  induction order as [|[subject d] rest IH]; intros sps rem sps' rem' Hrun;
    cbn [distribute_remaining] in Hrun.
  - now inversion Hrun.
  - destruct (rem =? 0); [now inversion Hrun|].
    destruct (0 <? rem).
    + inv_bind Hrun. apply lookup_Ok in Hx. apply IH in Hrun. rewrite Hrun.
      apply keys_set_present. eapply get_In_keys; eauto.
    + inv_bind Hrun. apply lookup_Ok in Hx.
      destruct (1 <? x); apply IH in Hrun; [|exact Hrun]. rewrite Hrun.
      apply keys_set_present. eapply get_In_keys; eauto.
Qed.

Lemma balance_keys (names : list string) :
  forall (sps : dict Z) (diff : Z) (sps' : dict Z),
    balance names sps diff = Ok sps' -> Dict.keys sps' = Dict.keys sps.
Proof.
  induction names as [|subject rest IH]; intros sps diff sps' Hrun;
    cbn [balance] in Hrun.
  - now inversion Hrun.
  - destruct (diff =? 0); [now inversion Hrun|].
    destruct (0 <? diff); inv_bind Hrun; apply lookup_Ok in Hx;
      apply IH in Hrun; rewrite Hrun; apply keys_set_present;
      eapply get_In_keys; eauto.
Qed.

Lemma students_per_subject_keys (inp : AllocationRequest) (tps sps : dict Z) :
  NoDup (Dict.keys tps) ->
  students_per_subject inp tps = Ok sps ->
  Dict.keys sps = Dict.keys tps.
Proof.
  intros Hnd Hrun. unfold students_per_subject in Hrun.
  inv_bind Hrun. destruct x as [sps1 rem1].
  inv_bind Hrun. destruct x as [sps2 rem2].
  apply initial_students_keys in Hx; [|exact Hnd].
  apply distribute_remaining_keys in Hx0.
  destruct (_ =? 0).
  - inversion Hrun; subst. rewrite Hx0, Hx. reflexivity.
  - apply balance_keys in Hrun. rewrite Hrun, Hx0, Hx. reflexivity.
Qed.

(** ** The subject allocation *)

Lemma get_default_get {V} (k : string) (v0 v : V) (d : dict V) :
  Dict.get k d = Some v -> Dict.get_default k v0 d = v.
Proof. unfold Dict.get_default. now intros ->. Qed.

Lemma init_subject_allocation_spec (tps sps : dict Z) (names : list string) :
  forall (acc sa : dict SubjectAllocation),
    init_subject_allocation names tps sps acc = Ok sa ->
    NoDup (Dict.keys acc ++ names) ->
    sa = acc ++ map (fun s => (s, entry_of tps sps s)) names
    /\ Forall (fun s => In s (Dict.keys tps) /\ In s (Dict.keys sps)) names.
Proof.
  induction names as [|subject rest IH]; intros acc sa Hrun Hnd;
    cbn [init_subject_allocation] in Hrun.
  - inversion Hrun; subst. cbn. now rewrite app_nil_r.
  - inv_bind Hrun. rename x into t. inv_bind Hrun. rename x into s.
    apply lookup_Ok in Hx, Hx0.
    assert (Hk : ~ In subject (Dict.keys acc)).
    { intros Hin. apply NoDup_remove_2 in Hnd. apply Hnd.
      apply in_or_app. now left. }
    rewrite set_fresh in Hrun by assumption.
    apply IH in Hrun.
    + destruct Hrun as [-> Hin]. split.
      * rewrite <- app_assoc. cbn [app map]. unfold entry_of.
        rewrite (get_default_get _ _ _ _ Hx), (get_default_get _ _ _ _ Hx0).
        reflexivity.
      * constructor; [|exact Hin]. split; eapply get_In_keys; eauto.
    + unfold Dict.keys. rewrite map_app, <- app_assoc. exact Hnd.
Qed.

Lemma values_of_keys {V} (v0 : V) (d : dict V) :
  NoDup (Dict.keys d) ->
  map (fun s => Dict.get_default s v0 d) (Dict.keys d) = Dict.values d.
Proof.
  intros Hnd. unfold Dict.keys, Dict.values. rewrite map_map.
  apply map_ext_in. intros [k v] Hin. cbn [fst snd].
  apply get_default_get. now apply NoDup_In_get.
Qed.

Lemma sum_over_names (d : dict Z) (names : list string) :
  NoDup (Dict.keys d) ->
  Permutation names (Dict.keys d) ->
  Py.sum (map (fun s => Dict.get_default s 0 d) names) = Py.sum (Dict.values d).
Proof.
  intros Hnd HP. rewrite <- (values_of_keys 0 d Hnd).
  apply sum_Permutation. now apply Permutation_map.
Qed.

(** ** What a returned result is made of *)

Lemma optimize_Ok (inp : AllocationRequest) (r : OptimizationResult) :
  optimize_teacher_allocation inp = Ok r ->
  exists (tps sps : dict Z) (max_size : Q),
    teachers_per_subject inp = Ok tps
    /\ students_per_subject inp tps = Ok sps
    /\ init_subject_allocation (subject_names inp) tps sps []
       = Ok (subject_allocation r)
    /\ capacity_ceiling inp = Ok max_size
    /\ let tpcs := teachers_per_classroom_subject (num_classrooms inp) tps in
       let st :=
         students_per_classroom_subject (num_classrooms inp) max_size
           (total_teachers inp) tpcs sps in
       update_classrooms inp tpcs (spcs st) (Py.range 0 (num_classrooms inp)) []
       = Ok (classroom_allocation r, teacher_allocation r)
       /\ overall_ratio inp (subject_allocation r) (total_teachers_var st)
          = Ok (optimal_ratio r).
Proof.
  unfold optimize_teacher_allocation. intros H.
  inv_bind H. rename x into tps. inv_bind H. rename x into sps.
  inv_bind H. rename x into sa. inv_bind H. rename x into max_size.
  inv_bind H. destruct x as [cls ta]. inv_bind H. rename x into ratio.
  inv_bind H. inversion H; subst; clear H. cbn.
  exists tps, sps, max_size. auto 10.
Qed.

(** The dictionaries of a returned result, under the key constraints of a
    valid request. *)
Lemma result_keys (inp : AllocationRequest) (tps sps : dict Z)
  (sa : dict SubjectAllocation) :
  valid_request inp ->
  teachers_per_subject inp = Ok tps ->
  students_per_subject inp tps = Ok sps ->
  init_subject_allocation (subject_names inp) tps sps [] = Ok sa ->
  NoDup (Dict.keys tps)
  /\ Dict.keys sps = Dict.keys tps
  /\ Permutation (subject_names inp) (Dict.keys tps)
  /\ sa = map (fun s => (s, entry_of tps sps s)) (subject_names inp).
Proof.
  intros Hv Ht Hs Ha.
  destruct (valid_distribution_keys _ Hv) as [Hnd Hincl].
  apply teachers_per_subject_keeps in Ht. destruct Ht as [Hk _].
  rewrite initial_teachers_keys in Hk by exact Hnd.
  assert (Hndt : NoDup (Dict.keys tps)) by now rewrite Hk.
  apply students_per_subject_keys in Hs; [|exact Hndt].
  apply init_subject_allocation_spec in Ha; [|exact (valid_names _ Hv)].
  destruct Ha as [-> Hin]. repeat split; auto.
  apply NoDup_Permutation; [exact (valid_names _ Hv) | exact Hndt |].
  intros s. split.
  - intros Hs'. rewrite Forall_forall in Hin. now apply Hin.
  - rewrite Hk. apply Hincl.
Qed.

(** * The teacher total *)

Lemma subject_allocation_teachers (tps sps : dict Z) (names : list string) :
  map teachers_allocated
      (Dict.values (map (fun s => (s, entry_of tps sps s)) names))
  = map (fun s => Dict.get_default s 0 tps) names.
Proof.
  unfold Dict.values. rewrite !map_map. reflexivity.
Qed.

Lemma subject_allocation_students (tps sps : dict Z) (names : list string) :
  map students_allocated
      (Dict.values (map (fun s => (s, entry_of tps sps s)) names))
  = map (fun s => Dict.get_default s 0 sps) names.
Proof.
  unfold Dict.values. rewrite !map_map. reflexivity.
Qed.

(** ** The passes of lines 33-58 on any rounded shares *)

Lemma teachers_per_subject_reconcile (inp : AllocationRequest) :
  teachers_per_subject inp
  = reconcile_teachers inp
      (initial_teachers (total_teachers inp) (teacher_distribution inp)).
Proof. reflexivity. Qed.

Lemma reconcile_teachers_keys (inp : AllocationRequest) (shares tps : dict Z) :
  reconcile_teachers inp shares = Ok tps -> Dict.keys tps = Dict.keys shares.
Proof.
  unfold reconcile_teachers. intros Hrun.
  destruct (_ <? total_teachers inp).
  - now apply add_teachers_keeps in Hrun.
  - destruct (total_teachers inp <? _).
    + now apply remove_teachers_keeps in Hrun.
    + now inversion Hrun.
Qed.

Lemma reconcile_teachers_sum (inp : AllocationRequest) (shares tps : dict Z) :
  NoDup (Dict.keys (subject_difficulties inp)) ->
  within_reach inp shares ->
  reconcile_teachers inp shares = Ok tps ->
  Py.sum (Dict.values tps) = total_teachers inp.
Proof.
  unfold within_reach, reconcile_teachers.
  set (T := total_teachers inp).
  intros Hnd [Hlo Hhi] Hrun.
  destruct (Py.sum (Dict.values shares) <? T) eqn:Hlt.
  - apply Z.ltb_lt in Hlt.
    apply add_teachers_spec in Hrun; [|reflexivity|lia].
    destruct Hrun as (_ & Hs & _). rewrite Hs.
    unfold Py.sorted_by_value_reverse.
    rewrite (Permutation_length (sorted_by_Permutation Z.geb _)). lia.
  - apply Z.ltb_ge in Hlt. destruct (T <? Py.sum (Dict.values shares)) eqn:Hgt.
    + apply Z.ltb_lt in Hgt.
      apply remove_teachers_spec in Hrun; [tauto|reflexivity| |].
      * unfold Py.sorted_by_value.
        eapply Permutation_NoDup; [|exact Hnd].
        apply Permutation_map. symmetry. apply sorted_by_Permutation.
      * unfold Py.sorted_by_value.
        rewrite (reducible_Permutation _ _ _ (sorted_by_Permutation Z.leb _)).
        lia.
    + apply Z.ltb_ge in Hgt. inversion Hrun; subst. lia.
Qed.

(** The shares that line 30 rounds in binary64 have the keys of
    [teacher_distribution]. *)
Lemma binary64_shares_keys (T : Z) (td : dict Q) (shares : dict Z) :
  NoDup (Dict.keys td) ->
  B64.initial_teachers T td = Ok shares ->
  Dict.keys shares = Dict.keys td.
Proof.
  unfold B64.initial_teachers.
  set (F := fun (acc : result (dict Z)) (sp : string * Q) => _).
  assert (Hraise : forall l e, fold_left F l (Raise e) = Raise e).
  { induction l as [|x l IH]; intros e; cbn [fold_left]; [reflexivity|].
    unfold F at 2. cbn [bind]. apply IH. }
  assert (H : forall l acc,
             NoDup (Dict.keys acc ++ map fst l) ->
             fold_left F l (Ok acc) = Ok shares ->
             Dict.keys shares = Dict.keys acc ++ map fst l).
  { induction l as [|[k p] l IH]; intros acc Hnd Hrun; cbn [fold_left] in Hrun.
    - inversion Hrun; subst. cbn. now rewrite app_nil_r.
    - unfold F at 2 in Hrun. cbn [bind fst snd] in Hrun.
      destruct (B64.rounded_share T p) as [n|e]; cbn [bind] in Hrun;
        [|rewrite Hraise in Hrun; discriminate].
      assert (Hk : ~ In k (Dict.keys acc)).
      { intros Hin. apply NoDup_remove_2 in Hnd. apply Hnd.
        apply in_or_app. now left. }
      rewrite set_fresh in Hrun by assumption.
      apply IH in Hrun.
      + rewrite Hrun. unfold Dict.keys. rewrite map_app, <- app_assoc. reflexivity.
      + unfold Dict.keys. rewrite map_app, <- app_assoc. exact Hnd. }
  intros Hnd Hrun. now apply (H td []).
Qed.

(** Claim C1, amended: the percentages are used as given (the engine does
    not normalise them), and whatever integers line 30 rounds the shares
    to, one for each key of [teacher_distribution] (as are the binary64
    shares, [binary64_shares_keys]), lines 33-58 reconcile them by one
    pass. When the shares are within reach of that pass
    ([total_teachers] minus the number of subjects with a difficulty
    <= their sum <= [total_teachers] plus the number of such subjects
    that hold more than one teacher), the [teachers_allocated] of the
    subject allocation that lines 128-133 build sum to
    [total_teachers]. *)
Theorem teachers_sum_when_single_pass_suffices
  (inp : AllocationRequest) (shares tps sps : dict Z)
  (sa : dict SubjectAllocation) :
  valid_request inp ->
  Dict.keys shares = Dict.keys (teacher_distribution inp) ->
  within_reach inp shares ->
  reconcile_teachers inp shares = Ok tps ->
  init_subject_allocation (subject_names inp) tps sps [] = Ok sa ->
  Py.sum (map teachers_allocated (Dict.values sa)) = total_teachers inp.
Proof.
  intros Hv Hkeys Hreach Ht Ha.
  destruct (valid_distribution_keys _ Hv) as [Hnd Hincl].
  pose proof (reconcile_teachers_keys _ _ _ Ht) as Hk. rewrite Hkeys in Hk.
  assert (Hndt : NoDup (Dict.keys tps)) by now rewrite Hk.
  apply init_subject_allocation_spec in Ha; [|exact (valid_names _ Hv)].
  destruct Ha as [-> Hin]. cbn [app].
  rewrite subject_allocation_teachers, sum_over_names.
  - apply (reconcile_teachers_sum inp shares); auto.
    exact (proj1 (valid_difficulty_keys _ Hv)).
  - exact Hndt.
  - apply NoDup_Permutation; [exact (valid_names _ Hv) | exact Hndt |].
    intros s. split.
    + intros Hs. rewrite Forall_forall in Hin. now apply Hin.
    + rewrite Hk. apply Hincl.
Qed.

(** Three subjects at a third each and ten teachers: line 30 rounds the
    shares to 3, 3 and 3 in binary64, and the pass gives the tenth teacher
    to the hardest subject. *)
Lemma teachers_sum_when_single_pass_suffices_witness :
  let shares := [("Math", 3); ("Science", 3); ("Art", 3)]%string in
  let tps := [("Math", 4); ("Science", 3); ("Art", 3)]%string in
  let sps := [("Math", 26); ("Science", 32); ("Art", 42)]%string in
  exists sa,
    B64.initial_teachers 10 (teacher_distribution request_thirds) = Ok shares
    /\ reconcile_teachers request_thirds shares = Ok tps
    /\ students_per_subject request_thirds tps = Ok sps
    /\ init_subject_allocation (subject_names request_thirds) tps sps [] = Ok sa
    /\ Py.sum (map teachers_allocated (Dict.values sa)) = 10.
Proof.
  intros shares tps sps. eexists.
  split; [evaluates|]. split; [evaluates|]. split; [evaluates|].
  split; [evaluates|].
  apply (teachers_sum_when_single_pass_suffices request_thirds shares tps sps).
  - valid_request_tac.
  - evaluates.
  - vm_compute. split; discriminate.
  - evaluates.
  - evaluates.
Defined.

(** 50 students, 75 teachers and shares of 56, 35 and 14 per cent: the
    third share is 10.5 in the rationals and rounds to 10, but
    [(14 / 100) * 75] is 10.500000000000002 in binary64 and rounds to 11.
    The shares 42, 26 and 11 are out of reach of the pass, which takes one
    teacher from each subject and leaves 76. *)
Lemma binary64_share_out_of_reach :
  B64.initial_teachers 75 (teacher_distribution request_half_teacher)
  = Ok [("A", 42); ("B", 26); ("C", 11)]%string
  /\ initial_teachers 75 (teacher_distribution request_half_teacher)
     = [("A", 42); ("B", 26); ("C", 10)]%string
  /\ ~ within_reach request_half_teacher [("A", 42); ("B", 26); ("C", 11)]%string
  /\ exists tps,
       reconcile_teachers request_half_teacher
         [("A", 42); ("B", 26); ("C", 11)]%string = Ok tps
       /\ Py.sum (Dict.values tps) = 76.
Proof.
  split; [evaluates|]. split; [evaluates|]. split.
  - unfold within_reach. vm_compute. intros [_ H]. apply H. reflexivity.
  - eexists. split; evaluates.
Qed.

(** * The overall ratio *)

Lemma weighted_totals_spec (inp : AllocationRequest) (sa : dict SubjectAllocation) :
  fst (weighted_totals inp sa)
  = Py.sum (map (fun e => students_allocated (snd e)) sa)
  /\ (snd (weighted_totals inp sa) == spec_weighted_teachers inp sa)%Q.
Proof.
  unfold weighted_totals, spec_weighted_teachers.
  set (F := fun (w : Z * Q) (sd : string * SubjectAllocation) => _).
  assert (H : forall l w,
             fst (fold_left F l w)
             = fst w + Py.sum (map (fun e => students_allocated (snd e)) l)
             /\ (snd (fold_left F l w)
                 == snd w
                    + Py.fsum
                        (map (fun e => inject_Z (teachers_allocated (snd e))
                                       * spec_difficulty_factor inp (fst e)) l))%Q).
  { induction l as [|e l IH]; intros w; cbn [fold_left map].
    - unfold Py.sum, Py.fsum. cbn. split; [lia|lra].
    - destruct (IH (F w e)) as [H1 H2]. rewrite H1, H2, sum_cons, fsum_cons.
      subst F. cbn [fst snd]. unfold spec_difficulty_factor, weight_factor.
      split; [lia|lra]. }
  destruct (H sa (0, 0%Q)) as [H1 H2]. cbn [fst snd] in *.
  split; [lia | rewrite H2; lra].
Qed.

(** ** The local variable [total_teachers] at line 332 *)

Lemma no_teachers_no_rows (n : Z) (tps : dict Z) :
  Forall (fun e => snd e = 0) tps ->
  teachers_per_classroom_subject n tps = [].
Proof.
  unfold teachers_per_classroom_subject. generalize (@nil (string * list Z)) as acc.
  induction tps as [|e tps IH]; intros acc Hz; cbn [fold_left]; [reflexivity|].
  inversion Hz as [|? ? He Hz']; subst. rewrite He. cbn. now apply IH.
Qed.

Lemma total_teachers_var_kept (n : Z) (max_size : Q) (T : Z) (sps : dict Z) :
  total_teachers_var (students_per_classroom_subject n max_size T [] sps) = T.
Proof.
  unfold students_per_classroom_subject.
  set (st0 := {| spcs := []; capacities := _; total_teachers_var := T |}).
  enough (H : forall st,
             total_teachers_var
               (fold_left (fun st sc => spread_subject n [] st (fst sc) (snd sc)) sps st)
             = total_teachers_var st) by apply (H st0).
  induction sps as [|[s c] sps IH]; intros st; cbn [fold_left]; [reflexivity|].
  rewrite IH. unfold spread_subject. cbn [Dict.get fst snd].
  destruct (even_pass _ _ _ _) as [[row caps] rem].
  destruct (sweep _ _ _) as [[row' caps'] rem']. reflexivity.
Qed.

(** ** Signs of the teacher counts *)

Lemma teachers_nonneg (inp : AllocationRequest) (tps : dict Z) :
  valid_request inp ->
  teachers_per_subject inp = Ok tps ->
  Forall (fun e => 0 <= snd e) tps.
Proof.
  intros Hv Ht. apply teachers_per_subject_keeps in Ht. apply Ht.
  apply initial_teachers_nonneg.
  - pose proof (valid_teachers _ Hv). lia.
  - exact (valid_percentages _ Hv).
Qed.

Lemma get_default_nonneg (tps : dict Z) (s : string) :
  Forall (fun e => 0 <= snd e) tps -> 0 <= Dict.get_default s 0 tps.
Proof.
  intros H. unfold Dict.get_default. destruct (Dict.get s tps) eqn:E; [|lia].
  exact (Forall_values_get _ _ _ _ H E).
Qed.

(** What lines 305-341 start from in a returned result: no teacher count
    of [subject_allocation] is negative, and the local [total_teachers] of
    line 332 is still the request's when no subject holds a teacher (line
    196 overwrites it only for a subject with teachers). *)
Lemma ratio_premises (inp : AllocationRequest) (r : OptimizationResult) :
  valid_request inp ->
  optimize_teacher_allocation inp = Ok r ->
  exists line_332_total_teachers : Z,
    overall_ratio inp (subject_allocation r) line_332_total_teachers
    = Ok (optimal_ratio r)
    /\ Forall (fun e => 0 <= teachers_allocated (snd e)) (subject_allocation r)
    /\ (Forall (fun e => teachers_allocated (snd e) = 0) (subject_allocation r) ->
        line_332_total_teachers = total_teachers inp).
Proof.
  intros Hv Hrun. apply optimize_Ok in Hrun.
  destruct Hrun as (tps & sps & max_size & Ht & Hs & Ha & _ & _ & Hratio).
  destruct (result_keys _ _ _ _ Hv Ht Hs Ha) as (Hnd & _ & HP & Hsa).
  pose proof (teachers_nonneg _ _ Hv Ht) as Hpos.
  eexists. split; [exact Hratio|]. split.
  - rewrite Hsa. apply Forall_forall. intros e He.
    apply in_map_iff in He. destruct He as (s & <- & _).
    cbn [snd entry_of teachers_allocated]. now apply get_default_nonneg.
  - intros Hall.
    assert (Hzero : Forall (fun e => snd e = 0) tps).
    { rewrite Hsa, Forall_forall in Hall. apply Forall_forall. intros [k v] Hin.
      cbn [snd]. pose proof (NoDup_In_get _ _ _ Hnd Hin) as Hget.
      assert (Hk : In k (subject_names inp)).
      { apply (Permutation_in _ (Permutation_sym HP)).
        eapply get_In_keys; eauto. }
      specialize (Hall _ (in_map _ _ _ Hk)).
      cbn [fst snd entry_of teachers_allocated] in Hall.
      now rewrite (get_default_get _ _ _ _ Hget) in Hall. }
    rewrite (no_teachers_no_rows _ _ Hzero). apply total_teachers_var_kept.
Qed.

(** * Students per classroom *)

(** ** Truncation and minima *)

Lemma int_floor (x : Q) : (0 <= x)%Q -> Py.int x = Qfloor x.
Proof.
  destruct x as [n d]. unfold Qle, Py.int, Qfloor. cbn. intros H.
  apply Z.quot_div_nonneg; lia.
Qed.

Lemma int_nonneg (x : Q) : (0 <= x)%Q -> 0 <= Py.int x.
Proof.
  intros H. rewrite int_floor by exact H.
  change 0 with (Qfloor 0). now apply Qfloor_resp_le.
Qed.

Lemma int_le (x : Q) : (0 <= x)%Q -> (inject_Z (Py.int x) <= x)%Q.
Proof.
  intros H. rewrite int_floor by exact H. apply Qfloor_le.
Qed.

Lemma zmin_spec (a b : Z) : Py.zmin a b = Z.min a b.
Proof. unfold Py.zmin. destruct (Z.ltb_spec b a); lia. Qed.

Lemma min_cases (a b : Q) :
  ((b < a)%Q /\ Py.min a b = b) \/ ((a <= b)%Q /\ Py.min a b = a).
Proof.
  unfold Py.min. destruct (Py.Qltb b a) eqn:E.
  - left. split; [now apply Qltb_lt | reflexivity].
  - right. split; [now apply Qltb_ge | reflexivity].
Qed.

Lemma inject_Z_nonneg (z : Z) : 0 <= z -> (0 <= inject_Z z)%Q.
Proof. intros H. change 0%Q with (inject_Z 0). now rewrite <- Zle_Qle. Qed.

Lemma inject_Z_le (a b : Z) : a <= b -> (inject_Z a <= inject_Z b)%Q.
Proof. intros H. now rewrite <- Zle_Qle. Qed.

Lemma inject_Z_sub (a b : Z) : (inject_Z (a - b) == inject_Z a - inject_Z b)%Q.
Proof.
  unfold Z.sub. rewrite inject_Z_plus, inject_Z_opp. reflexivity.
Qed.

(** ** The proportional pass *)

Lemma proportional_pass_shape (tt count : Z) (tcs : list Z) :
  forall (caps : list Q) (rem : Z) (row caps' : list Q) (rem' : Z),
    proportional_pass tt count tcs caps rem = (row, caps', rem') ->
    List.length tcs = List.length caps ->
    List.length row = List.length caps
    /\ List.length caps' = List.length caps
    /\ (forall i, nth i row 0 + nth i caps' 0 == nth i caps 0)%Q
    /\ (Py.fsum row + Py.fsum caps' == Py.fsum caps)%Q
    /\ (inject_Z rem' == inject_Z rem - Py.fsum row)%Q.
Proof.
  induction tcs as [|tc tcs IH]; intros [|cap caps] rem row caps' rem' Hrun Hlen;
    cbn [proportional_pass] in Hrun; try discriminate Hlen.
  - inversion Hrun; subst.
    repeat split; try reflexivity; try (intros [|i]; cbn; lra);
      unfold Py.fsum; cbn; lra.
  - set (sc := if tt =? 0 then 0 else _) in Hrun.
    destruct (proportional_pass tt count tcs caps (rem - sc))
      as [[row1 caps1] rem1] eqn:Hrec.
    inversion Hrun; subst; clear Hrun.
    apply IH in Hrec; [|now inversion Hlen].
    destruct Hrec as (Hl1 & Hl2 & Hcell & Hsum & Hrem).
    cbn [List.length]. repeat split; try congruence.
    + intros [|i]; cbn [nth]; [lra | apply Hcell].
    + rewrite !fsum_cons. lra.
    + rewrite fsum_cons, Hrem, inject_Z_sub. lra.
Qed.

Lemma proportional_pass_nonneg (tt count : Z) (tcs : list Z) :
  forall (caps : list Q) (rem : Z) (row caps' : list Q) (rem' : Z),
    proportional_pass tt count tcs caps rem = (row, caps', rem') ->
    0 < tt -> 0 <= count -> 0 <= rem ->
    Forall (fun t => 0 <= t) tcs ->
    Forall (fun c => (0 <= c)%Q) caps ->
    Forall (fun c => (0 <= c)%Q) row
    /\ Forall (fun c => (0 <= c)%Q) caps'
    /\ 0 <= rem'.
Proof.
  induction tcs as [|tc tcs IH];
    intros [|cap caps] rem row caps' rem' Hrun Htt Hcount Hrem Htcs Hcaps;
    cbn [proportional_pass] in Hrun;
    try (inversion Hrun; subst; repeat split; auto; fail).
  set (sc := if tt =? 0 then 0 else _) in Hrun.
  destruct (proportional_pass tt count tcs caps (rem - sc))
    as [[row1 caps1] rem1] eqn:Hrec.
  inversion Hrun; subst; clear Hrun.
  inversion Htcs as [|? ? Htc Htcs']; subst.
  inversion Hcaps as [|? ? Hcap Hcaps']; subst.
  assert (Hsc : 0 <= sc <= rem /\ (inject_Z sc <= cap)%Q).
  { subst sc. destruct (tt =? 0) eqn:E; [apply Z.eqb_eq in E; lia|].
    rewrite !zmin_spec.
    assert (0 <= Py.round (inject_Z tc / inject_Z tt * inject_Z count)%Q).
    { apply round_nonneg. apply Qmult_le_0_compat.
      - apply Qle_shift_div_l.
        + change 0%Q with (inject_Z 0). rewrite <- Zlt_Qlt. exact Htt.
        + rewrite Qmult_0_l. now apply inject_Z_nonneg.
      - now apply inject_Z_nonneg. }
    pose proof (int_nonneg cap Hcap). pose proof (int_le cap Hcap).
    split; [lia|]. eapply Qle_trans; [|eassumption].
    apply inject_Z_le. lia. }
  apply IH in Hrec; auto; [|lia].
  destruct Hrec as (Hrow & Hc & Hr). repeat split; auto.
  - constructor; [apply inject_Z_nonneg; lia | exact Hrow].
  - constructor; [lra | exact Hc].
Qed.

(** ** The sweep of the leftover students *)

Lemma sweep_shape (row : list Q) :
  forall (caps : list Q) (rem : Q) (row' caps' : list Q) (rem' : Q),
    sweep row caps rem = (row', caps', rem') ->
    List.length row = List.length caps ->
    List.length row' = List.length caps
    /\ List.length caps' = List.length caps
    /\ (forall i, nth i row' 0 + nth i caps' 0 == nth i row 0 + nth i caps 0)%Q
    /\ (Py.fsum row' + Py.fsum caps' == Py.fsum row + Py.fsum caps)%Q
    /\ (rem' == rem - (Py.fsum row' - Py.fsum row))%Q.
Proof.
  induction row as [|cell row IH]; intros [|cap caps] rem row' caps' rem' Hrun Hlen;
    cbn [sweep] in Hrun; try discriminate Hlen.
  - inversion Hrun; subst. repeat split; try reflexivity; lra.
  - destruct (Py.Qltb 0 cap && Py.Qltb 0 rem).
    + destruct (sweep row caps (rem - Py.min cap rem)%Q)
        as [[row1 caps1] rem1] eqn:Hrec.
      inversion Hrun; subst; clear Hrun.
      apply IH in Hrec; [|now inversion Hlen].
      destruct Hrec as (Hl1 & Hl2 & Hcell & Hsum & Hrem).
      cbn [List.length]. repeat split; try congruence.
      * intros [|i]; cbn [nth]; [lra | apply Hcell].
      * rewrite !fsum_cons. lra.
      * rewrite !fsum_cons, Hrem. lra.
    + destruct (sweep row caps rem) as [[row1 caps1] rem1] eqn:Hrec.
      inversion Hrun; subst; clear Hrun.
      apply IH in Hrec; [|now inversion Hlen].
      destruct Hrec as (Hl1 & Hl2 & Hcell & Hsum & Hrem).
      cbn [List.length]. repeat split; try congruence.
      * intros [|i]; cbn [nth]; [lra | apply Hcell].
      * rewrite !fsum_cons. lra.
      * rewrite !fsum_cons, Hrem. lra.
Qed.

Lemma sweep_nonneg (row : list Q) :
  forall (caps : list Q) (rem : Q) (row' caps' : list Q) (rem' : Q),
    sweep row caps rem = (row', caps', rem') ->
    Forall (fun c => (0 <= c)%Q) row ->
    Forall (fun c => (0 <= c)%Q) caps ->
    Forall (fun c => (0 <= c)%Q) row'
    /\ Forall (fun c => (0 <= c)%Q) caps'
    /\ ((0 <= rem)%Q -> (0 <= rem')%Q).
Proof.
  induction row as [|cell row IH];
    intros [|cap caps] rem row' caps' rem' Hrun Hrow Hcaps;
    cbn [sweep] in Hrun;
    try (inversion Hrun; subst; repeat split; auto; fail).
  inversion Hrow as [|? ? Hcell Hrow']; subst.
  inversion Hcaps as [|? ? Hcap Hcaps']; subst.
  destruct (Py.Qltb 0 cap && Py.Qltb 0 rem) eqn:E.
  - apply andb_true_iff in E. destruct E as [Ec Er].
    apply Qltb_lt in Ec, Er.
    destruct (sweep row caps (rem - Py.min cap rem)%Q)
      as [[row1 caps1] rem1] eqn:Hrec.
    inversion Hrun; subst; clear Hrun.
    apply IH in Hrec; auto. destruct Hrec as (H1 & H2 & H3).
    destruct (min_cases cap rem) as [[Hlt Hm]|[Hle Hm]]; rewrite Hm in *;
      (repeat split; [constructor; [lra|exact H1]
                     | constructor; [lra|exact H2]
                     | intros _; apply H3; lra]).
  - destruct (sweep row caps rem) as [[row1 caps1] rem1] eqn:Hrec.
    inversion Hrun; subst; clear Hrun.
    apply IH in Hrec; auto. destruct Hrec as (H1 & H2 & H3).
    repeat split; auto.
Qed.

(** With enough capacity left the sweep places every leftover student. *)
Lemma sweep_complete (row : list Q) :
  forall (caps : list Q) (rem : Q) (row' caps' : list Q) (rem' : Q),
    sweep row caps rem = (row', caps', rem') ->
    List.length row = List.length caps ->
    Forall (fun c => (0 <= c)%Q) caps ->
    (0 <= rem)%Q -> (rem <= Py.fsum caps)%Q ->
    (rem' == 0)%Q.
Proof.
  induction row as [|cell row IH];
    intros [|cap caps] rem row' caps' rem' Hrun Hlen Hcaps Hrem Hfit;
    cbn [sweep] in Hrun; try discriminate Hlen.
  - inversion Hrun; subst. unfold Py.fsum in Hfit. cbn in Hfit. lra.
  - inversion Hcaps as [|? ? Hcap Hcaps']; subst. rewrite fsum_cons in Hfit.
    destruct (Py.Qltb 0 cap && Py.Qltb 0 rem) eqn:E.
    + apply andb_true_iff in E. destruct E as [Ec Er].
      apply Qltb_lt in Ec, Er.
      destruct (sweep row caps (rem - Py.min cap rem)%Q)
        as [[row1 caps1] rem1] eqn:Hrec.
      inversion Hrun; subst; clear Hrun.
      pose proof (fsum_nonneg _ Hcaps') as Hge.
      assert (Hlen' : List.length row = List.length caps) by now inversion Hlen.
      apply (IH _ _ _ _ _ Hrec Hlen' Hcaps');
        destruct (min_cases cap rem) as [[Hlt Hm]|[Hle Hm]]; rewrite Hm; lra.
    + destruct (sweep row caps rem) as [[row1 caps1] rem1] eqn:Hrec.
      inversion Hrun; subst; clear Hrun.
      pose proof (fsum_nonneg _ Hcaps') as Hge.
      assert (Hlen' : List.length row = List.length caps) by now inversion Hlen.
      apply (IH _ _ _ _ _ Hrec Hlen' Hcaps' Hrem).
      apply andb_false_iff in E. destruct E as [E|E]; apply Qltb_ge in E; lra.
Qed.

(** ** The even spread *)

Lemma nth_zeros {A} (l : list A) (i : nat) :
  nth i (map (fun _ => 0%Q) l) 0%Q = 0%Q.
Proof.
  revert i. induction l as [|x l IH]; intros [|i]; cbn; auto.
Qed.

Lemma fsum_zeros {A} (l : list A) : (Py.fsum (map (fun _ => 0%Q) l) == 0)%Q.
Proof.
  induction l as [|x l IH]; cbn [map]; [reflexivity|].
  rewrite fsum_cons, IH. lra.
Qed.

Lemma even_pass_shape (n : Z) (caps : list Q) :
  forall (i rem : Z) (row caps' : list Q) (rem' : Z),
    even_pass n i caps rem = (row, caps', rem') ->
    List.length row = List.length caps
    /\ List.length caps' = List.length caps
    /\ (forall j, nth j row 0 + nth j caps' 0 == nth j caps 0)%Q
    /\ (Py.fsum row + Py.fsum caps' == Py.fsum caps)%Q
    /\ (inject_Z rem' == inject_Z rem - Py.fsum row)%Q.
Proof.
  induction caps as [|cap caps IH]; intros i rem row caps' rem' Hrun;
    cbn [even_pass] in Hrun.
  - inversion Hrun; subst.
    repeat split; try reflexivity; try (intros [|j]; cbn; lra);
      unfold Py.fsum; cbn; lra.
  - destruct (rem <=? 0).
    + inversion Hrun; subst; clear Hrun.
      change (0%Q :: map (fun _ => 0%Q) caps)
        with (map (fun _ : Q => 0%Q) (cap :: caps)).
      repeat split.
      * apply length_map.
      * intros j. rewrite nth_zeros. lra.
      * rewrite fsum_zeros. lra.
      * rewrite fsum_zeros. lra.
    + set (sc := Py.zmin _ _) in Hrun.
      destruct (even_pass n (i + 1) caps (rem - sc)) as [[row1 caps1] rem1] eqn:Hrec.
      inversion Hrun; subst; clear Hrun.
      apply IH in Hrec. destruct Hrec as (Hl1 & Hl2 & Hcell & Hsum & Hrem).
      cbn [List.length]. repeat split; try congruence.
      * intros [|j]; cbn [nth]; [lra | apply Hcell].
      * rewrite !fsum_cons. lra.
      * rewrite fsum_cons, Hrem, inject_Z_sub. lra.
Qed.

Lemma even_pass_nonneg (n : Z) (caps : list Q) :
  forall (i rem : Z) (row caps' : list Q) (rem' : Z),
    even_pass n i caps rem = (row, caps', rem') ->
    Z.of_nat (List.length caps) <= n - i ->
    Forall (fun c => (0 <= c)%Q) caps ->
    Forall (fun c => (0 <= c)%Q) row
    /\ Forall (fun c => (0 <= c)%Q) caps'
    /\ (0 <= rem -> 0 <= rem').
Proof.
  induction caps as [|cap caps IH]; intros i rem row caps' rem' Hrun Hslots Hcaps;
    cbn [even_pass] in Hrun.
  - inversion Hrun; subst. repeat split; auto.
  - destruct (rem <=? 0) eqn:Hbreak.
    + inversion Hrun; subst; clear Hrun. repeat split; auto.
      change (0%Q :: map (fun _ => 0%Q) caps)
        with (map (fun _ : Q => 0%Q) (cap :: caps)).
      apply Forall_forall. intros x Hx. apply in_map_iff in Hx.
      destruct Hx as (? & <- & _). lra.
    + apply Z.leb_gt in Hbreak.
      set (sc := Py.zmin _ _) in Hrun.
      destruct (even_pass n (i + 1) caps (rem - sc)) as [[row1 caps1] rem1] eqn:Hrec.
      inversion Hrun; subst; clear Hrun.
      inversion Hcaps as [|? ? Hcap Hcaps']; subst.
      cbn [List.length] in Hslots.
      assert (Hsc : 0 <= sc <= rem /\ (inject_Z sc <= cap)%Q).
      { subst sc. rewrite zmin_spec.
        pose proof (int_nonneg cap Hcap). pose proof (int_le cap Hcap).
        assert (0 <= rem / (n - i) <= rem).
        { split; [apply Z.div_pos; lia|].
          apply Z.div_le_upper_bound; [lia|]. nia. }
        split; [lia|]. eapply Qle_trans; [|eassumption].
        apply inject_Z_le. lia. }
      apply IH in Hrec; auto; [|lia].
      destruct Hrec as (H1 & H2 & H3). repeat split.
      * constructor; [apply inject_Z_nonneg; lia | exact H1].
      * constructor; [lra | exact H2].
      * intros _. apply H3. lia.
Qed.

(** ** Teacher lists *)

Lemma range_length (a b : Z) : List.length (Py.range a b) = Z.to_nat (b - a).
Proof. unfold Py.range. now rewrite length_map, length_seq. Qed.

Lemma teacher_counts_length (n c : Z) :
  List.length (teacher_counts n c) = Z.to_nat n.
Proof.
  unfold teacher_counts. rewrite length_map, range_length. f_equal. lia.
Qed.

(** With at most three classrooms the remainder is handed out in index
    order and every teacher is placed. *)
Lemma teacher_counts_sum_small (n c : Z) :
  1 <= n <= 3 -> Py.sum (teacher_counts n c) = c.
Proof.
  intros Hn. assert (Hcases : n = 1 \/ n = 2 \/ n = 3) by lia.
  pose proof (Z.mod_pos_bound c n ltac:(lia)) as He.
  pose proof (Z.div_mod c n ltac:(lia)) as Hc.
  unfold teacher_counts. revert He Hc.
  generalize (c / n) as b. generalize (c mod n) as e. intros e b He Hc.
  destruct Hcases as [-> | [-> | ->]];
    [assert (Hex : e = 0) by lia
    |assert (Hex : e = 0 \/ e = 1) by lia
    |assert (Hex : e = 0 \/ e = 1 \/ e = 2) by lia];
    repeat (destruct Hex as [Hex|Hex]); subst e;
    unfold Py.sum, extra_classrooms, Py.range; simpl; lia.
Qed.

Lemma sum_nonpos (l : list Z) : Forall (fun t => t <= 0) l -> Py.sum l <= 0.
Proof.
  induction 1 as [|x l Hx Hl IH]; [reflexivity|]. rewrite sum_cons. lia.
Qed.

Lemma teacher_counts_nonneg (n c : Z) :
  0 < Py.sum (teacher_counts n c) -> Forall (fun t => 0 <= t) (teacher_counts n c).
Proof.
  intros Hpos. destruct (Z.le_gt_cases 0 (c / n)) as [Hb|Hb].
  - unfold teacher_counts. apply Forall_forall. intros t Ht.
    apply in_map_iff in Ht. destruct Ht as (i & <- & _).
    destruct (_ && _); lia.
  - exfalso. assert (Py.sum (teacher_counts n c) <= 0); [|lia].
    apply sum_nonpos. unfold teacher_counts. apply Forall_forall. intros t Ht.
    apply in_map_iff in Ht. destruct Ht as (i & <- & _).
    destruct (_ && _); lia.
Qed.

Lemma teachers_per_classroom_subject_rows (n : Z) (tps : dict Z) :
  teacher_rows_ok (Z.to_nat n) (teachers_per_classroom_subject n tps).
Proof.
  unfold teachers_per_classroom_subject.
  assert (H : forall acc, teacher_rows_ok (Z.to_nat n) acc ->
             teacher_rows_ok (Z.to_nat n)
               (fold_left
                  (fun tpcs sc =>
                     if snd sc =? 0 then tpcs
                     else Dict.set (fst sc) (teacher_counts n (snd sc)) tpcs)
                  tps acc)).
  { induction tps as [|[s c] tps IH]; intros acc Hacc; cbn [fold_left]; [exact Hacc|].
    apply IH. cbn [fst snd]. destruct (c =? 0); [exact Hacc|].
    intros s' tcs Hget. destruct (string_dec s' s) as [->|Hne].
    - rewrite get_set_eq in Hget. inversion Hget; subst.
      split; [apply teacher_counts_length | apply teacher_counts_nonneg].
    - rewrite get_set_neq in Hget by exact Hne. exact (Hacc _ _ Hget). }
  apply H. intros s tcs Hget. discriminate Hget.
Qed.

Lemma teacher_lists_other (n : Z) (s : string) (l : dict Z) :
  forall acc : dict (list Z),
    ~ In s (Dict.keys l) ->
    Dict.get s
      (fold_left
         (fun tpcs sc =>
            if snd sc =? 0 then tpcs
            else Dict.set (fst sc) (teacher_counts n (snd sc)) tpcs)
         l acc)
    = Dict.get s acc.
Proof.
  induction l as [|[k v] l IH]; intros acc Hout; cbn [fold_left fst snd];
    [reflexivity|].
  cbn in Hout. rewrite IH by tauto.
  destruct (v =? 0); [reflexivity|]. apply get_set_neq. intros ->. tauto.
Qed.

(** A subject with a non-zero teacher count has a teacher list. *)
Lemma teachers_per_classroom_subject_mem (n : Z) (tps : dict Z) (s : string) (c : Z) :
  NoDup (Dict.keys tps) ->
  Dict.get s tps = Some c -> c <> 0 ->
  Dict.get s (teachers_per_classroom_subject n tps) = Some (teacher_counts n c).
Proof.
  unfold teachers_per_classroom_subject. generalize (@nil (string * list Z)) as acc.
  induction tps as [|[k v] tps IH]; intros acc Hnd Hget Hc; [discriminate Hget|].
  cbn [fold_left fst snd]. cbn [Dict.get] in Hget.
  inversion Hnd as [|? ? Hout Hnd']; subst.
  destruct (String.eqb s k) eqn:E.
  - apply String.eqb_eq in E. subst k. inversion Hget; subst v.
    destruct (c =? 0) eqn:Ec; [apply Z.eqb_eq in Ec; contradiction|].
    rewrite teacher_lists_other by exact Hout. apply get_set_eq.
  - now apply IH.
Qed.

(** A subject without teachers has no teacher list. *)
Lemma teachers_per_classroom_subject_zero (n : Z) (tps : dict Z) (s : string) :
  NoDup (Dict.keys tps) ->
  Dict.get s tps = Some 0 ->
  Dict.get s (teachers_per_classroom_subject n tps) = None.
Proof.
  unfold teachers_per_classroom_subject.
  assert (H : forall acc, Dict.get s acc = None ->
             NoDup (Dict.keys tps) -> Dict.get s tps = Some 0 ->
             Dict.get s
               (fold_left
                  (fun tpcs sc =>
                     if snd sc =? 0 then tpcs
                     else Dict.set (fst sc) (teacher_counts n (snd sc)) tpcs)
                  tps acc) = None).
  { induction tps as [|[k v] tps IH]; intros acc Hacc Hnd Hget; [discriminate Hget|].
    cbn [fold_left fst snd]. cbn [Dict.get] in Hget.
    inversion Hnd as [|? ? Hout Hnd']; subst.
    destruct (String.eqb s k) eqn:E.
    - apply String.eqb_eq in E. subst k. inversion Hget; subst v. cbn.
      now rewrite teacher_lists_other.
    - apply IH; auto. destruct (v =? 0); [exact Hacc|].
      rewrite get_set_neq; [exact Hacc|]. intros ->.
      now rewrite String.eqb_refl in E. }
  intros Hnd Hget. now apply H.
Qed.

(** ** One subject *)

Lemma spread_subject_step (n : Z) (m : nat) (tpcs : dict (list Z))
  (st : SpreadState) (subject : string) (count : Z) :
  rows_ok m st ->
  teacher_rows_ok m tpcs ->
  Z.of_nat m <= n ->
  0 <= count ->
  ~ In subject (Dict.keys (spcs st)) ->
  exists row,
    spcs (spread_subject n tpcs st subject count) = spcs st ++ [(subject, row)]
    /\ rows_ok m (spread_subject n tpcs st subject count)
    /\ (forall i, nth i row 0
                  + nth i (capacities (spread_subject n tpcs st subject count)) 0
                  == nth i (capacities st) 0)%Q
    /\ (Py.fsum row + Py.fsum (capacities (spread_subject n tpcs st subject count))
        == Py.fsum (capacities st))%Q
    /\ ((inject_Z count <= Py.fsum (capacities st))%Q ->
        (Py.fsum row == inject_Z count)%Q).
Proof.
  intros (Hlen & Hcaps & Hrows) Htp Hm Hcount Hfresh.
  unfold spread_subject.
  assert (Hstep :
    forall row1 caps1 rem1 row2 caps2 rem2,
      List.length row1 = m -> List.length caps1 = m ->
      Forall (fun c => (0 <= c)%Q) row1 -> Forall (fun c => (0 <= c)%Q) caps1 ->
      0 <= rem1 ->
      (forall i, nth i row1 0 + nth i caps1 0 == nth i (capacities st) 0)%Q ->
      (Py.fsum row1 + Py.fsum caps1 == Py.fsum (capacities st))%Q ->
      (inject_Z rem1 == inject_Z count - Py.fsum row1)%Q ->
      sweep row1 caps1 (inject_Z rem1) = (row2, caps2, rem2) ->
      forall tt,
        let st' := {| spcs := Dict.set subject row2 (spcs st);
                      capacities := caps2; total_teachers_var := tt |} in
        spcs st' = spcs st ++ [(subject, row2)]
        /\ rows_ok m st'
        /\ (forall i, nth i row2 0 + nth i (capacities st') 0
                      == nth i (capacities st) 0)%Q
        /\ (Py.fsum row2 + Py.fsum (capacities st') == Py.fsum (capacities st))%Q
        /\ ((inject_Z count <= Py.fsum (capacities st))%Q ->
            (Py.fsum row2 == inject_Z count)%Q)).
  { intros row1 caps1 rem1 row2 caps2 rem2 Hl1 Hl2 Hr1 Hc1 Hrem1 Hcell Hsum Hrem
           Hsweep tt st'. subst st'. cbn [spcs capacities].
    pose proof (sweep_shape _ _ _ _ _ _ Hsweep ltac:(congruence))
      as (Hs1 & Hs2 & Hscell & Hssum & Hsrem).
    pose proof (sweep_nonneg _ _ _ _ _ _ Hsweep Hr1 Hc1) as (Hn1 & Hn2 & _).
    split; [now apply set_fresh|]. split; [|split; [|split]].
    - unfold rows_ok. cbn [spcs capacities].
      repeat split; [congruence | exact Hn2 |].
      rewrite set_fresh by exact Hfresh. apply Forall_app. split; [exact Hrows|].
      repeat constructor; [cbn; congruence | exact Hn1].
    - intros i. rewrite Hscell. apply Hcell.
    - lra.
    - intros Hfit.
      assert (Hz : (rem2 == 0)%Q).
      { apply (sweep_complete _ _ _ _ _ _ Hsweep); auto; [congruence| |lra].
        now apply inject_Z_nonneg. }
      lra. }
  destruct (match Dict.get subject tpcs with
            | Some tcs => if 0 <? Py.sum tcs then Some tcs else None
            | None => None
            end) as [tcs|] eqn:Hwith.
  - assert (Htcs : Dict.get subject tpcs = Some tcs /\ 0 < Py.sum tcs).
    { destruct (Dict.get subject tpcs) as [tcs'|]; [|discriminate].
      destruct (0 <? Py.sum tcs') eqn:E; [|discriminate].
      inversion Hwith; subst. split; [reflexivity | now apply Z.ltb_lt]. }
    destruct Htcs as [Hget Hpos]. destruct (Htp _ _ Hget) as [Htl Htn].
    destruct (proportional_pass (Py.sum tcs) count tcs (capacities st) count)
      as [[row1 caps1] rem1] eqn:Hpass.
    pose proof (proportional_pass_shape _ _ _ _ _ _ _ _ Hpass ltac:(congruence))
      as (Hp1 & Hp2 & Hpcell & Hpsum & Hprem).
    pose proof (proportional_pass_nonneg _ _ _ _ _ _ _ _ Hpass Hpos Hcount Hcount
                  (Htn Hpos) Hcaps) as (Hq1 & Hq2 & Hq3).
    destruct (0 <? rem1) eqn:Hleft.
    + destruct (sweep row1 caps1 (inject_Z rem1)) as [[row2 caps2] rem2] eqn:Hsweep.
      exists row2.
      apply (Hstep row1 caps1 rem1 row2 caps2 rem2); auto; congruence.
    + apply Z.ltb_ge in Hleft. assert (rem1 = 0) by lia. subst rem1.
      exists row1. cbn [spcs capacities].
      split; [now apply set_fresh|]. split; [|split; [|split]].
      * unfold rows_ok. cbn [spcs capacities].
        repeat split; [congruence | exact Hq2 |].
        rewrite set_fresh by exact Hfresh. apply Forall_app. split; [exact Hrows|].
        repeat constructor; [cbn; congruence | exact Hq1].
      * exact Hpcell.
      * exact Hpsum.
      * intros _. change (inject_Z 0) with 0%Q in Hprem. lra.
  - destruct (even_pass n 0 (capacities st) count) as [[row1 caps1] rem1] eqn:Hpass.
    pose proof (even_pass_shape _ _ _ _ _ _ _ Hpass)
      as (Hp1 & Hp2 & Hpcell & Hpsum & Hprem).
    pose proof (even_pass_nonneg _ _ _ _ _ _ _ Hpass ltac:(lia) Hcaps)
      as (Hq1 & Hq2 & Hq3).
    destruct (sweep row1 caps1 (inject_Z rem1)) as [[row2 caps2] rem2] eqn:Hsweep.
    exists row2.
    apply (Hstep row1 caps1 rem1 row2 caps2 rem2); auto; congruence.
Qed.

(** ** All subjects *)

Lemma sum_nonneg (l : list Z) : Forall (fun x => 0 <= x) l -> 0 <= Py.sum l.
Proof.
  induction 1 as [|x l Hx Hl IH]; [reflexivity|]. rewrite sum_cons. lia.
Qed.

Lemma column_snoc (rows : dict (list Q)) (s : string) (row : list Q) (i : nat) :
  (column (rows ++ [(s, row)]) i == column rows i + nth i row 0)%Q.
Proof.
  unfold column at 1. rewrite map_app, fsum_app. cbn [map snd].
  rewrite fsum_cons. change (Py.fsum []) with 0%Q. unfold column. lra.
Qed.

Lemma placed_snoc (rows : dict (list Q)) (s : string) (row : list Q) :
  (placed (rows ++ [(s, row)]) == placed rows + Py.fsum row)%Q.
Proof.
  unfold placed at 1. rewrite map_app, fsum_app. cbn [map snd].
  rewrite fsum_cons. change (Py.fsum []) with 0%Q. unfold placed. lra.
Qed.

Lemma spread_fold (n : Z) (m : nat) (tpcs : dict (list Z)) :
  teacher_rows_ok m tpcs ->
  Z.of_nat m <= n ->
  forall (items : list (string * Z)) (st : SpreadState),
    rows_ok m st ->
    NoDup (Dict.keys (spcs st) ++ map fst items) ->
    Forall (fun e => 0 <= snd e) items ->
    let st' :=
      fold_left (fun st sc => spread_subject n tpcs st (fst sc) (snd sc)) items st in
    rows_ok m st'
    /\ Dict.keys (spcs st') = Dict.keys (spcs st) ++ map fst items
    /\ (forall i, column (spcs st') i + nth i (capacities st') 0
                  == column (spcs st) i + nth i (capacities st) 0)%Q
    /\ (placed (spcs st') + Py.fsum (capacities st')
        == placed (spcs st) + Py.fsum (capacities st))%Q
    /\ ((inject_Z (Py.sum (map snd items)) <= Py.fsum (capacities st))%Q ->
        (placed (spcs st') == placed (spcs st) + inject_Z (Py.sum (map snd items)))%Q).
Proof.
  intros Htp Hm. induction items as [|[s c] items IH]; intros st Hok Hnd Hpos;
    cbv zeta in *.
  - cbn [fold_left map]. rewrite app_nil_r.
    split; [exact Hok|]. split; [reflexivity|]. split; [intros i; reflexivity|].
    split; [reflexivity|]. intros _. change (inject_Z (Py.sum [])) with 0%Q. lra.
  - cbn [fold_left fst snd map] in *.
    inversion Hpos as [|? ? Hc Hpos']; subst. cbn [snd] in Hc.
    assert (Hfresh : ~ In s (Dict.keys (spcs st))).
    { intros Hin. apply NoDup_remove_2 in Hnd. apply Hnd.
      apply in_or_app. now left. }
    destruct (spread_subject_step n m tpcs st s c Hok Htp Hm Hc Hfresh)
      as (row & Hrows & Hok1 & Hcell & Hsum & Hfit).
    set (st1 := spread_subject n tpcs st s c) in *.
    assert (Hnd1 : NoDup (Dict.keys (spcs st1) ++ map fst items)).
    { rewrite Hrows. unfold Dict.keys. rewrite map_app, <- app_assoc. exact Hnd. }
    destruct (IH st1 Hok1 Hnd1 Hpos') as (Hok2 & Hkeys & Hcol & Hpl & Hall).
    split; [exact Hok2|]. split; [|split; [|split]].
    + rewrite Hkeys, Hrows. unfold Dict.keys. rewrite map_app, <- app_assoc.
      reflexivity.
    + intros i. rewrite Hcol, Hrows, column_snoc. specialize (Hcell i). lra.
    + rewrite Hpl, Hrows, placed_snoc. lra.
    + rewrite sum_cons, inject_Z_plus. intros Hcap.
      pose proof (inject_Z_nonneg _ (sum_nonneg _
                    (proj2 (Forall_map snd (fun x => 0 <= x) items) Hpos'))) as Hrest.
      rewrite Hall, Hrows, placed_snoc, Hfit; lra.
Qed.

Lemma fsum_constant {A} (q : Q) (l : list A) :
  (Py.fsum (map (fun _ => q) l) == inject_Z (Z.of_nat (List.length l)) * q)%Q.
Proof.
  induction l as [|x l IH]; cbn [map List.length].
  - change (Py.fsum []) with 0%Q. change (inject_Z (Z.of_nat 0)) with 0%Q. ring.
  - rewrite fsum_cons, IH, Nat2Z.inj_succ, <- Z.add_1_r, inject_Z_plus.
    change (inject_Z 1) with 1%Q. ring.
Qed.

Lemma nth_constant {A} (q : Q) (l : list A) (i : nat) :
  (i < List.length l)%nat -> nth i (map (fun _ => q) l) 0%Q = q.
Proof.
  revert i. induction l as [|x l IH]; intros [|i] Hi; cbn in *; try lia; auto.
  apply IH. lia.
Qed.

(** The state after line 244, for subject counts that are not negative. *)
Lemma students_per_classroom_subject_spec (n : Z) (max_size : Q) (T : Z)
  (tps sps : dict Z) :
  0 <= n -> (0 <= max_size)%Q ->
  NoDup (Dict.keys sps) ->
  Forall (fun e => 0 <= snd e) sps ->
  let st :=
    students_per_classroom_subject n max_size T
      (teachers_per_classroom_subject n tps) sps in
  rows_ok (Z.to_nat n) st
  /\ Dict.keys (spcs st) = Dict.keys sps
  /\ (forall i, (i < Z.to_nat n)%nat ->
                (column (spcs st) i + nth i (capacities st) 0 == max_size)%Q)
  /\ (placed (spcs st) + Py.fsum (capacities st) == inject_Z n * max_size)%Q
  /\ ((inject_Z (Py.sum (Dict.values sps)) <= inject_Z n * max_size)%Q ->
      (placed (spcs st) == inject_Z (Py.sum (Dict.values sps)))%Q).
Proof.
  intros Hn Hmax Hnd Hpos. cbv zeta. unfold students_per_classroom_subject.
  set (st0 := {| spcs := []; capacities := _; total_teachers_var := T |}).
  assert (Hok0 : rows_ok (Z.to_nat n) st0).
  { unfold rows_ok, st0. cbn [spcs capacities]. repeat split.
    - rewrite length_map, range_length. f_equal. lia.
    - apply Forall_forall. intros x Hx. apply in_map_iff in Hx.
      now destruct Hx as (? & <- & _).
    - constructor. }
  assert (Hcap0 : (Py.fsum (capacities st0) == inject_Z n * max_size)%Q).
  { unfold st0. cbn [capacities]. rewrite fsum_constant, range_length.
    rewrite Z.sub_0_r, Z2Nat.id by exact Hn. reflexivity. }
  destruct (spread_fold n (Z.to_nat n) _ (teachers_per_classroom_subject_rows n tps)
              ltac:(lia) sps st0 Hok0 Hnd Hpos)
    as (Hok & Hkeys & Hcol & Hpl & Hall).
  split; [exact Hok|]. split; [exact Hkeys|]. split; [|split].
  - intros i Hi. rewrite Hcol. unfold st0. cbn [spcs capacities].
    rewrite nth_constant by (rewrite range_length; lia).
    change (column [] i) with 0%Q. lra.
  - rewrite Hpl, Hcap0. change (placed (spcs st0)) with 0%Q. ring.
  - intros Hfit. rewrite Hall by (rewrite Hcap0; exact Hfit).
    change (placed (spcs st0)) with 0%Q. unfold Dict.values. ring.
Qed.

(** * Classroom totals *)

(** ** Sums of rationals over lists *)

Lemma fsum_map_le {A} (f g : A -> Q) (l : list A) :
  (forall x, In x l -> (f x <= g x)%Q) ->
  (Py.fsum (map f l) <= Py.fsum (map g l))%Q.
Proof.
  induction l as [|x l IH]; intros H; cbn [map]; [apply Qle_refl|].
  rewrite !fsum_cons. pose proof (H x (or_introl eq_refl)).
  assert (Py.fsum (map f l) <= Py.fsum (map g l))%Q
    by (apply IH; intros y Hy; apply H; now right).
  lra.
Qed.

Lemma fsum_map_eq {A} (f g : A -> Q) (l : list A) :
  (forall x, In x l -> (f x == g x)%Q) ->
  (Py.fsum (map f l) == Py.fsum (map g l))%Q.
Proof.
  intros H. apply Qle_antisym; apply fsum_map_le; intros x Hx;
    rewrite (H x Hx); apply Qle_refl.
Qed.

Lemma fsum_Permutation (l l' : list Q) :
  Permutation l l' -> (Py.fsum l == Py.fsum l')%Q.
Proof.
  induction 1 as [|x l l' HP IH|x y l|l l' l'' HP1 IH1 HP2 IH2];
    rewrite ?fsum_cons; lra.
Qed.





Lemma fsum_bounded (q : Q) (l : list Q) :
  Forall (fun x => (x <= q)%Q) l ->
  (Py.fsum l <= inject_Z (Z.of_nat (List.length l)) * q)%Q.
Proof.
  intros H. rewrite <- (fsum_constant q l). rewrite <- (map_id l) at 1.
  apply fsum_map_le. intros x Hx. rewrite Forall_forall in H. now apply H.
Qed.

(** ** One classroom *)

Lemma index_nth {A} (l : list A) (i : Z) (x d : A) :
  index l i = Ok x -> nth (Z.to_nat i) l d = x.
Proof.
  unfold index. destruct (nth_error l (Z.to_nat i)) eqn:E; [|discriminate].
  intros [= ->]. now apply nth_error_nth.
Qed.

Lemma update_classroom_students (inp : AllocationRequest) (tpcs : dict (list Z))
  (rows : dict (list Q)) (i : Z) (names : list string) :
  forall (c : ClassroomAllocation) (ta : list TeacherRecord)
         (c' : ClassroomAllocation) (ta' : list TeacherRecord),
    update_classroom inp tpcs rows i names c ta = Ok (c', ta') ->
    (students_assigned c'
     == students_assigned c
        + Py.fsum (map (contribution tpcs rows (Z.to_nat i)) names))%Q.
Proof.
  induction names as [|s names IH]; intros c ta c' ta' Hrun;
    cbn [update_classroom map] in Hrun |- *.
  - inversion Hrun; subst. change (Py.fsum []) with 0%Q. lra.
  - rewrite fsum_cons. unfold contribution at 1.
    destruct (Dict.get s tpcs) as [tcs|] eqn:Htcs.
    + inv_bind Hrun. rename x into t. inv_bind Hrun. rename x into row.
      inv_bind Hrun. rename x into cell.
      apply lookup_Ok in Hx0.
      rewrite (index_nth _ _ _ 0 Hx), (get_default_get _ _ _ _ Hx0),
        (index_nth _ _ _ 0%Q Hx1).
      destruct ((0 <? t) || Py.Qltb 0 cell); apply IH in Hrun; rewrite Hrun;
        cbn [students_assigned]; lra.
    + apply IH in Hrun. rewrite Hrun. lra.
Qed.

Lemma update_classrooms_students (inp : AllocationRequest) (tpcs : dict (list Z))
  (rows : dict (list Q)) (indices : list Z) :
  forall (ta : list TeacherRecord) (cls : list ClassroomAllocation)
         (ta' : list TeacherRecord),
    update_classrooms inp tpcs rows indices ta = Ok (cls, ta') ->
    Forall2
      (fun i c =>
         (students_assigned c
          == Py.fsum (map (contribution tpcs rows (Z.to_nat i)) (subject_names inp)))%Q)
      indices cls.
Proof.
  induction indices as [|i indices IH]; intros ta cls ta' Hrun;
    cbn [update_classrooms] in Hrun.
  - inversion Hrun; subst. constructor.
  - inv_bind Hrun. destruct x as [c ta1]. inv_bind Hrun. destruct x as [cs ta2].
    inversion Hrun; subst; clear Hrun. constructor; [|eapply IH; eauto].
    apply update_classroom_students in Hx. cbn [with_ratio students_assigned].
    rewrite Hx. cbn [empty_classroom students_assigned]. lra.
Qed.

(** ** Contributions and columns *)

Lemma cell_nonneg (rows : dict (list Q)) (s : string) (i : nat) :
  Forall (fun e => Forall (fun c => (0 <= c)%Q) (snd e)) rows ->
  (0 <= nth i (Dict.get_default s [] rows) 0)%Q.
Proof.
  intros Hrows. unfold Dict.get_default.
  destruct (Dict.get s rows) as [row|] eqn:E.
  - apply get_In in E. rewrite Forall_forall in Hrows.
    specialize (Hrows _ E). cbn [snd] in Hrows.
    destruct (nth_in_or_default i row 0%Q) as [Hin | ->]; [|apply Qle_refl].
    rewrite Forall_forall in Hrows. now apply Hrows.
  - destruct i; apply Qle_refl.
Qed.

Lemma contribution_le (tpcs : dict (list Z)) (rows : dict (list Q)) (s : string)
  (i : nat) :
  Forall (fun e => Forall (fun c => (0 <= c)%Q) (snd e)) rows ->
  (contribution tpcs rows i s <= nth i (Dict.get_default s [] rows) 0)%Q.
Proof.
  intros Hrows. pose proof (cell_nonneg rows s i Hrows). unfold contribution.
  destruct (Dict.get s tpcs); [|assumption].
  destruct (_ || _); [apply Qle_refl | assumption].
Qed.


Lemma column_over_names (rows : dict (list Q)) (names : list string) (i : nat) :
  NoDup (Dict.keys rows) ->
  Permutation names (Dict.keys rows) ->
  (Py.fsum (map (fun s => nth i (Dict.get_default s [] rows) 0) names)
   == column rows i)%Q.
Proof.
  intros Hnd HP.
  rewrite (fsum_Permutation _ _ (Permutation_map _ HP)).
  unfold column, Dict.keys. rewrite map_map. apply fsum_map_eq.
  intros [k row] Hin. cbn [fst snd].
  rewrite (get_default_get _ _ _ _ (NoDup_In_get _ _ _ Hnd Hin)). reflexivity.
Qed.

(** ** The classrooms of a returned result *)

Lemma capacity_ceiling_nonneg (inp : AllocationRequest) (q : Q) :
  valid_request inp -> capacity_ceiling inp = Ok q -> (0 <= q)%Q.
Proof.
  intros Hv Hrun. unfold capacity_ceiling in Hrun. inv_bind Hrun.
  unfold Py.div in Hx. destruct (Qeq_bool _ 0); [discriminate|].
  inversion Hx; subst x; clear Hx. inversion Hrun; subst q; clear Hrun.
  assert (Havg : (0 <= inject_Z (total_students inp) / inject_Z (num_classrooms inp)
                       * (12 # 10))%Q).
  { apply Qmult_le_0_compat; [|discriminate].
    apply Qle_shift_div_l.
    - change 0%Q with (inject_Z 0). rewrite <- Zlt_Qlt.
      pose proof (valid_classrooms _ Hv). lia.
    - rewrite Qmult_0_l. apply inject_Z_nonneg.
      pose proof (valid_students _ Hv). lia. }
  destruct (0 <? max_class_size inp) eqn:E; [|exact Havg].
  apply Z.ltb_lt in E.
  pose proof (inject_Z_nonneg (max_class_size inp) ltac:(lia)).
  destruct (min_cases
              (inject_Z (total_students inp) / inject_Z (num_classrooms inp)
               * (12 # 10))%Q
              (inject_Z (max_class_size inp))) as [[_ Hmin]|[_ Hmin]]; rewrite Hmin; assumption.
Qed.

Lemma in_range (i n : Z) : In i (Py.range 0 n) -> (Z.to_nat i < Z.to_nat n)%nat.
Proof.
  unfold Py.range. intros H. apply in_map_iff in H.
  destruct H as (k & <- & Hk). apply in_seq in Hk.
  rewrite Z.sub_0_r in Hk. cbn [Z.add]. rewrite Nat2Z.id. lia.
Qed.

(** The facts about a returned result that the classroom theorems share. *)
Lemma classrooms_of_result (inp : AllocationRequest) (r : OptimizationResult)
  (ceiling : Q) :
  valid_request inp ->
  optimize_teacher_allocation inp = Ok r ->
  capacity_ceiling inp = Ok ceiling ->
  Forall (fun e => 0 <= students_allocated (snd e)) (subject_allocation r) ->
  exists (tps sps : dict Z) (st : SpreadState),
    let tpcs := teachers_per_classroom_subject (num_classrooms inp) tps in
    let m := Z.to_nat (num_classrooms inp) in
    NoDup (Dict.keys tps)
    /\ Permutation (subject_names inp) (Dict.keys tps)
    /\ Dict.keys sps = Dict.keys tps
    /\ subject_allocation r
       = map (fun s => (s, entry_of tps sps s)) (subject_names inp)
    /\ rows_ok m st
    /\ Dict.keys (spcs st) = Dict.keys sps
    /\ (forall i, (i < m)%nat ->
                  (column (spcs st) i + nth i (capacities st) 0 == ceiling)%Q)
    /\ (placed (spcs st) + Py.fsum (capacities st)
        == inject_Z (num_classrooms inp) * ceiling)%Q
    /\ ((inject_Z (Py.sum (Dict.values sps))
         <= inject_Z (num_classrooms inp) * ceiling)%Q ->
        (placed (spcs st) == inject_Z (Py.sum (Dict.values sps)))%Q)
    /\ Forall2
         (fun i c =>
            (students_assigned c
             == Py.fsum (map (contribution tpcs (spcs st) (Z.to_nat i))
                             (subject_names inp)))%Q)
         (Py.range 0 (num_classrooms inp)) (classroom_allocation r).
Proof.
  intros Hv Hrun Hceil Hpos. apply optimize_Ok in Hrun.
  destruct Hrun as (tps & sps & max_size & Ht & Hs & Ha & Hc & Hcls & _).
  rewrite Hceil in Hc. inversion Hc; subst max_size; clear Hc.
  destruct (result_keys _ _ _ _ Hv Ht Hs Ha) as (Hnd & Hks & HP & Hsa).
  assert (Hnds : NoDup (Dict.keys sps)) by now rewrite Hks.
  assert (Hsps : Forall (fun e => 0 <= snd e) sps).
  { apply Forall_forall. intros [k v] Hin. cbn [snd].
    assert (Hk : In k (subject_names inp)).
    { apply (Permutation_in _ (Permutation_sym HP)). rewrite <- Hks.
      change k with (fst (k, v)). now apply in_map. }
    rewrite Hsa, Forall_forall in Hpos.
    specialize (Hpos _ (in_map _ _ _ Hk)).
    cbn [snd entry_of students_allocated] in Hpos.
    now rewrite (get_default_get _ _ _ _ (NoDup_In_get _ _ _ Hnds Hin)) in Hpos. }
  pose proof (capacity_ceiling_nonneg _ _ Hv Hceil) as Hmax.
  pose proof (valid_classrooms _ Hv) as Hn.
  destruct (students_per_classroom_subject_spec (num_classrooms inp) ceiling
              (total_teachers inp) tps sps ltac:(lia) Hmax Hnds Hsps)
    as (Hok & Hkeys & Hcol & Hpl & Hall).
  apply update_classrooms_students in Hcls.
  eexists tps, sps, _. cbv zeta. repeat split; eauto.
  all: apply Hok.
Qed.

(** Without a negative student count no classroom of a returned result
    exceeds the ceiling. *)
Lemma classrooms_within_ceiling
  (inp : AllocationRequest) (r : OptimizationResult) (ceiling : Q) :
  valid_request inp ->
  optimize_teacher_allocation inp = Ok r ->
  capacity_ceiling inp = Ok ceiling ->
  Forall (fun e => 0 <= students_allocated (snd e)) (subject_allocation r) ->
  Forall (fun c => (students_assigned c <= ceiling)%Q) (classroom_allocation r).
Proof.
  intros Hv Hrun Hceil Hpos.
  destruct (classrooms_of_result _ _ _ Hv Hrun Hceil Hpos)
    as (tps & sps & st & Hnd & HP & Hks & Hsa & Hok & Hkeys & Hcol & _ & _ & Hcls).
  destruct Hok as (Hlen & Hcaps & Hrows).
  assert (Hcells : Forall (fun e => Forall (fun c => (0 <= c)%Q) (snd e)) (spcs st)).
  { eapply Forall_impl; [|exact Hrows]. cbn. tauto. }
  assert (Hin : Forall (fun i => (Z.to_nat i < Z.to_nat (num_classrooms inp))%nat)
                  (Py.range 0 (num_classrooms inp)))
    by (apply Forall_forall; intros i; apply in_range).
  revert Hin. induction Hcls as [|i c idxs cs Hic Hrest IH]; intros Hin;
    constructor; inversion Hin; subst; auto.
  rewrite Hic.
  eapply Qle_trans;
    [apply fsum_map_le; intros s _; apply contribution_le; exact Hcells|].
  rewrite column_over_names;
    [| now rewrite Hkeys, Hks | now rewrite Hkeys, Hks].
  specialize (Hcol _ H1).
  assert (0 <= nth (Z.to_nat i) (capacities st) 0)%Q.
  { destruct (nth_in_or_default (Z.to_nat i) (capacities st) 0%Q) as [Hi | ->];
      [|apply Qle_refl].
    rewrite Forall_forall in Hcaps. now apply Hcaps. }
  lra.
Qed.

(** Claim C4, amended: when the ceiling times [num_classrooms] is less than
    [total_students] the function runs as usual, but the sweep fills
    classrooms only up to their capacity: if no subject holds a negative
    student count, no classroom of a returned result exceeds the ceiling,
    and the classroom totals sum to less than [total_students], the
    students beyond capacity being left out of them. *)
Theorem classrooms_capped_students_left_out
  (inp : AllocationRequest) (r : OptimizationResult) (ceiling : Q) :
  valid_request inp ->
  optimize_teacher_allocation inp = Ok r ->
  capacity_ceiling inp = Ok ceiling ->
  Forall (fun e => 0 <= students_allocated (snd e)) (subject_allocation r) ->
  (ceiling * inject_Z (num_classrooms inp) < inject_Z (total_students inp))%Q ->
  Forall (fun c => (students_assigned c <= ceiling)%Q) (classroom_allocation r)
  /\ (total_students_assigned r < inject_Z (total_students inp))%Q.
Proof.
  intros Hv Hrun Hceil Hpos Hshort.
  pose proof (classrooms_within_ceiling _ _ _ Hv Hrun Hceil Hpos) as Hbound.
  split; [exact Hbound|].
  assert (Hlen : List.length (classroom_allocation r)
                 = Z.to_nat (num_classrooms inp)).
  { destruct (classrooms_of_result _ _ _ Hv Hrun Hceil Hpos)
      as (tps & sps & st & _ & _ & _ & _ & _ & _ & _ & _ & _ & Hcls).
    rewrite <- (Forall2_length Hcls), range_length. f_equal. lia. }
  unfold total_students_assigned.
  eapply Qle_lt_trans; [|exact Hshort].
  pose proof (fsum_bounded ceiling (map students_assigned (classroom_allocation r))
                ltac:(now apply Forall_map)) as Hsum.
  rewrite length_map, Hlen in Hsum.
  rewrite Z2Nat.id in Hsum by (pose proof (valid_classrooms _ Hv); lia).
  rewrite (Qmult_comm ceiling). exact Hsum.
Qed.

(** One classroom with a ceiling of 30 for 100 students. *)
Lemma classrooms_capped_students_left_out_witness :
  exists r,
    optimize_teacher_allocation request_small_classroom = Ok r
    /\ Forall (fun c => (students_assigned c <= 30)%Q) (classroom_allocation r)
    /\ (total_students_assigned r < 100)%Q.
Proof.
  eexists. split; [vm_compute; reflexivity|].
  apply (classrooms_capped_students_left_out request_small_classroom).
  - valid_request_tac.
  - vm_compute; reflexivity.
  - vm_compute; reflexivity.
  - vm_compute. repeat constructor. discriminate.
  - vm_compute; reflexivity.
Defined.

(** * Evaluations on concrete requests *)

(** Claim C1, counterexample: with two subjects at 100 % each and four
    teachers the percentages are used as they are (4 and 4 teachers), the
    single removal pass takes one from each, and the result allocates six
    teachers, not four. *)
Lemma unnormalised_distribution_overallocates :
  valid_request request_unnormalised
  /\ exists r,
       optimize_teacher_allocation request_unnormalised = Ok r
       /\ total_teachers_allocated r = 6
       /\ total_teachers_allocated r <> total_teachers request_unnormalised.
Proof.
  split; [valid_request_tac|].
  eexists; split; [evaluates|]. split; [evaluates|].
  vm_compute; discriminate.
Qed.

(** With percentages that do sum to 100 the floor of one teacher per
    subject has the same effect: five subjects, three teachers, five
    teachers allocated. *)
Lemma floor_of_one_overallocates :
  valid_request request_floor_of_one
  /\ exists r,
       optimize_teacher_allocation request_floor_of_one = Ok r
       /\ total_teachers_allocated r = 5.
Proof.
  split; [valid_request_tac|].
  eexists; split; evaluates.
Qed.

(** Claim C2: for a hard and an easy subject with one teacher each and 100
    students, the two passes add two students to each subject and stop:
    74 students are allocated, not 100. *)
Theorem balancing_pass_stops_short :
  valid_request request_two_subjects
  /\ exists r,
       optimize_teacher_allocation request_two_subjects = Ok r
       /\ map (fun e => (fst e, students_allocated (snd e))) (subject_allocation r)
          = [("Math", 32); ("Art", 42)]%string
       /\ total_students_allocated r = 74
       /\ total_students request_two_subjects = 100.
Proof.
  split; [valid_request_tac|].
  eexists; split; [evaluates|]. repeat split; evaluates.
Qed.


(** The same total is also missed for a subject without teachers: its two
    students are spread over the classrooms (line 225) but the loop of
    line 250 skips the subject (line 251), so the classrooms hold 6
    students and the subjects 8. *)
Lemma students_of_teacherless_subject_lost :
  valid_request request_no_teacher_subject
  /\ exists r,
       optimize_teacher_allocation request_no_teacher_subject = Ok r
       /\ (total_students_assigned r == 6)%Q
       /\ total_students_allocated r = 8.
Proof.
  split; [valid_request_tac|].
  eexists; split; [evaluates|]. split; evaluates.
Qed.

(** Claim C4, counterexample: one classroom with a ceiling of 30 for 100
    students. The function returns, the classroom holds exactly 30
    students, and 12 of the 42 allocated students are in no classroom. *)
Lemma students_beyond_capacity_dropped :
  valid_request request_small_classroom
  /\ exists ceiling r,
       capacity_ceiling request_small_classroom = Ok ceiling
       /\ (ceiling * inject_Z (num_classrooms request_small_classroom)
           < inject_Z (total_students request_small_classroom))%Q
       /\ optimize_teacher_allocation request_small_classroom = Ok r
       /\ total_students_allocated r = 42
       /\ map students_assigned (classroom_allocation r) = [30%Q]
       /\ Forall (fun c => (students_assigned c <= ceiling)%Q) (classroom_allocation r)
       /\ (total_students_assigned r < inject_Z (total_students_allocated r))%Q.
Proof.
  split; [valid_request_tac|].
  eexists; eexists; split; [evaluates|]. split; [evaluates|].
  split; [evaluates|]. split; [evaluates|]. split; [evaluates|].
  split; [|evaluates].
  vm_compute. constructor; [|constructor]. discriminate.
Qed.

(** Claim C5: a subject of [teacher_distribution] that has no entry in
    [subject_difficulties] makes line 78 raise [KeyError]; and a request
    with one teacher and four classrooms places the teacher nowhere, every
    classroom ratio is 0 and the [min] of line 424 raises [ValueError]. *)
Theorem missing_difficulty_and_empty_min_raise :
  (valid_request request_missing_difficulty
   /\ optimize_teacher_allocation request_missing_difficulty
      = Raise (KeyError "Math"))
  /\ (valid_request request_one_teacher_four_classrooms
      /\ optimize_teacher_allocation request_one_teacher_four_classrooms
         = Raise ValueError).
Proof.
  split; (split; [valid_request_tac|evaluates]).
Qed.

(** Claim C7: ten teachers of one subject in four classrooms. Two
    remainder teachers are due, the test of line 177 lets only classroom
    index 1 take one, and nine teacher records are returned. *)
Theorem remainder_teacher_without_record :
  valid_request request_four_classrooms
  /\ exists r,
       optimize_teacher_allocation request_four_classrooms = Ok r
       /\ Forall
            (fun e => 0 < students_allocated (snd e) -> 0 < teachers_allocated (snd e))
            (subject_allocation r)
       /\ total_teachers_allocated r = 10
       /\ map teachers_assigned (classroom_allocation r) = [2; 3; 2; 2]
       /\ List.length (teacher_allocation r) = 9%nat
       /\ total_teachers request_four_classrooms = 10.
Proof.
  split; [valid_request_tac|].
  eexists; split; [evaluates|].
  split; [vm_compute; repeat constructor|].
  repeat split; evaluates.
Qed.

(** Claim C8: one teacher, one classroom, one subject at 100 % and ten
    students. The subject is capped at 4 students and each of the two
    passes adds one: 6 students and a ratio of 6, not 10. *)
Theorem single_teacher_gets_six_of_ten :
  valid_request request_single_teacher
  /\ exists r,
       optimize_teacher_allocation request_single_teacher = Ok r
       /\ map (fun e => (fst e, teachers_allocated (snd e),
                         students_allocated (snd e), Qred (ratio (snd e))))
            (subject_allocation r)
          = [("Math", 1, 6, 6%Q)]%string
       /\ total_students request_single_teacher = 10.
Proof.
  split; [valid_request_tac|].
  eexists; split; [evaluates|]. split; evaluates.
Qed.

(** Claim C10: subject A holds three teachers (classroom indices 1 and 2
    receive one each) and, after the last balancing pass, -1 students.
    Its row puts -1 into classroom index 0, where it has no teacher, so the
    cell is skipped at line 255 while the capacity of that classroom has
    grown to 5: the classroom ends with 5 students under a ceiling of 4. *)
Theorem ceiling_exceeded_after_negative_count :
  valid_request request_negative_count
  /\ exists ceiling r,
       capacity_ceiling request_negative_count = Ok ceiling
       /\ (ceiling == 4)%Q
       /\ optimize_teacher_allocation request_negative_count = Ok r
       /\ map (fun e => (fst e, students_allocated (snd e))) (subject_allocation r)
          = [("A", -1); ("B", 7); ("C", 7); ("D", 7)]%string
       /\ map (fun c => Qred (students_assigned c)) (classroom_allocation r)
          = [5%Q; 4%Q; 4%Q; 4%Q; 4%Q]
       /\ Exists (fun c => (ceiling < students_assigned c)%Q) (classroom_allocation r).
Proof.
  split; [valid_request_tac|].
  eexists; eexists; split; [evaluates|]. split; [evaluates|].
  split; [evaluates|]. split; [evaluates|]. split; [evaluates|].
  vm_compute. constructor. reflexivity.
Qed.

(** * Further properties of the teacher reconciliation *)

(** ** Loops that fill a dictionary with fresh keys *)

Lemma fill_fresh {K V} (f : string * K -> V) (l : list (string * K)) :
  forall acc : dict V,
    NoDup (Dict.keys acc ++ map fst l) ->
    fill f l acc = acc ++ map (fun e => (fst e, f e)) l.
Proof.
  induction l as [|[k x] l IH]; intros acc Hnd.
  - cbn. now rewrite app_nil_r.
  - change (fill f ((k, x) :: l) acc) with (fill f l (Dict.set k (f (k, x)) acc)).
    assert (Hk : ~ In k (Dict.keys acc)).
    { intros Hin. apply NoDup_remove_2 in Hnd. apply Hnd.
      apply in_or_app. now left. }
    rewrite set_fresh by exact Hk. rewrite IH.
    + rewrite <- app_assoc. reflexivity.
    + unfold Dict.keys. rewrite map_app, <- app_assoc. exact Hnd.
Qed.

Lemma initial_teachers_map (T : Z) (td : dict Q) :
  NoDup (Dict.keys td) ->
  initial_teachers T td
  = map (fun sp => (fst sp, Py.round ((snd sp / 100) * inject_Z T)%Q)) td.
Proof.
  intros Hnd. unfold initial_teachers.
  change (fill (fun sp => Py.round ((snd sp / 100) * inject_Z T)%Q) td []
          = map (fun sp => (fst sp, Py.round ((snd sp / 100) * inject_Z T)%Q)) td).
  now rewrite fill_fresh.
Qed.

Lemma get_map_names {V} (f : string -> V) (names : list string) (s : string) (v : V) :
  Dict.get s (map (fun s => (s, f s)) names) = Some v -> In s names /\ v = f s.
Proof.
  induction names as [|k names IH]; cbn; [discriminate|].
  destruct (String.eqb s k) eqn:E.
  - apply String.eqb_eq in E. subst k. intros [= <-]. auto.
  - intros H. destruct (IH H). auto.
Qed.

(** ** Rounding stays within a half *)

Lemma round_near (x : Q) :
  (x - (1 # 2) <= inject_Z (Py.round x) <= x + (1 # 2))%Q.
Proof.
  unfold Py.round. pose proof (Qfloor_le x) as Hlo. pose proof (Qlt_floor x) as Hhi.
  rewrite inject_Z_plus in Hhi. change (inject_Z 1) with 1%Q in Hhi.
  destruct (Qcompare (x - inject_Z (Qfloor x)) (1 # 2)) eqn:E.
  - apply Qeq_alt in E. destruct (Z.even (Qfloor x));
      rewrite ?inject_Z_plus; change (inject_Z 1) with 1%Q; split; lra.
  - apply Qlt_alt in E. split; lra.
  - apply Qgt_alt in E. rewrite inject_Z_plus. change (inject_Z 1) with 1%Q.
    split; lra.
Qed.


(** The rounded shares sum to within half a teacher per subject of the
    exact shares. *)
Lemma rounded_total_near (inp : AllocationRequest) :
  NoDup (Dict.keys (teacher_distribution inp)) ->
  let exact :=
    (inject_Z (total_teachers inp) * Py.fsum (Dict.values (teacher_distribution inp))
     / 100)%Q in
  let half := (inject_Z (Z.of_nat (List.length (teacher_distribution inp))) / 2)%Q in
  (exact - half <= inject_Z (rounded_total inp) <= exact + half)%Q.
Proof.
  intros Hnd. cbv zeta. unfold rounded_total.
  rewrite (initial_teachers_map _ _ Hnd). unfold Dict.values.
  generalize (total_teachers inp) as T. generalize (teacher_distribution inp) as td.
  clear. intros td T. rewrite map_map. cbn [snd].
  induction td as [|[s p] td IH]; cbn [map List.length snd].
  - change (Py.sum []) with 0. change (Py.fsum []) with 0%Q.
    change (inject_Z (Z.of_nat 0)) with 0%Q. change (inject_Z 0) with 0%Q.
    assert (E1 : (inject_Z T * 0 / 100 == 0)%Q) by field.
    assert (E2 : (0 / 2 == 0)%Q) by reflexivity.
    rewrite E1, E2. lra.
  - rewrite sum_cons, fsum_cons, inject_Z_plus, Nat2Z.inj_succ, <- Z.add_1_r.
    rewrite inject_Z_plus. change (inject_Z 1) with 1%Q.
    pose proof (round_near (p / 100 * inject_Z T)) as Hr.
    set (r := inject_Z (Py.round (p / 100 * inject_Z T))) in *.
    set (rest := inject_Z (Py.sum _)) in *.
    set (n := inject_Z (Z.of_nat (List.length td))) in *.
    set (t := inject_Z T) in *. set (ps := Py.fsum (map snd td)) in *.
    assert (E1 : (t * (p + ps) / 100 == p / 100 * t + t * ps / 100)%Q) by field.
    assert (E2 : ((n + 1) / 2 == n / 2 + (1 # 2))%Q) by field.
    rewrite E1, E2. lra.
Qed.

(** ** What the passes do to one subject *)

Lemma add_teachers_untouched (T : Z) (order : list (string * Z)) (s : string) :
  forall (tps : dict Z) (total : Z) (tps' : dict Z),
    add_teachers T order tps total = Ok tps' ->
    ~ In s (map fst order) ->
    Dict.get s tps' = Dict.get s tps.
Proof.
  induction order as [|[k d] rest IH]; intros tps total tps' Hrun Hout;
    cbn [add_teachers] in Hrun.
  - now inversion Hrun.
  - destruct (total >=? T); [now inversion Hrun|].
    inv_bind Hrun. cbn in Hout. apply IH in Hrun; [|tauto].
    rewrite Hrun. apply get_set_neq. intros ->. tauto.
Qed.

Lemma remove_teachers_untouched (T : Z) (order : list (string * Z)) (s : string) :
  forall (tps : dict Z) (total : Z) (tps' : dict Z),
    remove_teachers T order tps total = Ok tps' ->
    ~ In s (map fst order) ->
    Dict.get s tps' = Dict.get s tps.
Proof.
  induction order as [|[k d] rest IH]; intros tps total tps' Hrun Hout;
    cbn [remove_teachers] in Hrun.
  - now inversion Hrun.
  - destruct (total <=? T); [now inversion Hrun|].
    inv_bind Hrun. cbn in Hout.
    destruct (1 <? x); apply IH in Hrun; try tauto.
    rewrite Hrun. apply get_set_neq. intros ->. tauto.
Qed.

Lemma add_teachers_each (T : Z) (order : list (string * Z)) :
  forall (tps : dict Z) (total : Z) (tps' : dict Z) (s : string) (v : Z),
    add_teachers T order tps total = Ok tps' ->
    NoDup (map fst order) ->
    Dict.get s tps = Some v ->
    exists v', Dict.get s tps' = Some v' /\ v <= v' <= v + 1.
Proof.
  induction order as [|[k d] rest IH]; intros tps total tps' s v Hrun Hnd Hget;
    cbn [add_teachers] in Hrun.
  - inversion Hrun; subst. exists v. split; [exact Hget|lia].
  - destruct (total >=? T); [inversion Hrun; subst; exists v; split; [exact Hget|lia]|].
    inv_bind Hrun. apply lookup_Ok in Hx. inversion Hnd as [|? ? Hout Hnd']; subst.
    destruct (string_dec s k) as [->|Hne].
    + rewrite (add_teachers_untouched _ _ _ _ _ _ Hrun Hout), get_set_eq.
      rewrite Hx in Hget. inversion Hget; subst. exists (v + 1). split; [reflexivity|lia].
    + eapply IH; eauto. now rewrite get_set_neq.
Qed.

Lemma remove_teachers_each (T : Z) (order : list (string * Z)) :
  forall (tps : dict Z) (total : Z) (tps' : dict Z) (s : string) (v : Z),
    remove_teachers T order tps total = Ok tps' ->
    NoDup (map fst order) ->
    Dict.get s tps = Some v ->
    exists v', Dict.get s tps' = Some v' /\ v - 1 <= v' <= v /\ (1 <= v -> 1 <= v').
Proof.
  induction order as [|[k d] rest IH]; intros tps total tps' s v Hrun Hnd Hget;
    cbn [remove_teachers] in Hrun.
  - inversion Hrun; subst. exists v. split; [exact Hget|lia].
  - destruct (total <=? T); [inversion Hrun; subst; exists v; split; [exact Hget|lia]|].
    inv_bind Hrun. apply lookup_Ok in Hx. inversion Hnd as [|? ? Hout Hnd']; subst.
    destruct (1 <? x) eqn:Hx1; [|eapply IH; eauto].
    apply Z.ltb_lt in Hx1.
    destruct (string_dec s k) as [->|Hne].
    + rewrite (remove_teachers_untouched _ _ _ _ _ _ Hrun Hout), get_set_eq.
      rewrite Hx in Hget. inversion Hget; subst. exists (v - 1).
      split; [reflexivity|lia].
    + eapply IH; eauto. now rewrite get_set_neq.
Qed.

Lemma sorted_keys_NoDup (before : Z -> Z -> bool) (sd : dict Z) :
  NoDup (Dict.keys sd) -> NoDup (map fst (Py.sorted_by before sd)).
Proof.
  intros Hnd. eapply Permutation_NoDup; [|exact Hnd].
  apply Permutation_map. symmetry. apply sorted_by_Permutation.
Qed.

(** ** The total never overshoots *)

Lemma remove_teachers_between (T : Z) (order : list (string * Z)) :
  forall (tps : dict Z) (total : Z) (tps' : dict Z),
    remove_teachers T order tps total = Ok tps' ->
    total = Py.sum (Dict.values tps) ->
    T <= total ->
    T <= Py.sum (Dict.values tps') <= total.
Proof.
  induction order as [|[k d] rest IH]; intros tps total tps' Hrun Htot Hle;
    cbn [remove_teachers] in Hrun.
  - inversion Hrun; subst. lia.
  - destruct (total <=? T) eqn:Hdone; [inversion Hrun; subst; lia|].
    apply Z.leb_gt in Hdone. inv_bind Hrun. apply lookup_Ok in Hx.
    destruct (1 <? x).
    + apply IH in Hrun; [lia| |lia].
      rewrite (sum_values_set _ _ _ _ Hx). lia.
    + apply IH in Hrun; auto.
Qed.

Lemma teachers_per_subject_between (inp : AllocationRequest) (tps : dict Z) :
  teachers_per_subject inp = Ok tps ->
  Z.min (rounded_total inp) (total_teachers inp)
  <= Py.sum (Dict.values tps)
  <= Z.max (rounded_total inp) (total_teachers inp).
Proof.
  unfold teachers_per_subject, rounded_total. intros Hrun.
  destruct (_ <? total_teachers inp) eqn:Hlt.
  - apply Z.ltb_lt in Hlt.
    apply add_teachers_spec in Hrun; [|reflexivity|lia].
    destruct Hrun as (_ & Hs & _). lia.
  - apply Z.ltb_ge in Hlt. destruct (total_teachers inp <? _) eqn:Hgt.
    + apply Z.ltb_lt in Hgt.
      apply remove_teachers_between in Hrun; [lia|reflexivity|lia].
    + inversion Hrun; subst. lia.
Qed.

(** ** On the returned result *)

(** Whatever integer line 30 rounds the share of a subject to, lines 33-58
    leave the subject with that share give or take one teacher, and with
    at least one teacher when the share is at least one. (A dictionary
    holds no key twice.) *)
Theorem teachers_allocated_near_share
  (inp : AllocationRequest) (shares tps : dict Z) (s : string) (share : Z) :
  NoDup (Dict.keys (subject_difficulties inp)) ->
  reconcile_teachers inp shares = Ok tps ->
  Dict.get s shares = Some share ->
  exists teachers,
    Dict.get s tps = Some teachers
    /\ share - 1 <= teachers <= share + 1
    /\ (1 <= share -> 1 <= teachers).
Proof.
  intros Hnd Hrun Hget. unfold reconcile_teachers in Hrun.
  destruct (_ <? total_teachers inp).
  - destruct (add_teachers_each _ _ _ _ _ _ _ Hrun
                (sorted_keys_NoDup _ _ Hnd) Hget) as (v & Hv & Hb).
    exists v. split; [exact Hv|lia].
  - destruct (total_teachers inp <? _).
    + destruct (remove_teachers_each _ _ _ _ _ _ _ Hrun
                  (sorted_keys_NoDup _ _ Hnd) Hget) as (v & Hv & Hb & Hfloor).
      exists v. split; [exact Hv|]. split; [lia|exact Hfloor].
    + inversion Hrun; subst. exists share. split; [exact Hget|lia].
Qed.

(** 75 teachers at 56, 35 and 14 per cent: the binary64 shares are 42, 26
    and 11, and the removing pass leaves subject C with 10 teachers. *)
Lemma teachers_allocated_near_share_witness :
  let shares := [("A", 42); ("B", 26); ("C", 11)]%string in
  let tps := [("A", 41); ("B", 25); ("C", 10)]%string in
  B64.initial_teachers 75 (teacher_distribution request_half_teacher) = Ok shares
  /\ reconcile_teachers request_half_teacher shares = Ok tps
  /\ exists teachers,
       Dict.get "C" tps = Some teachers
       /\ 11 - 1 <= teachers <= 11 + 1
       /\ (1 <= 11 -> 1 <= teachers).
Proof.
  intros shares tps. split; [evaluates|]. split; [evaluates|].
  apply (teachers_allocated_near_share request_half_teacher shares tps "C"%string 11).
  - cbn. repeat constructor; cbn; intuition discriminate.
  - evaluates.
  - evaluates.
Defined.

(** The reconciliation never overshoots: the teachers of a returned result
    sum to a value between the sum of the rounded shares and
    [total_teachers]. *)
Theorem teachers_total_between (inp : AllocationRequest) (r : OptimizationResult) :
  valid_request inp ->
  optimize_teacher_allocation inp = Ok r ->
  Z.min (rounded_total inp) (total_teachers inp)
  <= total_teachers_allocated r
  <= Z.max (rounded_total inp) (total_teachers inp).
Proof.
  intros Hv Hrun. apply optimize_Ok in Hrun.
  destruct Hrun as (tps & sps & max_size & Ht & Hs & Ha & _).
  destruct (result_keys _ _ _ _ Hv Ht Hs Ha) as (Hnd & _ & HP & Hsa).
  unfold total_teachers_allocated. rewrite Hsa, subject_allocation_teachers.
  rewrite sum_over_names by assumption.
  now apply teachers_per_subject_between.
Qed.

(** Two subjects at 100 % and four teachers: the shares sum to 8 and the
    result allocates 6. *)
Lemma teachers_total_between_witness :
  exists r,
    optimize_teacher_allocation request_unnormalised = Ok r
    /\ rounded_total request_unnormalised = 8
    /\ total_teachers_allocated r = 6
    /\ Z.min (rounded_total request_unnormalised) (total_teachers request_unnormalised)
       <= total_teachers_allocated r
       <= Z.max (rounded_total request_unnormalised)
                (total_teachers request_unnormalised).
Proof.
  eexists. split; [evaluates|]. split; [evaluates|]. split; [evaluates|].
  apply (teachers_total_between request_unnormalised).
  - valid_request_tac.
  - evaluates.
Defined.

Lemma normalised_teachers_sum (inp : AllocationRequest) (tps : dict Z) :
  NoDup (Dict.keys (teacher_distribution inp)) ->
  NoDup (Dict.keys (subject_difficulties inp)) ->
  (Py.fsum (Dict.values (teacher_distribution inp)) == 100)%Q ->
  (List.length (teacher_distribution inp)
   <= List.length (subject_difficulties inp))%nat ->
  teachers_per_subject inp = Ok tps ->
  total_teachers inp <= Py.sum (Dict.values tps)
  /\ 2 * (Py.sum (Dict.values tps) - total_teachers inp)
     <= Z.of_nat (List.length (teacher_distribution inp)).
Proof.
  intros Hndt Hndd Hsum Hlen Ht.
  pose proof (teachers_per_subject_between _ _ Ht) as Hbetween.
  pose proof (rounded_total_near inp Hndt) as Hnear.
  cbv zeta in Hnear. rewrite Hsum in Hnear.
  set (n := Z.of_nat (List.length (teacher_distribution inp))) in *.
  assert (Hz : 2 * total_teachers inp - n <= 2 * rounded_total inp
               <= 2 * total_teachers inp + n).
  { assert (E : (inject_Z (total_teachers inp) * 100 / 100
                 == inject_Z (total_teachers inp))%Q) by field.
    rewrite E in Hnear. destruct Hnear as [H1 H2]. split.
    - rewrite Zle_Qle, inject_Z_sub, !inject_Z_mult.
      change (inject_Z 2) with 2%Q.
      assert (E2 : (inject_Z n / 2 == inject_Z n * (1 # 2))%Q) by field.
      rewrite E2 in H1. lra.
    - rewrite Zle_Qle, inject_Z_plus, !inject_Z_mult.
      change (inject_Z 2) with 2%Q.
      assert (E2 : (inject_Z n / 2 == inject_Z n * (1 # 2))%Q) by field.
      rewrite E2 in H2. lra. }
  destruct (Z.le_gt_cases (rounded_total inp) (total_teachers inp)) as [Hle|Hgt].
  - assert (Hexact : Py.sum (Dict.values tps) = total_teachers inp).
    { apply teachers_per_subject_sum; auto.
      unfold single_pass_suffices. fold (rounded_total inp).
      assert (n <= Z.of_nat (List.length (subject_difficulties inp)))
        by (subst n; lia).
      split; lia. }
    lia.
  - lia.
Qed.

(** With percentages that sum to 100 and at least as many difficulties as
    percentages, a returned result never allocates fewer than
    [total_teachers] teachers, and at most half a teacher per subject
    more. *)
Theorem normalised_distribution_allocates_all
  (inp : AllocationRequest) (r : OptimizationResult) :
  valid_request inp ->
  (Py.fsum (Dict.values (teacher_distribution inp)) == 100)%Q ->
  (List.length (teacher_distribution inp)
   <= List.length (subject_difficulties inp))%nat ->
  optimize_teacher_allocation inp = Ok r ->
  total_teachers inp <= total_teachers_allocated r
  /\ 2 * (total_teachers_allocated r - total_teachers inp)
     <= Z.of_nat (List.length (teacher_distribution inp)).
Proof.
  intros Hv Hsum Hlen Hrun. apply optimize_Ok in Hrun.
  destruct Hrun as (tps & sps & max_size & Ht & Hs & Ha & _).
  destruct (result_keys _ _ _ _ Hv Ht Hs Ha) as (Hnd & _ & HP & Hsa).
  unfold total_teachers_allocated. rewrite Hsa, subject_allocation_teachers.
  rewrite sum_over_names by assumption.
  apply normalised_teachers_sum; auto.
  - exact (proj1 (valid_distribution_keys _ Hv)).
  - exact (proj1 (valid_difficulty_keys _ Hv)).
Qed.

(** Two subjects at 50 % and five teachers: both shares of 2.5 round to 2
    and the adding pass supplies the fifth teacher. *)
Lemma normalised_distribution_allocates_all_witness :
  exists r,
    optimize_teacher_allocation request_halves = Ok r
    /\ rounded_total request_halves = 4
    /\ total_teachers request_halves <= total_teachers_allocated r
    /\ 2 * (total_teachers_allocated r - total_teachers request_halves)
       <= Z.of_nat (List.length (teacher_distribution request_halves)).
Proof.
  eexists. split; [evaluates|]. split; [evaluates|].
  apply (normalised_distribution_allocates_all request_halves).
  - valid_request_tac.
  - evaluates.
  - cbn. lia.
  - evaluates.
Defined.

(** * Further properties of the student targets and balancing passes *)

(** ** The targets *)

Lemma clamped_factor_bounds (lo hi : Q) (d : Z) :
  (lo <= hi)%Q -> (lo <= clamped_factor lo hi d <= hi)%Q.
Proof.
  intros Hlh. unfold clamped_factor, Py.max.
  set (x := (inject_Z (10 - d) / 5)%Q).
  destruct (min_cases hi x) as [[Hlt ->]|[Hle ->]];
    match goal with |- context [Py.Qltb ?a ?b] => destruct (Py.Qltb a b) eqn:E end;
    try apply Qltb_lt in E; try apply Qltb_ge in E; split; lra.
Qed.

Lemma avg_ratio_nonneg (inp : AllocationRequest) :
  0 <= total_students inp -> (0 <= avg_ratio inp)%Q.
Proof.
  intros HS. unfold avg_ratio. destruct (0 <? total_teachers inp) eqn:E; [|discriminate].
  apply Z.ltb_lt in E. apply Qle_shift_div_l.
  - change 0%Q with (inject_Z 0). now rewrite <- Zlt_Qlt.
  - rewrite Qmult_0_l. now apply inject_Z_nonneg.
Qed.

Lemma ideal_subject_ratios_nonneg (inp : AllocationRequest) :
  0 <= total_students inp ->
  Forall (fun e => (0 <= snd e)%Q) (ideal_subject_ratios inp).
Proof.
  intros HS. unfold ideal_subject_ratios.
  apply (fill_values_Forall
           (fun sd => (avg_ratio inp * clamped_factor (6 # 10) (14 # 10) (snd sd))%Q)
           (fun v => (0 <= v)%Q)); [constructor|].
  apply Forall_forall. intros [s d] _. cbn [snd].
  pose proof (clamped_factor_bounds (6 # 10) (14 # 10) d ltac:(discriminate)).
  apply Qmult_le_0_compat; [now apply avg_ratio_nonneg | lra].
Qed.

Lemma ideal_subject_ratios_keys (inp : AllocationRequest) :
  NoDup (Dict.keys (subject_difficulties inp)) ->
  Dict.keys (ideal_subject_ratios inp) = Dict.keys (subject_difficulties inp).
Proof.
  intros Hnd. unfold ideal_subject_ratios.
  change (Dict.keys
            (fill (fun sd => (avg_ratio inp
                              * clamped_factor (6 # 10) (14 # 10) (snd sd))%Q)
               (subject_difficulties inp) [])
          = Dict.keys (subject_difficulties inp)).
  now rewrite fill_keys.
Qed.

Lemma initial_students_spec (S : Z) (isr : dict Q) (items : list (string * Z)) :
  forall (sps : dict Z) (rem : Z) (sps' : dict Z) (rem' : Z),
    initial_students S isr items sps rem = Ok (sps', rem') ->
    NoDup (Dict.keys sps ++ map fst items) ->
    Py.sum (Dict.values sps') + rem' = Py.sum (Dict.values sps) + rem
    /\ (0 <= S ->
        Forall (fun e => (0 <= snd e)%Q) isr ->
        Forall (fun e => 0 <= snd e <= Py.int (inject_Z S * (4 # 10))%Q) sps ->
        Forall (fun e => 0 <= snd e <= Py.int (inject_Z S * (4 # 10))%Q) sps').
Proof.
  induction items as [|[subject teachers] rest IH];
    intros sps rem sps' rem' Hrun Hnd; cbn [initial_students] in Hrun.
  - inversion Hrun; subst. auto.
  - inv_bind Hrun. rename x into n. cbn [map fst] in Hnd.
    assert (Hk : ~ In subject (Dict.keys sps)).
    { intros Hin. apply NoDup_remove_2 in Hnd. apply Hnd.
      apply in_or_app. now left. }
    apply IH in Hrun.
    + destruct Hrun as [Hsum Hb]. rewrite set_fresh in Hsum, Hb by exact Hk.
      unfold Dict.values in *. rewrite map_app, sum_app in Hsum. cbn [map snd] in Hsum.
      rewrite sum_cons in Hsum. change (Py.sum []) with 0 in Hsum.
      split; [lia|]. intros HS Hisr Hsps. apply Hb; auto.
      apply Forall_app. split; [exact Hsps|]. constructor; [|constructor]. cbn [snd].
      assert (Hcap : 0 <= Py.int (inject_Z S * (4 # 10))%Q).
      { apply int_nonneg. apply Qmult_le_0_compat; [now apply inject_Z_nonneg | discriminate]. }
      destruct (0 <? teachers) eqn:Ht; [|inversion Hx; subst; lia].
      apply Z.ltb_lt in Ht. inv_bind Hx. apply lookup_Ok in Hx0. inversion Hx; subst n.
      rewrite zmin_spec.
      assert (0 <= Py.round (inject_Z teachers * x)%Q); [|lia].
      apply round_nonneg.
      pose proof (Forall_values_get (fun v => (0 <= v)%Q) _ _ _ Hisr Hx0).
      apply Qmult_le_0_compat; [apply inject_Z_nonneg; lia | assumption].
    + rewrite set_fresh by exact Hk. unfold Dict.keys.
      rewrite map_app, <- app_assoc. exact Hnd.
Qed.

(** ** The pass over the subjects by difficulty (source lines 93-104) *)

Lemma distribute_remaining_total (order : list (string * Z)) :
  forall (sps : dict Z) (rem : Z) (sps' : dict Z) (rem' : Z),
    distribute_remaining order sps rem = Ok (sps', rem') ->
    Py.sum (Dict.values sps') + rem' = Py.sum (Dict.values sps) + rem
    /\ (0 <= rem -> rem' = Z.max 0 (rem - Z.of_nat (List.length order)))
    /\ (rem <= 0 -> rem <= rem' <= 0).
Proof.
  induction order as [|[subject d] rest IH]; intros sps rem sps' rem' Hrun;
    cbn [distribute_remaining] in Hrun.
  - inversion Hrun; subst. cbn [List.length]. lia.
  - cbn [List.length]. destruct (rem =? 0) eqn:E0.
    { apply Z.eqb_eq in E0. inversion Hrun; subst. lia. }
    apply Z.eqb_neq in E0. destruct (0 <? rem) eqn:Epos.
    + apply Z.ltb_lt in Epos. inv_bind Hrun. apply lookup_Ok in Hx.
      apply IH in Hrun. rewrite (sum_values_set _ _ _ _ Hx) in Hrun. lia.
    + apply Z.ltb_ge in Epos. inv_bind Hrun. apply lookup_Ok in Hx.
      destruct (1 <? x); apply IH in Hrun;
        [rewrite (sum_values_set _ _ _ _ Hx) in Hrun|]; lia.
Qed.

Lemma distribute_remaining_untouched (order : list (string * Z)) (s : string) :
  forall (sps : dict Z) (rem : Z) (sps' : dict Z) (rem' : Z),
    distribute_remaining order sps rem = Ok (sps', rem') ->
    ~ In s (map fst order) ->
    Dict.get s sps' = Dict.get s sps.
Proof.
  induction order as [|[k d] rest IH]; intros sps rem sps' rem' Hrun Hout;
    cbn [distribute_remaining] in Hrun.
  - now inversion Hrun.
  - destruct (rem =? 0); [now inversion Hrun|]. cbn in Hout.
    destruct (0 <? rem); inv_bind Hrun; [|destruct (1 <? x)];
      apply IH in Hrun; try tauto;
      rewrite Hrun; apply get_set_neq; intros ->; tauto.
Qed.

Lemma distribute_remaining_each (order : list (string * Z)) :
  forall (sps : dict Z) (rem : Z) (sps' : dict Z) (rem' : Z) (s : string) (v : Z),
    distribute_remaining order sps rem = Ok (sps', rem') ->
    NoDup (map fst order) ->
    Dict.get s sps = Some v ->
    exists v',
      Dict.get s sps' = Some v'
      /\ v - 1 <= v' <= v + 1
      /\ (0 <= rem -> v <= v')
      /\ (rem <= 0 -> v' <= v /\ (1 <= v -> 1 <= v')).
Proof.
  induction order as [|[k d] rest IH];
    intros sps rem sps' rem' s v Hrun Hnd Hget; cbn [distribute_remaining] in Hrun.
  - inversion Hrun; subst. exists v. split; [exact Hget|lia].
  - destruct (rem =? 0) eqn:E0.
    { inversion Hrun; subst. exists v. split; [exact Hget|lia]. }
    apply Z.eqb_neq in E0. inversion Hnd as [|? ? Hout Hnd']; subst.
    destruct (0 <? rem) eqn:Epos.
    + apply Z.ltb_lt in Epos. inv_bind Hrun. apply lookup_Ok in Hx.
      destruct (string_dec s k) as [->|Hne].
      * rewrite (distribute_remaining_untouched _ _ _ _ _ _ Hrun Hout), get_set_eq.
        rewrite Hx in Hget. inversion Hget; subst. exists (v + 1).
        split; [reflexivity|lia].
      * destruct (IH _ _ _ _ s v Hrun Hnd') as (v' & Hv' & Hb).
        { now rewrite get_set_neq. }
        exists v'. split; [exact Hv'|lia].
    + apply Z.ltb_ge in Epos. inv_bind Hrun. apply lookup_Ok in Hx.
      destruct (1 <? x) eqn:Hx1.
      * apply Z.ltb_lt in Hx1. destruct (string_dec s k) as [->|Hne].
        -- rewrite (distribute_remaining_untouched _ _ _ _ _ _ Hrun Hout), get_set_eq.
           rewrite Hx in Hget. inversion Hget; subst. exists (v - 1).
           split; [reflexivity|lia].
        -- destruct (IH _ _ _ _ s v Hrun Hnd') as (v' & Hv' & Hb).
           { now rewrite get_set_neq. }
           exists v'. split; [exact Hv'|lia].
      * destruct (IH _ _ _ _ s v Hrun Hnd' Hget) as (v' & Hv' & Hb).
        exists v'. split; [exact Hv'|lia].
Qed.

(** ** The final pass over the subject list (source lines 112-120) *)

Lemma balance_total (names : list string) :
  forall (sps : dict Z) (diff : Z) (sps' : dict Z),
    balance names sps diff = Ok sps' ->
    (0 <= diff ->
     Py.sum (Dict.values sps')
     = Py.sum (Dict.values sps) + Z.min diff (Z.of_nat (List.length names)))
    /\ (diff <= 0 ->
        Py.sum (Dict.values sps')
        = Py.sum (Dict.values sps) - Z.min (- diff) (Z.of_nat (List.length names))).
Proof.
  induction names as [|subject rest IH]; intros sps diff sps' Hrun;
    cbn [balance] in Hrun.
  - inversion Hrun; subst. cbn [List.length]. lia.
  - cbn [List.length]. destruct (diff =? 0) eqn:E0.
    { apply Z.eqb_eq in E0. inversion Hrun; subst. lia. }
    apply Z.eqb_neq in E0.
    destruct (0 <? diff) eqn:Epos;
      [apply Z.ltb_lt in Epos | apply Z.ltb_ge in Epos];
      inv_bind Hrun; apply lookup_Ok in Hx; apply IH in Hrun;
      rewrite (sum_values_set _ _ _ _ Hx) in Hrun; lia.
Qed.

Lemma balance_untouched (names : list string) (s : string) :
  forall (sps : dict Z) (diff : Z) (sps' : dict Z),
    balance names sps diff = Ok sps' ->
    ~ In s names ->
    Dict.get s sps' = Dict.get s sps.
Proof.
  induction names as [|k rest IH]; intros sps diff sps' Hrun Hout;
    cbn [balance] in Hrun.
  - now inversion Hrun.
  - destruct (diff =? 0); [now inversion Hrun|]. cbn in Hout.
    destruct (0 <? diff); inv_bind Hrun; apply IH in Hrun; try tauto;
      rewrite Hrun; apply get_set_neq; intros ->; tauto.
Qed.

Lemma balance_each (names : list string) :
  forall (sps : dict Z) (diff : Z) (sps' : dict Z) (s : string) (v : Z),
    balance names sps diff = Ok sps' ->
    NoDup names ->
    Dict.get s sps = Some v ->
    exists v',
      Dict.get s sps' = Some v'
      /\ v - 1 <= v' <= v + 1
      /\ (0 <= diff -> v <= v')
      /\ (diff <= 0 -> v' <= v).
Proof.
  induction names as [|k rest IH]; intros sps diff sps' s v Hrun Hnd Hget;
    cbn [balance] in Hrun.
  - inversion Hrun; subst. exists v. split; [exact Hget|lia].
  - destruct (diff =? 0) eqn:E0.
    { inversion Hrun; subst. exists v. split; [exact Hget|lia]. }
    apply Z.eqb_neq in E0. inversion Hnd as [|? ? Hout Hnd']; subst.
    destruct (0 <? diff) eqn:Epos;
      [apply Z.ltb_lt in Epos | apply Z.ltb_ge in Epos];
      inv_bind Hrun; apply lookup_Ok in Hx;
      (destruct (string_dec s k) as [->|Hne];
       [ rewrite (balance_untouched _ _ _ _ _ Hrun Hout), get_set_eq;
         rewrite Hx in Hget; inversion Hget; subst;
         eexists; split; [reflexivity|lia]
       | destruct (IH _ _ _ s v Hrun Hnd') as (v' & Hv' & Hb);
         [now rewrite get_set_neq|];
         exists v'; split; [exact Hv'|lia] ]).
Qed.

(** ** The three steps together *)

Lemma sorted_by_length {A} (before : Z -> Z -> bool) (l : list (A * Z)) :
  List.length (Py.sorted_by before l) = List.length l.
Proof. apply Permutation_length, sorted_by_Permutation. Qed.

Lemma students_per_subject_steps (inp : AllocationRequest) (tps sps : dict Z) :
  students_per_subject inp tps = Ok sps ->
  exists (sps0 : dict Z) (rem0 : Z) (sps1 : dict Z) (rem1 : Z),
    initial_students (total_students inp) (ideal_subject_ratios inp) tps []
      (total_students inp) = Ok (sps0, rem0)
    /\ distribute_remaining (Py.sorted_by_value (subject_difficulties inp)) sps0 rem0
       = Ok (sps1, rem1)
    /\ (if total_students inp - Py.sum (Dict.values sps1) =? 0 then Ok sps1
        else balance (subject_names inp) sps1
               (total_students inp - Py.sum (Dict.values sps1))) = Ok sps.
Proof.
  unfold students_per_subject. intros Hrun.
  inv_bind Hrun. destruct x as [sps0 rem0].
  inv_bind Hrun. destruct x as [sps1 rem1].
  exists sps0, rem0, sps1, rem1. auto.
Qed.

Lemma students_per_subject_total (inp : AllocationRequest)
  (tps sps0 sps : dict Z) (rem0 : Z) :
  NoDup (Dict.keys tps) ->
  initial_students (total_students inp) (ideal_subject_ratios inp) tps []
    (total_students inp) = Ok (sps0, rem0) ->
  students_per_subject inp tps = Ok sps ->
  rem0 = total_students inp - Py.sum (Dict.values sps0)
  /\ (0 <= rem0 ->
      Py.sum (Dict.values sps)
      = Z.min (total_students inp)
          (Py.sum (Dict.values sps0)
           + Z.of_nat (List.length (subject_difficulties inp))
           + Z.of_nat (List.length (subject_names inp))))
  /\ (rem0 <= 0 ->
      total_students inp <= Py.sum (Dict.values sps) <= Py.sum (Dict.values sps0)).
Proof.
  intros Hnd H0 Hrun.
  destruct (students_per_subject_steps _ _ _ Hrun)
    as (sps0' & rem0' & sps1 & rem1 & H0' & H1 & H2).
  rewrite H0 in H0'. inversion H0'; subst sps0' rem0'. clear H0'.
  apply initial_students_spec in H0; [|exact Hnd]. destruct H0 as [Hsum0 _].
  change (Py.sum (Dict.values [])) with 0 in Hsum0.
  apply distribute_remaining_total in H1. destruct H1 as (Hsum1 & Hpos1 & Hneg1).
  unfold Py.sorted_by_value in Hpos1. rewrite sorted_by_length in Hpos1.
  destruct (_ =? 0) eqn:E0.
  - apply Z.eqb_eq in E0. inversion H2; subst sps1. lia.
  - apply Z.eqb_neq in E0. apply balance_total in H2. lia.
Qed.

(** ** The students of a returned result *)

Lemma sum_map_le {A} (f : A -> Z) (c : Z) (l : list A) :
  (forall x, In x l -> f x <= c) ->
  Py.sum (map f l) <= Z.of_nat (List.length l) * c.
Proof.
  induction l as [|x l IH]; intros Hle.
  - cbn. unfold Py.sum. cbn. lia.
  - cbn [map List.length]. rewrite sum_cons.
    pose proof (Hle x (or_introl eq_refl)).
    assert (Py.sum (map f l) <= Z.of_nat (List.length l) * c)
      by (apply IH; intros; apply Hle; now right).
    lia.
Qed.

(** ** The passes of lines 88-120 on any targets *)

Lemma students_per_subject_balance (inp : AllocationRequest) (tps : dict Z) :
  students_per_subject inp tps
  = ('(sps, remaining_students) <-
       initial_students (total_students inp) (ideal_subject_ratios inp) tps []
         (total_students inp) ;;
     balance_students inp sps remaining_students).
Proof. reflexivity. Qed.

Lemma balance_students_steps (inp : AllocationRequest) (targets sps : dict Z)
  (rem0 : Z) :
  balance_students inp targets rem0 = Ok sps ->
  exists (sps1 : dict Z) (rem1 : Z),
    distribute_remaining (Py.sorted_by_value (subject_difficulties inp)) targets rem0
    = Ok (sps1, rem1)
    /\ (if total_students inp - Py.sum (Dict.values sps1) =? 0 then Ok sps1
        else balance (subject_names inp) sps1
               (total_students inp - Py.sum (Dict.values sps1))) = Ok sps.
Proof.
  unfold balance_students. intros Hrun.
  inv_bind Hrun. destruct x as [sps1 rem1]. exists sps1, rem1. auto.
Qed.

(** What the two balancing passes make of the targets, whatever integers
    lines 79-81 set them to.  When the targets fall short of
    [total_students], the first pass adds one student per subject with a
    difficulty and the second one per listed subject, both stopping at
    [total_students]; when they exceed it, the total ends between
    [total_students] and the sum of the targets. *)
Theorem students_total_after_passes
  (inp : AllocationRequest) (targets sps : dict Z) :
  balance_students inp targets
    (total_students inp - Py.sum (Dict.values targets)) = Ok sps ->
  (Py.sum (Dict.values targets) <= total_students inp ->
   Py.sum (Dict.values sps)
   = Z.min (total_students inp)
       (Py.sum (Dict.values targets)
        + Z.of_nat (List.length (subject_difficulties inp))
        + Z.of_nat (List.length (subject_names inp))))
  /\ (total_students inp <= Py.sum (Dict.values targets) ->
      total_students inp <= Py.sum (Dict.values sps)
      <= Py.sum (Dict.values targets)).
Proof.
  intros Hrun.
  destruct (balance_students_steps _ _ _ _ Hrun) as (sps1 & rem1 & H1 & H2).
  apply distribute_remaining_total in H1. destruct H1 as (Hsum1 & Hpos1 & Hneg1).
  unfold Py.sorted_by_value in Hpos1. rewrite sorted_by_length in Hpos1.
  destruct (_ =? 0) eqn:E0.
  - apply Z.eqb_eq in E0. inversion H2; subst sps1. lia.
  - apply Z.eqb_neq in E0. apply balance_total in H2. lia.
Qed.

(** A hard and an easy subject with one teacher each: the targets are 30
    and 40 of 100 students, each pass adds two, and 74 are allocated. *)
Lemma students_total_after_passes_witness :
  let targets := [("Math", 30); ("Art", 40)]%string in
  let sps := [("Math", 32); ("Art", 42)]%string in
  initial_students 100 (ideal_subject_ratios request_two_subjects)
    [("Math", 1); ("Art", 1)]%string [] 100 = Ok (targets, 30)
  /\ balance_students request_two_subjects targets 30 = Ok sps
  /\ Py.sum (Dict.values sps) = 74
  /\ ((Py.sum (Dict.values targets) <= total_students request_two_subjects ->
       Py.sum (Dict.values sps)
       = Z.min (total_students request_two_subjects)
           (Py.sum (Dict.values targets)
            + Z.of_nat (List.length (subject_difficulties request_two_subjects))
            + Z.of_nat (List.length (subject_names request_two_subjects))))
      /\ (total_students request_two_subjects <= Py.sum (Dict.values targets) ->
          total_students request_two_subjects <= Py.sum (Dict.values sps)
          <= Py.sum (Dict.values targets))).
Proof.
  intros targets sps. split; [evaluates|]. split; [evaluates|]. split; [evaluates|].
  apply (students_total_after_passes request_two_subjects targets sps).
  evaluates.
Defined.

(** Whatever integer lines 79-81 set the target of a subject to, the two
    passes leave the subject with its target give or take two students:
    not below it when the targets fall short of [total_students], not
    above it when they exceed it, and not with a negative count when the
    target is at least one student. (A dictionary holds no key twice; the
    subject list is taken without repetition.) *)
Theorem students_allocated_near_target
  (inp : AllocationRequest) (targets sps : dict Z) (s : string) (target : Z) :
  NoDup (Dict.keys (subject_difficulties inp)) ->
  NoDup (subject_names inp) ->
  balance_students inp targets
    (total_students inp - Py.sum (Dict.values targets)) = Ok sps ->
  Dict.get s targets = Some target ->
  exists students,
    Dict.get s sps = Some students
    /\ target - 2 <= students <= target + 2
    /\ (Py.sum (Dict.values targets) <= total_students inp -> target <= students)
    /\ (total_students inp <= Py.sum (Dict.values targets) -> students <= target)
    /\ (1 <= target -> 0 <= students).
Proof.
  intros Hnd Hnames Hrun Hget.
  destruct (balance_students_steps _ _ _ _ Hrun) as (sps1 & rem1 & H1 & H2).
  pose proof (distribute_remaining_total _ _ _ _ _ H1) as (Hsum1 & Hpos1 & Hneg1).
  destruct (distribute_remaining_each _ _ _ _ _ s target H1
              (sorted_keys_NoDup _ _ Hnd) Hget) as (v1 & Hv1 & Hb1).
  destruct (_ =? 0) eqn:E0.
  - inversion H2; subst sps1. exists v1. split; [exact Hv1|lia].
  - destruct (balance_each _ _ _ _ s v1 H2 Hnames Hv1) as (v & Hv & Hb).
    exists v. split; [exact Hv|]. lia.
Qed.

(** Three subjects and 100 students: the target of Math is 24 and it ends
    with 26 students. *)
Lemma students_allocated_near_target_witness :
  let targets := [("Math", 24); ("Science", 30); ("Art", 40)]%string in
  let sps := [("Math", 26); ("Science", 32); ("Art", 42)]%string in
  initial_students 100 (ideal_subject_ratios request_thirds)
    [("Math", 4); ("Science", 3); ("Art", 3)]%string [] 100 = Ok (targets, 6)
  /\ balance_students request_thirds targets 6 = Ok sps
  /\ exists students,
       Dict.get "Math" sps = Some students
       /\ 24 - 2 <= students <= 24 + 2
       /\ (Py.sum (Dict.values targets) <= total_students request_thirds ->
           24 <= students)
       /\ (total_students request_thirds <= Py.sum (Dict.values targets) ->
           students <= 24)
       /\ (1 <= 24 -> 0 <= students).
Proof.
  intros targets sps. split; [evaluates|]. split; [evaluates|].
  apply (students_allocated_near_target request_thirds targets sps "Math"%string 24).
  - cbn. repeat constructor; cbn; intuition discriminate.
  - cbn. repeat constructor; cbn; intuition discriminate.
  - evaluates.
  - evaluates.
Defined.

(** Line 81 caps every target at [max_students_for_subject], 40 % of
    [total_students] cut to an integer. Whatever integer that cap is, when
    no target exceeds it the two passes leave no subject with more than
    the cap and two students, and all subjects together with no more than
    that for each of them. *)
Theorem students_total_capped
  (inp : AllocationRequest) (targets sps : dict Z)
  (max_students_for_subject : Z) :
  NoDup (Dict.keys (subject_difficulties inp)) ->
  NoDup (subject_names inp) ->
  NoDup (Dict.keys targets) ->
  Forall (fun e => snd e <= max_students_for_subject) targets ->
  balance_students inp targets
    (total_students inp - Py.sum (Dict.values targets)) = Ok sps ->
  Forall (fun e => snd e <= max_students_for_subject + 2) sps
  /\ Py.sum (Dict.values sps)
     <= Z.of_nat (List.length targets) * (max_students_for_subject + 2).
Proof.
  intros Hnd Hnames Hndt Hcap Hrun.
  destruct (balance_students_steps _ _ _ _ Hrun) as (sps1 & rem1 & H1 & H2).
  assert (Hk1 : Dict.keys sps1 = Dict.keys targets).
  { now apply distribute_remaining_keys in H1. }
  assert (Hk : Dict.keys sps = Dict.keys targets).
  { rewrite <- Hk1. destruct (_ =? 0); [now inversion H2|].
    now apply balance_keys in H2. }
  assert (Hnds : NoDup (Dict.keys sps)) by now rewrite Hk.
  assert (Heach : Forall (fun e => snd e <= max_students_for_subject + 2) sps).
  { apply Forall_forall. intros [k v] Hin. cbn [snd].
    pose proof (NoDup_In_get _ _ _ Hnds Hin) as Hv.
    destruct (In_keys_get k targets) as [t0 Ht0].
    { rewrite <- Hk. eapply get_In_keys; eauto. }
    pose proof (Forall_values_get (fun v => v <= max_students_for_subject)
                  _ _ _ Hcap Ht0) as Ht0cap. cbn beta in Ht0cap.
    destruct (distribute_remaining_each _ _ _ _ _ k t0 H1
                (sorted_keys_NoDup _ _ Hnd) Ht0) as (v1 & Hv1 & Hb1).
    destruct (_ =? 0).
    - inversion H2; subst sps1. rewrite Hv in Hv1. inversion Hv1; subst. lia.
    - destruct (balance_each _ _ _ _ k v1 H2 Hnames Hv1) as (v' & Hv' & Hb).
      rewrite Hv in Hv'. inversion Hv'; subst. lia. }
  split; [exact Heach|].
  replace (List.length targets) with (List.length sps).
  - unfold Dict.values. apply sum_map_le. intros e He.
    rewrite Forall_forall in Heach. now apply Heach.
  - rewrite <- (length_map fst sps), <- (length_map fst targets).
    unfold Dict.keys in Hk. now rewrite Hk.
Qed.

(** One subject and ten students: the target is capped at 4 students, the
    passes add two, and 6 of the 10 students are allocated. *)
Lemma students_total_capped_witness :
  let targets := [("Math", 4)]%string in
  let sps := [("Math", 6)]%string in
  initial_students 10 (ideal_subject_ratios request_single_teacher)
    [("Math", 1)]%string [] 10 = Ok (targets, 6)
  /\ balance_students request_single_teacher targets 6 = Ok sps
  /\ (Forall (fun e => snd e <= 4 + 2) sps
      /\ Py.sum (Dict.values sps) <= Z.of_nat (List.length targets) * (4 + 2)).
Proof.
  intros targets sps. split; [evaluates|]. split; [evaluates|].
  apply (students_total_capped request_single_teacher targets sps 4).
  - cbn. repeat constructor; cbn; intuition discriminate.
  - cbn. repeat constructor; cbn; intuition discriminate.
  - cbn. repeat constructor; cbn; intuition discriminate.
  - repeat constructor. cbn. lia.
  - evaluates.
Defined.

(** * Further properties of the teachers per classroom *)

(** ** Ranges *)

Lemma range_snoc (a n : Z) : a <= n -> Py.range a (n + 1) = Py.range a n ++ [n].
Proof.
  intros Hn. unfold Py.range.
  replace (Z.to_nat (n + 1 - a)) with (S (Z.to_nat (n - a))) by lia.
  rewrite seq_S, map_app. cbn [map Nat.add]. repeat f_equal. lia.
Qed.

Lemma in_range_iff (a b i : Z) : In i (Py.range a b) <-> a <= i < b.
Proof.
  unfold Py.range. rewrite in_map_iff. split.
  - intros (k & <- & Hk). apply in_seq in Hk. lia.
  - intros Hi. exists (Z.to_nat (i - a)). split; [lia|]. apply in_seq. lia.
Qed.

Lemma existsb_range (a b i : Z) :
  existsb (Z.eqb i) (Py.range a b) = (a <=? i) && (i <? b).
Proof.
  apply eq_true_iff_eq. rewrite existsb_exists, andb_true_iff, Z.leb_le, Z.ltb_lt.
  split.
  - intros (x & Hx & Hix). apply Z.eqb_eq in Hix. subst x. now apply in_range_iff.
  - intros Hi. exists i. split; [now apply in_range_iff | apply Z.eqb_refl].
Qed.

Lemma firstn_seq_le (k : nat) :
  forall a n : nat, (k <= n)%nat -> firstn k (seq a n) = seq a k.
Proof.
  induction k as [|k IH]; intros a n Hk; [reflexivity|].
  destruct n as [|n]; [lia|]. cbn [seq firstn]. f_equal. apply IH. lia.
Qed.

Lemma firstn_range (a b k : Z) :
  0 <= k <= b - a -> firstn (Z.to_nat k) (Py.range a b) = Py.range a (a + k).
Proof.
  intros Hk. unfold Py.range. rewrite firstn_map, firstn_seq_le by lia.
  repeat f_equal. lia.
Qed.

(** Over [range(0, n)], [b] per index and one more on the indices from
    [lo] up to [hi]. *)
Lemma sum_indicator_range (b lo hi n : Z) :
  0 <= lo <= hi -> 0 <= n ->
  Py.sum (map (fun i => b + (if (lo <=? i) && (i <? hi) then 1 else 0)) (Py.range 0 n))
  = n * b + (Z.min hi n - Z.min lo n).
Proof.
  intros Hlo. revert n. apply natlike_ind.
  - cbn. unfold Py.sum. cbn. lia.
  - intros n Hn IH. change (Z.succ n) with (n + 1).
    rewrite range_snoc, map_app, sum_app, IH by lia. cbn [map].
    rewrite sum_cons. change (Py.sum []) with 0.
    destruct (lo <=? n) eqn:E1; destruct (n <? hi) eqn:E2; cbn [andb];
      rewrite ?Z.leb_le, ?Z.leb_gt, ?Z.ltb_lt, ?Z.ltb_ge in *; lia.
Qed.

(** ** The remainder test of line 177 *)

(** The classrooms that receive one of the [e] remainder teachers are the
    indices from [lo] up to [hi]. *)
Lemma remainder_test (n e i : Z) :
  1 <= n -> 0 <= e < n -> 0 <= i < n ->
  (i <? e)
  && existsb (Z.eqb i) (firstn (Z.to_nat e) (extra_classrooms n))
  = ((if (3 <? n) && (e <=? n - 2) then 1 else 0) <=? i) && (i <? e).
Proof.
  intros Hn He Hi. unfold extra_classrooms.
  destruct (3 <? n) eqn:E3; cbn [andb].
  - apply Z.ltb_lt in E3. destruct (e <=? n - 2) eqn:Ee.
    + apply Z.leb_le in Ee. rewrite firstn_app, range_length.
      replace (Z.to_nat e - Z.to_nat (n - 1 - 1))%nat with 0%nat by lia.
      cbn [firstn]. rewrite app_nil_r, firstn_range, existsb_range by lia.
      destruct (i <? e) eqn:E1; destruct (1 <=? i) eqn:E2;
        destruct (i <? 1 + e) eqn:E4; cbn [andb]; try reflexivity;
        rewrite ?Z.leb_le, ?Z.leb_gt, ?Z.ltb_lt, ?Z.ltb_ge in *; lia.
    + apply Z.leb_gt in Ee. assert (e = n - 1) by lia. subst e.
      rewrite firstn_app, range_length.
      replace (Z.to_nat (n - 1) - Z.to_nat (n - 1 - 1))%nat with 1%nat by lia.
      rewrite firstn_all2 by (rewrite range_length; lia).
      cbn [firstn]. rewrite existsb_app, existsb_range. cbn [existsb].
      destruct (i <? n - 1) eqn:E1; destruct (1 <=? i) eqn:E2;
        destruct (i =? 0) eqn:E4; destruct (0 <=? i) eqn:E5;
        cbn [andb orb]; try reflexivity;
        rewrite ?Z.leb_le, ?Z.leb_gt, ?Z.ltb_lt, ?Z.ltb_ge,
          ?Z.eqb_eq, ?Z.eqb_neq in *; lia.
  - apply Z.ltb_ge in E3. rewrite firstn_range, existsb_range by lia.
    destruct (i <? e) eqn:E1; destruct (0 <=? i) eqn:E2;
      destruct (i <? 0 + e) eqn:E4; cbn [andb]; try reflexivity;
      rewrite ?Z.leb_le, ?Z.leb_gt, ?Z.ltb_lt, ?Z.ltb_ge in *; lia.
Qed.

(** The sum of a teacher list: the base count in every classroom and the
    remainder teachers that pass the test. *)
Lemma teacher_counts_placed (n c : Z) :
  1 <= n ->
  Py.sum (teacher_counts n c)
  = n * (c / n)
    + (c mod n - Z.min (if (3 <? n) && (c mod n <=? n - 2) then 1 else 0) (c mod n)).
Proof.
  intros Hn.
  pose proof (Z.mod_pos_bound c n ltac:(lia)) as He.
  unfold teacher_counts.
  set (e := c mod n) in *. set (b := c / n) in *.
  set (lo := if (3 <? n) && (e <=? n - 2) then 1 else 0).
  rewrite (map_ext_in _
             (fun i => b + (if (Z.min lo e <=? i) && (i <? e) then 1 else 0))).
  - rewrite sum_indicator_range
      by (unfold lo; destruct ((3 <? n) && (e <=? n - 2)); lia).
    unfold lo. destruct ((3 <? n) && (e <=? n - 2)); lia.
  - intros i Hi. apply in_range_iff in Hi.
    rewrite remainder_test by lia. fold e. fold lo.
    destruct (lo <=? i) eqn:E1; destruct (i <? e) eqn:E2;
      destruct (Z.min lo e <=? i) eqn:E4; cbn [andb]; try reflexivity;
      rewrite ?Z.leb_le, ?Z.leb_gt, ?Z.ltb_lt, ?Z.ltb_ge in *; lia.
Qed.

(** The teachers of a subject that reach a classroom.  With more than three
    classrooms the remainder [count % num_classrooms] is handed out to the
    classrooms from index 1 on, and the test of line 177 stops below the
    remainder, so one teacher is lost whenever the remainder is between 1
    and [num_classrooms - 2]; otherwise every teacher is placed. *)
Theorem teacher_counts_sum (n c : Z) :
  1 <= n ->
  Py.sum (teacher_counts n c)
  = if loses_teacher n c then c - 1 else c.
Proof.
  intros Hn. rewrite teacher_counts_placed by exact Hn. unfold loses_teacher.
  pose proof (Z.mod_pos_bound c n ltac:(lia)) as He.
  pose proof (Z.div_mod c n ltac:(lia)) as Hc.
  destruct (3 <? n) eqn:E3; destruct (1 <=? c mod n) eqn:E1;
    destruct (c mod n <=? n - 2) eqn:E2; cbn [andb];
    rewrite ?Z.leb_le, ?Z.leb_gt, ?Z.ltb_lt, ?Z.ltb_ge in *; lia.
Qed.

(** Seven teachers over five classrooms: the remainder is 2 and six
    teachers are placed. *)
Lemma teacher_counts_sum_witness :
  teacher_counts 5 7 = [1; 2; 1; 1; 1] /\ Py.sum (teacher_counts 5 7) = 6.
Proof.
  split; [evaluates|].
  rewrite (teacher_counts_sum 5 7); [reflexivity | lia].
Defined.

(** * The teacher records and the classrooms *)

(** ** Sums over two indices *)

Lemma sum_map_add {A} (f g : A -> Z) (l : list A) :
  Py.sum (map (fun x => f x + g x) l) = Py.sum (map f l) + Py.sum (map g l).
Proof.
  induction l as [|x l IH]; cbn [map]; [reflexivity|]. rewrite !sum_cons, IH. lia.
Qed.

Lemma sum_map_sub {A} (f g : A -> Z) (l : list A) :
  Py.sum (map (fun x => f x - g x) l) = Py.sum (map f l) - Py.sum (map g l).
Proof.
  induction l as [|x l IH]; cbn [map]; [reflexivity|]. rewrite !sum_cons, IH. lia.
Qed.

Lemma sum_map_zero {A} (l : list A) : Py.sum (map (fun _ => 0) l) = 0.
Proof.
  induction l as [|x l IH]; cbn [map]; [reflexivity|]. now rewrite sum_cons, IH.
Qed.

Lemma sum_map_ext {A} (f g : A -> Z) (l : list A) :
  (forall x, In x l -> f x = g x) -> Py.sum (map f l) = Py.sum (map g l).
Proof. intros H. f_equal. now apply map_ext_in. Qed.

Lemma sum_swap {A B} (f : A -> B -> Z) (l1 : list A) (l2 : list B) :
  Py.sum (map (fun i => Py.sum (map (f i) l2)) l1)
  = Py.sum (map (fun s => Py.sum (map (fun i => f i s) l1)) l2).
Proof.
  induction l1 as [|i l1 IH]; cbn [map].
  - now rewrite sum_map_zero.
  - rewrite sum_cons, IH, <- sum_map_add. apply sum_map_ext. intros s _.
    now rewrite sum_cons.
Qed.

Lemma map_nth_all (l : list Z) (k : nat) :
  map (fun i => nth (i - k) l 0) (seq k (List.length l)) = l.
Proof.
  revert k. induction l as [|x l IH]; intros k; cbn [List.length seq map];
    [reflexivity|].
  replace (k - k)%nat with 0%nat by lia. cbn [nth]. f_equal.
  rewrite <- (IH (S k)) at 2. apply map_ext_in. intros i Hi. apply in_seq in Hi.
  replace (i - k)%nat with (S (i - S k)) by lia. reflexivity.
Qed.

Lemma sum_nth_range (l : list Z) (n : Z) :
  List.length l = Z.to_nat n ->
  Py.sum (map (fun i => nth (Z.to_nat i) l 0) (Py.range 0 n)) = Py.sum l.
Proof.
  intros Hlen. unfold Py.range. rewrite map_map, Z.sub_0_r, <- Hlen.
  rewrite <- (map_nth_all l 0) at 2. f_equal. apply map_ext. intros k.
  cbn [Z.add]. now rewrite Nat2Z.id, Nat.sub_0_r.
Qed.

(** ** One classroom *)

Lemma teacher_records_length (inp : AllocationRequest) (s : string) (i t : Z)
  (students : Q) :
  List.length (teacher_records inp s i t students) = Z.to_nat t.
Proof.
  unfold teacher_records. rewrite length_map, range_length. f_equal. lia.
Qed.

Lemma update_classroom_teachers (inp : AllocationRequest) (tpcs : dict (list Z))
  (rows : dict (list Q)) (i : Z) (names : list string) :
  forall (c : ClassroomAllocation) (ta : list TeacherRecord)
         (c' : ClassroomAllocation) (ta' : list TeacherRecord),
    update_classroom inp tpcs rows i names c ta = Ok (c', ta') ->
    (forall s, In s names -> 0 <= teachers_in tpcs (Z.to_nat i) s) ->
    teachers_assigned c'
    = teachers_assigned c + Py.sum (map (teachers_in tpcs (Z.to_nat i)) names)
    /\ Z.of_nat (List.length ta')
       = Z.of_nat (List.length ta)
         + Py.sum (map (teachers_in tpcs (Z.to_nat i)) names).
Proof.
  induction names as [|s names IH]; intros c ta c' ta' Hrun Hpos;
    cbn [update_classroom map] in Hrun |- *.
  - inversion Hrun; subst. change (Py.sum []) with 0. lia.
  - rewrite sum_cons. pose proof (Hpos s (or_introl eq_refl)) as Hs.
    assert (Hrest : forall s', In s' names -> 0 <= teachers_in tpcs (Z.to_nat i) s')
      by (intros; apply Hpos; now right).
    unfold teachers_in in Hs. unfold teachers_in at 1 3.
    destruct (Dict.get s tpcs) as [tcs|] eqn:Htcs.
    + inv_bind Hrun. rename x into t. inv_bind Hrun. rename x into row.
      inv_bind Hrun. rename x into cell.
      rewrite (index_nth _ _ _ 0 Hx) in Hs |- *.
      destruct (0 <? t) eqn:Et; cbn [orb] in Hrun.
      * apply IH in Hrun; [|exact Hrest]. destruct Hrun as [Hc Hta].
        cbn [teachers_assigned] in Hc.
        rewrite length_app, teacher_records_length in Hta. lia.
      * apply Z.ltb_ge in Et. assert (t = 0) by lia. subst t.
        destruct (Py.Qltb 0 cell); apply IH in Hrun; try exact Hrest;
          destruct Hrun as [Hc Hta]; cbn [teachers_assigned] in Hc;
          rewrite ?length_app, ?teacher_records_length in Hta; lia.
    + apply IH in Hrun; [|exact Hrest]. lia.
Qed.

Lemma update_classrooms_teachers (inp : AllocationRequest) (tpcs : dict (list Z))
  (rows : dict (list Q)) (indices : list Z) :
  forall (ta : list TeacherRecord) (cls : list ClassroomAllocation)
         (ta' : list TeacherRecord),
    update_classrooms inp tpcs rows indices ta = Ok (cls, ta') ->
    (forall i s, In i indices -> In s (subject_names inp) ->
                 0 <= teachers_in tpcs (Z.to_nat i) s) ->
    map teachers_assigned cls
    = map (fun i => Py.sum (map (teachers_in tpcs (Z.to_nat i)) (subject_names inp)))
        indices
    /\ Z.of_nat (List.length ta')
       = Z.of_nat (List.length ta) + Py.sum (map teachers_assigned cls).
Proof.
  induction indices as [|i indices IH]; intros ta cls ta' Hrun Hpos;
    cbn [update_classrooms] in Hrun.
  - inversion Hrun; subst. cbn [map]. change (Py.sum []) with 0. split; [reflexivity|lia].
  - inv_bind Hrun. destruct x as [c ta1]. inv_bind Hrun. destruct x as [cs ta2].
    inversion Hrun; subst; clear Hrun.
    apply update_classroom_teachers in Hx;
      [|intros s Hs; apply Hpos; [now left | exact Hs]].
    apply IH in Hx0; [|intros j s Hj Hs; apply Hpos; [now right | exact Hs]].
    destruct Hx as [Hc Hta]. destruct Hx0 as [Hcs Hta'].
    cbn [empty_classroom teachers_assigned] in Hc.
    cbn [map with_ratio teachers_assigned]. rewrite sum_cons, Hcs. split.
    + f_equal. lia.
    + rewrite <- Hcs. lia.
Qed.

(** ** The teacher lists of a result *)

Lemma teacher_counts_entries (n c : Z) (i : nat) :
  1 <= n -> 0 <= c -> 0 <= nth i (teacher_counts n c) 0.
Proof.
  intros Hn Hc.
  assert (Hall : Forall (fun t => 0 <= t) (teacher_counts n c)).
  { unfold teacher_counts. apply Forall_forall. intros t Ht.
    apply in_map_iff in Ht. destruct Ht as (j & <- & _).
    pose proof (Z.div_pos c n Hc ltac:(lia)). destruct (_ && _); lia. }
  destruct (nth_in_or_default i (teacher_counts n c) 0) as [Hin | ->]; [|lia].
  rewrite Forall_forall in Hall. exact (Hall _ Hin).
Qed.

Lemma teachers_in_cases (n : Z) (tps : dict Z) (s : string) (i : nat) :
  NoDup (Dict.keys tps) ->
  In s (Dict.keys tps) ->
  teachers_in (teachers_per_classroom_subject n tps) i s
  = nth i (teacher_counts n (Dict.get_default s 0 tps)) 0
    * (if Dict.get_default s 0 tps =? 0 then 0 else 1).
Proof.
  intros Hnd Hin. destruct (In_keys_get _ _ Hin) as [c Hc].
  rewrite (get_default_get _ _ _ _ Hc). unfold teachers_in.
  destruct (c =? 0) eqn:E.
  - apply Z.eqb_eq in E. subst c.
    rewrite (teachers_per_classroom_subject_zero _ _ _ Hnd Hc). lia.
  - apply Z.eqb_neq in E.
    rewrite (teachers_per_classroom_subject_mem _ _ _ _ Hnd Hc E). lia.
Qed.

Lemma teachers_in_sum (n : Z) (tps : dict Z) (s : string) :
  1 <= n ->
  NoDup (Dict.keys tps) ->
  In s (Dict.keys tps) ->
  Py.sum (map (fun i => teachers_in (teachers_per_classroom_subject n tps)
                          (Z.to_nat i) s) (Py.range 0 n))
  = Dict.get_default s 0 tps
    - (if loses_teacher n (Dict.get_default s 0 tps) then 1 else 0).
Proof.
  intros Hn Hnd Hin.
  rewrite (sum_map_ext _
             (fun i => nth (Z.to_nat i)
                         (if Dict.get_default s 0 tps =? 0 then []
                          else teacher_counts n (Dict.get_default s 0 tps)) 0)).
  - destruct (Dict.get_default s 0 tps =? 0) eqn:E.
    + apply Z.eqb_eq in E. rewrite E.
      rewrite (sum_map_ext _ (fun _ => 0)) by (intros; now destruct (Z.to_nat _)).
      rewrite sum_map_zero. unfold loses_teacher. rewrite Z.mod_0_l by lia.
      cbn. now rewrite andb_false_r.
    + rewrite sum_nth_range by apply teacher_counts_length.
      rewrite teacher_counts_placed by exact Hn. unfold loses_teacher.
      set (c := Dict.get_default s 0 tps).
      pose proof (Z.mod_pos_bound c n ltac:(lia)) as He.
      pose proof (Z.div_mod c n ltac:(lia)) as Hc.
      destruct (3 <? n) eqn:E3; destruct (1 <=? c mod n) eqn:E1;
        destruct (c mod n <=? n - 2) eqn:E2; cbn [andb];
        rewrite ?Z.leb_le, ?Z.leb_gt, ?Z.ltb_lt, ?Z.ltb_ge in *; lia.
  - intros i _. rewrite teachers_in_cases by assumption.
    destruct (_ =? 0); [destruct (Z.to_nat i); cbn; lia | lia].
Qed.

(** The classrooms and teacher records of a returned result, in terms of
    the teacher counts per subject. *)
Lemma records_of_result (inp : AllocationRequest) (r : OptimizationResult) :
  valid_request inp ->
  optimize_teacher_allocation inp = Ok r ->
  exists tps : dict Z,
    let tpcs := teachers_per_classroom_subject (num_classrooms inp) tps in
    NoDup (Dict.keys tps)
    /\ Permutation (subject_names inp) (Dict.keys tps)
    /\ Forall (fun e => 0 <= snd e) tps
    /\ map teachers_allocated (Dict.values (subject_allocation r))
       = map (fun s => Dict.get_default s 0 tps) (subject_names inp)
    /\ map teachers_assigned (classroom_allocation r)
       = map (fun i => Py.sum (map (teachers_in tpcs (Z.to_nat i)) (subject_names inp)))
           (Py.range 0 (num_classrooms inp))
    /\ Z.of_nat (List.length (teacher_allocation r))
       = Py.sum (map teachers_assigned (classroom_allocation r)).
Proof.
  intros Hv Hrun. apply optimize_Ok in Hrun.
  destruct Hrun as (tps & sps & max_size & Ht & Hs & Ha & Hc & Hcls & _).
  destruct (result_keys _ _ _ _ Hv Ht Hs Ha) as (Hnd & Hks & HP & Hsa).
  pose proof (teachers_nonneg _ _ Hv Ht) as Hpos.
  pose proof (valid_classrooms _ Hv) as Hn.
  apply update_classrooms_teachers in Hcls.
  - destruct Hcls as [Hcs Hta]. exists tps. cbv zeta.
    repeat split; auto.
    rewrite Hsa. apply subject_allocation_teachers.
  - intros i s _ Hin. rewrite teachers_in_cases;
      [|exact Hnd | eapply Permutation_in; eauto].
    pose proof (teacher_counts_entries (num_classrooms inp)
                  (Dict.get_default s 0 tps) (Z.to_nat i) Hn
                  (get_default_nonneg _ _ Hpos)).
    destruct (_ =? 0); lia.
Qed.

(** There is one teacher record per teacher assigned to a classroom: the
    length of [teacher_allocation] is the sum of the classrooms'
    [teachers_assigned]. *)
Theorem one_record_per_assigned_teacher
  (inp : AllocationRequest) (r : OptimizationResult) :
  valid_request inp ->
  optimize_teacher_allocation inp = Ok r ->
  Z.of_nat (List.length (teacher_allocation r))
  = Py.sum (map teachers_assigned (classroom_allocation r)).
Proof.
  intros Hv Hrun. destruct (records_of_result _ _ Hv Hrun) as (tps & H).
  apply H.
Qed.

(** The request of the application's defaults: fifty teachers in twenty
    classrooms, and forty-five teacher records. *)
Lemma one_record_per_assigned_teacher_witness :
  exists r,
    optimize_teacher_allocation request_school = Ok r
    /\ List.length (teacher_allocation r) = 45%nat
    /\ Z.of_nat (List.length (teacher_allocation r))
       = Py.sum (map teachers_assigned (classroom_allocation r)).
Proof.
  eexists. split; [evaluates|]. split; [evaluates|].
  apply (one_record_per_assigned_teacher request_school).
  - valid_request_tac.
  - evaluates.
Defined.

(** The number of teacher records of a returned result: the teachers
    allocated to the subjects, less one for each subject whose count loses
    a teacher at line 177.  With at most three classrooms no subject does,
    and every allocated teacher has a record. *)
Theorem teacher_records_count (inp : AllocationRequest) (r : OptimizationResult) :
  valid_request inp ->
  optimize_teacher_allocation inp = Ok r ->
  Z.of_nat (List.length (teacher_allocation r))
  = total_teachers_allocated r - teachers_lost inp r
  /\ 0 <= teachers_lost inp r <= Z.of_nat (List.length (subject_names inp))
  /\ (num_classrooms inp <= 3 -> teachers_lost inp r = 0).
Proof.
  intros Hv Hrun. destruct (records_of_result _ _ Hv Hrun)
    as (tps & Hnd & HP & Hpos & Hsa & Hcs & Hta).
  pose proof (valid_classrooms _ Hv) as Hn.
  assert (Hlost : teachers_lost inp r
                  = Py.sum (map (fun s =>
                                   if loses_teacher (num_classrooms inp)
                                        (Dict.get_default s 0 tps)
                                   then 1 else 0) (subject_names inp))).
  { unfold teachers_lost.
    transitivity
      (Py.sum (map (fun t => if loses_teacher (num_classrooms inp) t then 1 else 0)
                 (map teachers_allocated (Dict.values (subject_allocation r))))).
    - unfold Dict.values. now rewrite !map_map.
    - now rewrite Hsa, map_map. }
  split; [|split].
  - rewrite Hta, Hcs, sum_swap, Hlost. unfold total_teachers_allocated.
    rewrite Hsa, <- sum_map_sub. apply sum_map_ext. intros s Hs.
    apply teachers_in_sum; [exact Hn | exact Hnd | eapply Permutation_in; eauto].
  - rewrite Hlost. split.
    + apply sum_nonneg. apply Forall_forall. intros x Hx.
      apply in_map_iff in Hx. destruct Hx as (s & <- & _). destruct (loses_teacher _ _); lia.
    + rewrite <- (Z.mul_1_r (Z.of_nat _)). apply sum_map_le.
      intros s _. destruct (loses_teacher _ _); lia.
  - intros Hsmall. rewrite Hlost.
    rewrite (sum_map_ext _ (fun _ => 0)); [apply sum_map_zero|].
    intros s _. unfold loses_teacher.
    replace (3 <? num_classrooms inp) with false by (symmetry; apply Z.ltb_ge; lia).
    reflexivity.
Qed.

(** Ten teachers of one subject in four classrooms: the remainder is 2,
    one teacher is lost and nine records are returned. *)
Lemma teacher_records_count_witness :
  exists r,
    optimize_teacher_allocation request_four_classrooms = Ok r
    /\ List.length (teacher_allocation r) = 9%nat
    /\ total_teachers_allocated r = 10
    /\ (Z.of_nat (List.length (teacher_allocation r))
        = total_teachers_allocated r - teachers_lost request_four_classrooms r
        /\ 0 <= teachers_lost request_four_classrooms r
           <= Z.of_nat (List.length (subject_names request_four_classrooms))
        /\ (num_classrooms request_four_classrooms <= 3 ->
            teachers_lost request_four_classrooms r = 0)).
Proof.
  eexists. split; [evaluates|]. split; [evaluates|]. split; [evaluates|].
  apply (teacher_records_count request_four_classrooms).
  - valid_request_tac.
  - evaluates.
Defined.

(** * The outcome of a call *)

(** ** Lookups that succeed *)

Lemma lookup_In {V} (k : string) (d : dict V) :
  In k (Dict.keys d) -> exists v, Dict.lookup k d = Ok v.
Proof.
  intros Hin. destruct (In_keys_get _ _ Hin) as [v Hv]. exists v.
  unfold Dict.lookup. now rewrite Hv.
Qed.

Lemma index_Ok {A} (l : list A) (i : Z) :
  (Z.to_nat i < List.length l)%nat -> exists x, index l i = Ok x.
Proof.
  intros Hi. unfold index. destruct (nth_error l (Z.to_nat i)) as [x|] eqn:E.
  - now exists x.
  - apply nth_error_None in E. lia.
Qed.

Lemma sorted_by_In {A} (before : Z -> Z -> bool) (l : list (A * Z)) (e : A * Z) :
  In e (Py.sorted_by before l) -> In e l.
Proof. apply Permutation_in, sorted_by_Permutation. Qed.

(** ** Teachers per subject *)

Lemma add_teachers_Ok (T : Z) (order : list (string * Z)) :
  forall (tps : dict Z) (total : Z),
    (forall e, In e order -> In (fst e) (Dict.keys tps)) ->
    exists tps', add_teachers T order tps total = Ok tps'.
Proof.
  induction order as [|[s d] rest IH]; intros tps total Hin; cbn [add_teachers].
  - now exists tps.
  - destruct (total >=? T); [now exists tps|].
    pose proof (Hin (s, d) (or_introl eq_refl)) as Hs. cbn [fst] in Hs.
    destruct (lookup_In _ _ Hs) as [t ->]. cbn [bind]. apply IH.
    intros e He. rewrite keys_set_present by exact Hs. apply Hin. now right.
Qed.

Lemma remove_teachers_Ok (T : Z) (order : list (string * Z)) :
  forall (tps : dict Z) (total : Z),
    (forall e, In e order -> In (fst e) (Dict.keys tps)) ->
    exists tps', remove_teachers T order tps total = Ok tps'.
Proof.
  induction order as [|[s d] rest IH]; intros tps total Hin; cbn [remove_teachers].
  - now exists tps.
  - destruct (total <=? T); [now exists tps|].
    pose proof (Hin (s, d) (or_introl eq_refl)) as Hs. cbn [fst] in Hs.
    destruct (lookup_In _ _ Hs) as [t ->]. cbn [bind].
    destruct (1 <? t); apply IH; intros e He;
      rewrite ?keys_set_present by exact Hs; apply Hin; now right.
Qed.

Lemma teachers_per_subject_Ok (inp : AllocationRequest) :
  NoDup (Dict.keys (teacher_distribution inp)) ->
  incl (Dict.keys (subject_difficulties inp)) (Dict.keys (teacher_distribution inp)) ->
  exists tps, teachers_per_subject inp = Ok tps.
Proof.
  intros Hnd Hincl. unfold teachers_per_subject.
  assert (Hin : forall before e,
             In e (Py.sorted_by before (subject_difficulties inp)) ->
             In (fst e)
               (Dict.keys (initial_teachers (total_teachers inp)
                             (teacher_distribution inp)))).
  { intros before e He. rewrite initial_teachers_keys by exact Hnd.
    apply Hincl. apply in_map. eapply sorted_by_In; eauto. }
  destruct (_ <? total_teachers inp); [apply add_teachers_Ok, Hin|].
  destruct (total_teachers inp <? _); [apply remove_teachers_Ok, Hin|].
  eauto.
Qed.

(** ** Students per subject *)

Lemma initial_students_Ok (S : Z) (isr : dict Q) (items : list (string * Z)) :
  forall (sps : dict Z) (rem : Z),
    (forall e, In e items -> In (fst e) (Dict.keys isr)) ->
    exists out, initial_students S isr items sps rem = Ok out.
Proof.
  induction items as [|[s t] rest IH]; intros sps rem Hin; cbn [initial_students].
  - eauto.
  - pose proof (Hin (s, t) (or_introl eq_refl)) as Hs. cbn [fst] in Hs.
    destruct (lookup_In _ _ Hs) as [x ->]. cbn [bind].
    destruct (0 <? t); cbn [bind]; apply IH; intros e He; apply Hin; now right.
Qed.

Lemma distribute_remaining_Ok (order : list (string * Z)) :
  forall (sps : dict Z) (rem : Z),
    (forall e, In e order -> In (fst e) (Dict.keys sps)) ->
    exists out, distribute_remaining order sps rem = Ok out.
Proof.
  induction order as [|[s d] rest IH]; intros sps rem Hin;
    cbn [distribute_remaining].
  - eauto.
  - destruct (rem =? 0); [eauto|].
    pose proof (Hin (s, d) (or_introl eq_refl)) as Hs. cbn [fst] in Hs.
    destruct (lookup_In _ _ Hs) as [x ->]. cbn [bind].
    destruct (0 <? rem); [|destruct (1 <? x)]; apply IH; intros e He;
      rewrite ?keys_set_present by exact Hs; apply Hin; now right.
Qed.

Lemma balance_Ok (names : list string) :
  forall (sps : dict Z) (diff : Z),
    incl names (Dict.keys sps) -> exists sps', balance names sps diff = Ok sps'.
Proof.
  induction names as [|s rest IH]; intros sps diff Hin; cbn [balance].
  - eauto.
  - destruct (diff =? 0); [eauto|].
    pose proof (Hin s (or_introl eq_refl)) as Hs.
    destruct (lookup_In _ _ Hs) as [x ->]. cbn [bind].
    destruct (0 <? diff); apply IH; intros e He;
      rewrite keys_set_present by exact Hs; apply Hin; now right.
Qed.

Lemma students_per_subject_Ok (inp : AllocationRequest) (tps : dict Z) :
  NoDup (Dict.keys tps) ->
  NoDup (Dict.keys (subject_difficulties inp)) ->
  incl (Dict.keys tps) (Dict.keys (subject_difficulties inp)) ->
  incl (Dict.keys (subject_difficulties inp)) (Dict.keys tps) ->
  incl (subject_names inp) (Dict.keys tps) ->
  exists sps, students_per_subject inp tps = Ok sps.
Proof.
  intros Hnd Hnds Hts Hst Hnames. unfold students_per_subject.
  destruct (initial_students_Ok (total_students inp) (ideal_subject_ratios inp) tps
              [] (total_students inp)) as [[sps0 rem0] H0].
  { intros e He. rewrite ideal_subject_ratios_keys by exact Hnds.
    apply Hts. now apply in_map. }
  rewrite H0. cbn [bind].
  apply initial_students_keys in H0; [|exact Hnd].
  change (Dict.keys [] ++ map fst tps) with (Dict.keys tps) in H0.
  destruct (distribute_remaining_Ok
              (Py.sorted_by_value (subject_difficulties inp)) sps0 rem0)
    as [[sps1 rem1] H1].
  { intros e He. rewrite H0. apply Hst. apply in_map.
    eapply sorted_by_In; eauto. }
  rewrite H1. cbn [bind]. apply distribute_remaining_keys in H1.
  destruct (_ =? 0); [eauto|]. apply balance_Ok. now rewrite H1, H0.
Qed.

Lemma init_subject_allocation_Ok (tps sps : dict Z) (names : list string) :
  forall acc : dict SubjectAllocation,
    incl names (Dict.keys tps) -> incl names (Dict.keys sps) ->
    exists sa, init_subject_allocation names tps sps acc = Ok sa.
Proof.
  induction names as [|s rest IH]; intros acc Ht Hs; cbn [init_subject_allocation].
  - eauto.
  - destruct (lookup_In _ _ (Ht s (or_introl eq_refl))) as [t ->].
    destruct (lookup_In _ _ (Hs s (or_introl eq_refl))) as [x ->]. cbn [bind].
    apply IH; intros e He; [apply Ht | apply Hs]; now right.
Qed.

Lemma capacity_ceiling_Ok (inp : AllocationRequest) :
  num_classrooms inp <> 0 -> exists q, capacity_ceiling inp = Ok q.
Proof.
  intros Hn. unfold capacity_ceiling, Py.div.
  destruct (Qeq_bool (inject_Z (num_classrooms inp)) 0) eqn:E.
  - apply Qeq_bool_iff in E. unfold Qeq in E. cbn in E. lia.
  - cbn [bind]. eauto.
Qed.

(** ** The spread, whatever the signs *)

Lemma proportional_pass_lengths (tt count : Z) (tcs : list Z) :
  forall (caps : list Q) (rem : Z) (row caps' : list Q) (rem' : Z),
    proportional_pass tt count tcs caps rem = (row, caps', rem') ->
    List.length tcs = List.length caps ->
    List.length row = List.length caps /\ List.length caps' = List.length caps.
Proof.
  intros caps rem row caps' rem' H Hlen.
  destruct (proportional_pass_shape _ _ _ _ _ _ _ _ H Hlen) as (H1 & H2 & _). auto.
Qed.

Lemma spread_subject_lengths (n : Z) (m : nat) (tpcs : dict (list Z))
  (st : SpreadState) (subject : string) (count : Z) :
  List.length (capacities st) = m ->
  Forall (fun e => List.length (snd e) = m) (spcs st) ->
  (forall s tcs, Dict.get s tpcs = Some tcs -> List.length tcs = m) ->
  let st' := spread_subject n tpcs st subject count in
  List.length (capacities st') = m
  /\ Forall (fun e => List.length (snd e) = m) (spcs st')
  /\ Dict.get subject (spcs st') <> None
  /\ (forall k, Dict.get k (spcs st) <> None -> Dict.get k (spcs st') <> None)
  /\ (0 < total_teachers_var st -> 0 < total_teachers_var st').
Proof.
  intros Hcaps Hrows Htcs. unfold spread_subject.
  assert (Hset : forall row,
             Dict.get subject (Dict.set subject row (spcs st)) <> None
             /\ (forall k, Dict.get k (spcs st) <> None ->
                           Dict.get k (Dict.set subject row (spcs st)) <> None)).
  { intros row. split; [rewrite get_set_eq; discriminate|].
    intros k Hk. destruct (string_dec k subject) as [->|Hne].
    - rewrite get_set_eq. discriminate.
    - now rewrite get_set_neq. }
  destruct (Dict.get subject tpcs) as [tcs|] eqn:E.
  - destruct (0 <? Py.sum tcs) eqn:Epos.
    + apply Z.ltb_lt in Epos.
      destruct (proportional_pass _ _ _ _ _) as [[row caps] rem] eqn:Hp.
      apply proportional_pass_lengths in Hp;
        [|rewrite Hcaps; apply (Htcs _ _ E)].
      destruct Hp as [Hrow Hc].
      destruct (0 <? rem).
      * destruct (sweep row caps (inject_Z rem)) as [[row' caps'] rem'] eqn:Hs.
        apply sweep_shape in Hs; [|congruence].
        destruct Hs as (Hrow' & Hc' & _). cbn [capacities spcs total_teachers_var].
        split; [congruence|].
        split; [apply (Forall_values_set (fun r => List.length r = m));
                [exact Hrows | congruence]|].
        split; [exact (proj1 (Hset _))|]. split; [exact (proj2 (Hset _))|].
        intros _; exact Epos.
      * cbn [capacities spcs total_teachers_var].
        split; [congruence|].
        split; [apply (Forall_values_set (fun r => List.length r = m));
                [exact Hrows | congruence]|].
        split; [exact (proj1 (Hset _))|]. split; [exact (proj2 (Hset _))|].
        intros _; exact Epos.
    + destruct (even_pass _ _ _ _) as [[row caps] rem] eqn:Hp.
      apply even_pass_shape in Hp. destruct Hp as (Hrow & Hc & _).
      destruct (sweep row caps (inject_Z rem)) as [[row' caps'] rem'] eqn:Hs.
      apply sweep_shape in Hs; [|congruence].
      destruct Hs as (Hrow' & Hc' & _). cbn [capacities spcs total_teachers_var].
      split; [congruence|].
        split; [apply (Forall_values_set (fun r => List.length r = m));
                [exact Hrows | congruence]|].
        split; [exact (proj1 (Hset _))|]. split; [exact (proj2 (Hset _))|].
        auto.
  - destruct (even_pass _ _ _ _) as [[row caps] rem] eqn:Hp.
    apply even_pass_shape in Hp. destruct Hp as (Hrow & Hc & _).
    destruct (sweep row caps (inject_Z rem)) as [[row' caps'] rem'] eqn:Hs.
    apply sweep_shape in Hs; [|congruence].
    destruct Hs as (Hrow' & Hc' & _). cbn [capacities spcs total_teachers_var].
    split; [congruence|].
        split; [apply (Forall_values_set (fun r => List.length r = m));
                [exact Hrows | congruence]|].
        split; [exact (proj1 (Hset _))|]. split; [exact (proj2 (Hset _))|].
        auto.
Qed.

Lemma spread_fold_lengths (n : Z) (m : nat) (tpcs : dict (list Z)) :
  (forall s tcs, Dict.get s tpcs = Some tcs -> List.length tcs = m) ->
  forall (items : list (string * Z)) (st : SpreadState),
    List.length (capacities st) = m ->
    Forall (fun e => List.length (snd e) = m) (spcs st) ->
    0 < total_teachers_var st ->
    let st' :=
      fold_left (fun st sc => spread_subject n tpcs st (fst sc) (snd sc)) items st in
    Forall (fun e => List.length (snd e) = m) (spcs st')
    /\ (forall k, Dict.get k (spcs st) <> None \/ In k (map fst items) ->
                  Dict.get k (spcs st') <> None)
    /\ 0 < total_teachers_var st'.
Proof.
  intros Htcs. induction items as [|[s c] items IH]; intros st Hcaps Hrows Hvar;
    cbn [fold_left fst snd map].
  - repeat split; auto. intros k [Hk|[]]. exact Hk.
  - destruct (spread_subject_lengths n m tpcs st s c Hcaps Hrows Htcs)
      as (Hcaps' & Hrows' & Hs & Hkeep & Hvar').
    destruct (IH _ Hcaps' Hrows' (Hvar' Hvar)) as (H1 & H2 & H3).
    repeat split; auto.
    intros k [Hk|[<-|Hk]]; apply H2; auto.
Qed.

Lemma students_per_classroom_subject_lengths (n : Z) (max_size : Q) (T : Z)
  (tps sps : dict Z) :
  0 < T ->
  let st :=
    students_per_classroom_subject n max_size T
      (teachers_per_classroom_subject n tps) sps in
  Forall (fun e => List.length (snd e) = Z.to_nat n) (spcs st)
  /\ (forall k, In k (Dict.keys sps) -> In k (Dict.keys (spcs st)))
  /\ 0 < total_teachers_var st.
Proof.
  intros HT. cbv zeta. unfold students_per_classroom_subject.
  destruct (spread_fold_lengths n (Z.to_nat n) (teachers_per_classroom_subject n tps)
              (fun s tcs H => proj1 (teachers_per_classroom_subject_rows n tps s tcs H))
              sps
              {| spcs := [];
                 capacities := map (fun _ => max_size) (Py.range 0 n);
                 total_teachers_var := T |})
    as (H1 & H2 & H3).
  - cbn [capacities]. rewrite length_map, range_length. f_equal. lia.
  - constructor.
  - exact HT.
  - repeat split; auto. intros k Hk.
    specialize (H2 k (or_intror Hk)).
    destruct (Dict.get k (spcs _)) eqn:E; [|contradiction].
    eapply get_In_keys; eauto.
Qed.

(** ** The classrooms *)

Lemma update_classroom_Ok (inp : AllocationRequest) (tpcs : dict (list Z))
  (rows : dict (list Q)) (i : Z) (m : nat) (names : list string) :
  (Z.to_nat i < m)%nat ->
  (forall s tcs, Dict.get s tpcs = Some tcs -> List.length tcs = m) ->
  Forall (fun e => List.length (snd e) = m) rows ->
  incl names (Dict.keys rows) ->
  forall (c : ClassroomAllocation) (ta : list TeacherRecord),
    exists out, update_classroom inp tpcs rows i names c ta = Ok out.
Proof.
  intros Hi Htcs Hrows. induction names as [|s names IH]; intros Hin c ta;
    cbn [update_classroom].
  - eauto.
  - assert (Hrest : incl names (Dict.keys rows)) by (intros k Hk; apply Hin; now right).
    destruct (Dict.get s tpcs) as [tcs|] eqn:E; [|now apply IH].
    destruct (index_Ok tcs i) as [t ->]; [rewrite (Htcs _ _ E); exact Hi|].
    destruct (In_keys_get _ _ (Hin s (or_introl eq_refl))) as [row Hrow].
    unfold Dict.lookup. rewrite Hrow. cbn [bind].
    destruct (index_Ok row i) as [cell ->].
    { pose proof (Forall_values_get (fun r => List.length r = m) _ _ _ Hrows Hrow)
        as Hlen. cbn beta in Hlen. rewrite Hlen. exact Hi. }
    cbn [bind]. destruct (_ || _); now apply IH.
Qed.

Lemma update_classrooms_Ok (inp : AllocationRequest) (tpcs : dict (list Z))
  (rows : dict (list Q)) (m : nat) (indices : list Z) :
  (forall i, In i indices -> (Z.to_nat i < m)%nat) ->
  (forall s tcs, Dict.get s tpcs = Some tcs -> List.length tcs = m) ->
  Forall (fun e => List.length (snd e) = m) rows ->
  incl (subject_names inp) (Dict.keys rows) ->
  forall ta : list TeacherRecord,
    exists cls ta',
      update_classrooms inp tpcs rows indices ta = Ok (cls, ta')
      /\ List.length cls = List.length indices.
Proof.
  intros Hi Htcs Hrows Hin. induction indices as [|i indices IH]; intros ta;
    cbn [update_classrooms].
  - exists [], ta. auto.
  - destruct (update_classroom_Ok inp tpcs rows i m (subject_names inp)
                (Hi i (or_introl eq_refl)) Htcs Hrows Hin empty_classroom ta)
      as [[c ta1] ->].
    cbn [bind].
    destruct (IH (fun j Hj => Hi j (or_intror Hj)) ta1) as (cs & ta2 & -> & Hlen).
    cbn [bind]. exists (with_ratio c :: cs), ta2. cbn [List.length]. auto.
Qed.

(** ** The ratio and the recommendations *)

Lemma overall_ratio_Ok (inp : AllocationRequest) (sa : dict SubjectAllocation)
  (T : Z) :
  0 < T -> exists q, overall_ratio inp sa T = Ok q.
Proof.
  intros HT. unfold overall_ratio.
  destruct (weighted_totals inp sa) as [ws wt].
  destruct (Py.Qltb 0 wt); cbn [bind]; [eauto|].
  unfold Py.div. destruct (Qeq_bool (inject_Z T) 0) eqn:E.
  - apply Qeq_bool_iff in E. unfold Qeq in E. cbn in E. lia.
  - cbn [bind]. eauto.
Qed.

Lemma generate_recommendations_outcome (inp : AllocationRequest) (ratio : Q)
  (ta : list TeacherRecord) (cls : list ClassroomAllocation)
  (sa : dict SubjectAllocation) :
  (exists recs, generate_recommendations inp ratio ta cls sa = Ok recs)
  \/ (generate_recommendations inp ratio ta cls sa = Raise ValueError
      /\ 1 < Z.of_nat (List.length cls)
      /\ filter (fun r => Py.Qltb 0 r) (map classroom_ratio cls) = []).
Proof.
  unfold generate_recommendations.
  destruct (1 <? Z.of_nat (List.length cls)) eqn:E.
  - apply Z.ltb_lt in E.
    destruct (filter (fun r => Py.Qltb 0 r) (map classroom_ratio cls)) as [|x l].
    + right. cbn [min_of bind]. auto.
    + left. cbn [min_of max_of bind]. destruct (Py.Qltb 3 _); cbn [bind]; eauto.
  - left. cbn [bind]. eauto.
Qed.

(** ** The call as a whole *)

Lemma complete_request_keys (inp : AllocationRequest) :
  valid_request inp ->
  complete_request inp ->
  incl (Dict.keys (subject_difficulties inp)) (Dict.keys (teacher_distribution inp))
  /\ incl (Dict.keys (teacher_distribution inp)) (Dict.keys (subject_difficulties inp)).
Proof.
  intros Hv [Hd Ht].
  destruct (valid_difficulty_keys _ Hv) as [_ Hd'].
  destruct (valid_distribution_keys _ Hv) as [_ Ht'].
  split; intros s Hs; auto.
Qed.

(** Every step before the recommendations succeeds. *)
Lemma optimize_reaches_recommendations (inp : AllocationRequest) :
  valid_request inp ->
  complete_request inp ->
  exists (sa : dict SubjectAllocation) (q : Q) (ta : list TeacherRecord)
         (cls : list ClassroomAllocation),
    List.length cls = Z.to_nat (num_classrooms inp)
    /\ optimize_teacher_allocation inp
       = (recommendations <- generate_recommendations inp q ta cls sa ;;
          Ok {| optimal_ratio := q;
                teacher_allocation := ta;
                classroom_allocation := cls;
                subject_allocation := sa;
                recommendations := recommendations |}).
Proof.
  intros Hv Hc. destruct (complete_request_keys _ Hv Hc) as [Hdt Htd].
  destruct Hc as [Hnd Hnt].
  destruct (valid_distribution_keys _ Hv) as [Hndt Htn].
  destruct (valid_difficulty_keys _ Hv) as [Hndd Hdn].
  pose proof (valid_classrooms _ Hv) as Hn.
  pose proof (valid_teachers _ Hv) as HT.
  unfold optimize_teacher_allocation.
  destruct (teachers_per_subject_Ok inp Hndt Hdt) as [tps Htps].
  rewrite Htps. cbn [bind].
  pose proof (teachers_per_subject_keeps _ _ Htps) as [Hk _].
  rewrite initial_teachers_keys in Hk by exact Hndt.
  assert (Hnk : NoDup (Dict.keys tps)) by now rewrite Hk.
  destruct (students_per_subject_Ok inp tps Hnk Hndd) as [sps Hsps];
    try (rewrite Hk; assumption).
  rewrite Hsps. cbn [bind].
  pose proof (students_per_subject_keys _ _ _ Hnk Hsps) as Hks.
  destruct (init_subject_allocation_Ok tps sps (subject_names inp) [])
    as [sa ->]; try (rewrite ?Hks, Hk; assumption).
  cbn [bind].
  destruct (capacity_ceiling_Ok inp ltac:(lia)) as [max_size ->]. cbn [bind].
  destruct (students_per_classroom_subject_lengths (num_classrooms inp) max_size
              (total_teachers inp) tps sps ltac:(lia)) as (Hrows & Hkeys & Hvar).
  destruct (update_classrooms_Ok inp
              (teachers_per_classroom_subject (num_classrooms inp) tps)
              (spcs (students_per_classroom_subject (num_classrooms inp) max_size
                       (total_teachers inp)
                       (teachers_per_classroom_subject (num_classrooms inp) tps) sps))
              (Z.to_nat (num_classrooms inp)) (Py.range 0 (num_classrooms inp))
              (fun i => in_range i (num_classrooms inp))
              (fun s tcs H =>
                 proj1 (teachers_per_classroom_subject_rows (num_classrooms inp)
                          tps s tcs H))
              Hrows) with (ta := @nil TeacherRecord) as (cls & ta & -> & Hlen).
  { intros s Hs. apply Hkeys. rewrite Hks, Hk. now apply Hnt. }
  cbn [bind].
  destruct (overall_ratio_Ok inp sa _ Hvar) as [q ->]. cbn [bind].
  exists sa, q, ta, cls. split; [|reflexivity].
  rewrite Hlen, range_length. f_equal. lia.
Qed.



(** * The optimal ratio and the recommendations *)

(** ** The optimal ratio is at least half the ideal ratio *)

Lemma pull_towards_ideal_lower (ideal x : Q) :
  (0 < ideal)%Q -> (0 <= x)%Q -> (ideal / 2 <= pull_towards_ideal ideal x)%Q.
Proof.
  intros Hi Hx. unfold pull_towards_ideal.
  assert (Hhalf : (ideal / 2 == ideal * (1 # 2))%Q) by field.
  assert (Hmid : ((x + ideal) / 2 == (x + ideal) * (1 # 2))%Q) by field.
  rewrite Hhalf.
  destruct (Py.Qltb (ideal * (12 # 10)) x) eqn:E1.
  - rewrite Hmid. lra.
  - destruct (Py.Qltb x (ideal * (8 # 10))) eqn:E2.
    + rewrite Hmid. lra.
    + apply Qltb_ge in E2. lra.
Qed.

Lemma students_sum_nonneg (inp : AllocationRequest) (tps sps : dict Z) :
  valid_request inp ->
  NoDup (Dict.keys tps) ->
  students_per_subject inp tps = Ok sps ->
  0 <= Py.sum (Dict.values sps).
Proof.
  intros Hv Hnd Hs. pose proof (valid_students _ Hv) as HS.
  destruct (students_per_subject_steps _ _ _ Hs) as (sps0 & rem0 & _ & _ & H0 & _).
  destruct (students_per_subject_total _ _ _ _ _ Hnd H0 Hs) as (Hrem & Hshort & Hlong).
  destruct (initial_students_spec _ _ _ _ _ _ _ H0 Hnd) as [_ Hb0].
  specialize (Hb0 ltac:(lia) (ideal_subject_ratios_nonneg inp ltac:(lia))
                (Forall_nil _)).
  assert (H0' : 0 <= Py.sum (Dict.values sps0)).
  { apply sum_nonneg. unfold Dict.values. apply Forall_map.
    eapply Forall_impl; [|exact Hb0]. cbn. lia. }
  assert (0 <= rem0 \/ rem0 <= 0) as [Hsign|Hsign] by lia.
  - rewrite (Hshort Hsign). lia.
  - specialize (Hlong Hsign). lia.
Qed.

Lemma overall_ratio_lower (inp : AllocationRequest) (sa : dict SubjectAllocation)
  (T : Z) (q : Q) :
  (0 < ideal_ratio inp)%Q ->
  0 <= total_students inp ->
  0 < T ->
  0 <= Py.sum (map (fun e => students_allocated (snd e)) sa) ->
  overall_ratio inp sa T = Ok q ->
  (ideal_ratio inp / 2 <= q)%Q.
Proof.
  intros Hideal HS HT Hsum Hrun. unfold overall_ratio in Hrun.
  destruct (weighted_totals_spec inp sa) as [Hws _].
  destruct (weighted_totals inp sa) as [ws wt]. cbn [fst] in Hws.
  inv_bind Hrun. inversion Hrun; subst q; clear Hrun.
  apply pull_towards_ideal_lower; [exact Hideal|].
  destruct (Py.Qltb 0 wt) eqn:Hwt.
  - apply Qltb_lt in Hwt. inversion Hx; subst x; clear Hx.
    apply Qmult_le_0_compat.
    + apply Qle_shift_div_l; [exact Hwt|]. rewrite Qmult_0_l.
      apply inject_Z_nonneg. lia.
    + destruct (prioritizes_experience inp); discriminate.
  - inv_bind Hx. inversion Hx; subst x; clear Hx.
    unfold Py.div in Hx0. destruct (Qeq_bool _ 0); [discriminate|].
    inversion Hx0; subst x0; clear Hx0.
    apply Qmult_le_0_compat; [|discriminate].
    apply Qle_shift_div_l.
    + change 0%Q with (inject_Z 0). now rewrite <- Zlt_Qlt.
    + rewrite Qmult_0_l. now apply inject_Z_nonneg.
Qed.

Lemma optimal_ratio_lower (inp : AllocationRequest) (r : OptimizationResult) :
  valid_request inp ->
  optimize_teacher_allocation inp = Ok r ->
  (ideal_ratio inp / 2 <= optimal_ratio r)%Q.
Proof.
  intros Hv Hrun. apply optimize_Ok in Hrun.
  destruct Hrun as (tps & sps & max_size & Ht & Hs & Ha & _ & _ & Hratio).
  destruct (result_keys _ _ _ _ Hv Ht Hs Ha) as (Hnd & Hks & HP & Hsa).
  pose proof (valid_students _ Hv) as HS. pose proof (valid_teachers _ Hv) as HT.
  destruct (students_per_classroom_subject_lengths (num_classrooms inp) max_size
              (total_teachers inp) tps sps ltac:(lia)) as (_ & _ & Hvar).
  eapply overall_ratio_lower; eauto.
  - exact (valid_ideal_ratio _ Hv).
  - lia.
  - rewrite <- (map_map snd students_allocated).
    change (map snd (subject_allocation r)) with (Dict.values (subject_allocation r)).
    rewrite Hsa, subject_allocation_students, sum_over_names; [|now rewrite Hks..].
    eapply students_sum_nonneg; eauto.
Qed.

(** The [optimal_ratio] of a returned result is at least half the ideal
    ratio of the request, hence positive. *)
Theorem optimal_ratio_at_least_half_ideal
  (inp : AllocationRequest) (r : OptimizationResult) :
  valid_request inp ->
  optimize_teacher_allocation inp = Ok r ->
  (ideal_ratio inp / 2 <= optimal_ratio r)%Q /\ (0 < optimal_ratio r)%Q.
Proof.
  intros Hv Hrun. pose proof (optimal_ratio_lower _ _ Hv Hrun) as Hlow.
  pose proof (valid_ideal_ratio _ Hv).
  assert (Hhalf : (ideal_ratio inp / 2 == ideal_ratio inp * (1 # 2))%Q) by field.
  split; [exact Hlow|]. rewrite Hhalf in Hlow. lra.
Qed.

(** One teacher for ten students of whom six are allocated: the weighted
    ratio 5.4 is below 0.8 * 15 and the result is its midpoint with 15. *)
Lemma optimal_ratio_at_least_half_ideal_witness :
  exists r,
    optimize_teacher_allocation request_single_teacher = Ok r
    /\ (optimal_ratio r == 102 # 10)%Q
    /\ (ideal_ratio request_single_teacher / 2 <= optimal_ratio r)%Q
    /\ (0 < optimal_ratio r)%Q.
Proof.
  eexists. split; [evaluates|]. split; [evaluates|].
  apply (optimal_ratio_at_least_half_ideal request_single_teacher).
  - valid_request_tac.
  - evaluates.
Defined.

(** ** Advice on single subjects *)

Lemma subject_recommendations_sound (inp : AllocationRequest) (opt : Q)
  (sa : dict SubjectAllocation) :
  (0 < opt)%Q -> Forall sound_advice (subject_recommendations inp opt sa).
Proof.
  intros Hopt. unfold subject_recommendations.
  set (F := fun (acc : list SubjectAdvice) (sd : string * SubjectAllocation) => _).
  enough (H : forall l acc, Forall sound_advice acc ->
                            Forall sound_advice (fold_left F l acc))
    by (apply H; constructor).
  induction l as [|[s e] l IH]; intros acc Hacc; cbn [fold_left]; [exact Hacc|].
  apply IH. subst F. cbn [fst snd].
  destruct (7 <=? _); cbn [andb].
  - destruct (Py.Qltb opt (ratio e)) eqn:E; [|cbn [andb]].
    + apply Qltb_lt in E. apply Forall_app. split; [exact Hacc|].
      constructor; [|constructor]. cbn [sound_advice]. unfold Py.max.
      destruct (Py.Qltb (opt - 2) _) eqn:E'; [|apply Qltb_ge in E']; split; lra.
    + destruct (_ <=? 3); cbn [andb]; [|exact Hacc].
      destruct (Py.Qltb (ratio e) opt) eqn:E2; [|exact Hacc].
      apply Qltb_lt in E2. apply Forall_app. split; [exact Hacc|].
      constructor; [|constructor]. cbn [sound_advice]. unfold Py.min.
      destruct (Py.Qltb (ratio e * _) _) eqn:E';
        [apply Qltb_lt in E'|apply Qltb_ge in E'];
        (split; [lra | intros Hpos; lra]).
  - destruct (_ <=? 3); cbn [andb]; [|exact Hacc].
    destruct (Py.Qltb (ratio e) opt) eqn:E2; [|exact Hacc].
    apply Qltb_lt in E2. apply Forall_app. split; [exact Hacc|].
    constructor; [|constructor]. cbn [sound_advice]. unfold Py.min.
    destruct (Py.Qltb (ratio e * _) _) eqn:E';
      [apply Qltb_lt in E'|apply Qltb_ge in E'];
      (split; [lra | intros Hpos; lra]).
Qed.

(** ** The list of recommendations *)

Lemma min_of_In (l : list Q) (m : Q) : min_of l = Ok m -> In m l.
Proof.
  destruct l as [|x l]; [discriminate|]. cbn [min_of]. intros [= <-].
  revert x. induction l as [|y l IH]; intros x; cbn [fold_left]; [now left|].
  destruct (IH (if Py.Qltb y x then y else x)) as [H|H].
  - destruct (Py.Qltb y x); rewrite <- H; cbn; auto.
  - cbn. auto.
Qed.

Lemma generate_recommendations_texts (inp : AllocationRequest) (opt : Q)
  (ta : list TeacherRecord) (cls : list ClassroomAllocation)
  (sa : dict SubjectAllocation) (recs : list Recommendation) :
  generate_recommendations inp opt ta cls sa = Ok recs ->
  Forall well_scored recs
  /\ (2 <= List.length recs <= 5)%nat
  /\ hd_error (map text recs) = Some (UseBestRatio opt)
  /\ last (map text recs) PlanStaffing = PlanStaffing
  /\ (forall items, In (AdjustEachSubject items) (map text recs) ->
                    items = subject_recommendations inp opt sa /\ items <> [])
  /\ (forall mn mx, In (BalanceClassrooms mn mx) (map text recs) ->
                    (0 < mn)%Q /\ (mn + 3 < mx)%Q /\ 1 < Z.of_nat (List.length cls))
  /\ (forall u, In (UseTeachersEfficiently u) (map text recs) -> (u < 80)%Q).
Proof.
  unfold generate_recommendations.
  set (advice := subject_recommendations inp opt sa).
  set (avg := match map utilization ta with [] => 0%Q | _ => _ end).
  intros Hrun. inv_bind Hrun. inversion Hrun; subst recs; clear Hrun.
  assert (Hx' :
    exists adj bal,
      x = {| text := UseBestRatio opt; impact_score := 9; ease_score := 6;
             timeline_start := 0; timeline_duration := 8 |} :: adj ++ bal
      /\ (adj = []
          \/ adj = [{| text := AdjustEachSubject advice; impact_score := 8;
                       ease_score := 5; timeline_start := 2;
                       timeline_duration := 6 |}] /\ advice <> [])
      /\ (bal = []
          \/ exists mn mx,
               bal = [{| text := BalanceClassrooms mn mx; impact_score := 7;
                         ease_score := 3; timeline_start := 1;
                         timeline_duration := 4 |}]
               /\ (0 < mn)%Q /\ (mn + 3 < mx)%Q
               /\ 1 < Z.of_nat (List.length cls))).
  { assert (Hadj :
      exists adj,
        match advice with
        | [] => [{| text := UseBestRatio opt; impact_score := 9; ease_score := 6;
                    timeline_start := 0; timeline_duration := 8 |}]
        | _ :: _ =>
            [{| text := UseBestRatio opt; impact_score := 9; ease_score := 6;
                timeline_start := 0; timeline_duration := 8 |}]
            ++ [{| text := AdjustEachSubject advice; impact_score := 8;
                   ease_score := 5; timeline_start := 2; timeline_duration := 6 |}]
        end
        = {| text := UseBestRatio opt; impact_score := 9; ease_score := 6;
             timeline_start := 0; timeline_duration := 8 |} :: adj
        /\ (adj = []
            \/ adj = [{| text := AdjustEachSubject advice; impact_score := 8;
                         ease_score := 5; timeline_start := 2;
                         timeline_duration := 6 |}] /\ advice <> [])).
    { destruct advice as [|a l] eqn:Ea.
      - exists []. auto.
      - eexists. split; [reflexivity|]. right. split; [reflexivity|discriminate]. }
    destruct Hadj as (adj & Heq & Hadj). rewrite Heq in Hx. clear Heq.
    exists adj. destruct (1 <? Z.of_nat (List.length cls)) eqn:Elen.
    - apply Z.ltb_lt in Elen. inv_bind Hx. rename x0 into mn.
      inv_bind Hx. rename x0 into mx.
      destruct (Py.Qltb 3 (mx - mn)) eqn:Egap; inversion Hx; subst x; clear Hx.
      + exists [{| text := BalanceClassrooms mn mx; impact_score := 7;
                   ease_score := 3; timeline_start := 1; timeline_duration := 4 |}].
        split; [reflexivity|]. split; [exact Hadj|]. right. exists mn, mx.
        split; [reflexivity|]. apply Qltb_lt in Egap.
        apply min_of_In, filter_In in Hx0. destruct Hx0 as [_ Hpos].
        apply Qltb_lt in Hpos. repeat split; [exact Hpos | lra | exact Elen].
      + exists []. rewrite app_nil_r. auto.
    - inversion Hx; subst x. exists []. rewrite app_nil_r. auto. }
  destruct Hx' as (adj & bal & -> & Hadj & Hbal).
  destruct Hadj as [-> | [-> Hne]];
    destruct Hbal as [-> | (mn & mx & -> & Hmn & Hgap & Hlen)];
    destruct (Py.Qltb avg 80) eqn:Eu; try apply Qltb_lt in Eu;
    cbn [app map text hd_error last List.length];
    (split; [repeat constructor; cbn; lia|]);
    (split; [lia|]); (split; [reflexivity|]); (split; [reflexivity|]);
    (split; [|split]); intros; cbn [In] in *;
    repeat match goal with
           | H : _ \/ _ |- _ => destruct H
           | H : False |- _ => destruct H
           | H : @eq RecommendationText _ _ |- _ => inversion H; subst; clear H
           end;
    auto.
Qed.

Lemma update_classrooms_length (inp : AllocationRequest) (tpcs : dict (list Z))
  (rows : dict (list Q)) (indices : list Z) :
  forall (ta : list TeacherRecord) (cls : list ClassroomAllocation)
         (ta' : list TeacherRecord),
    update_classrooms inp tpcs rows indices ta = Ok (cls, ta') ->
    List.length cls = List.length indices.
Proof.
  induction indices as [|i indices IH]; intros ta cls ta' H;
    cbn [update_classrooms] in H.
  - now inversion H.
  - inv_bind H. destruct x as [c ta1]. inv_bind H. destruct x as [cs ta2].
    inversion H; subst. cbn [List.length]. f_equal. eapply IH; eauto.
Qed.

(** The recommendations of a returned result: between two and five of
    them, the first is the best-ratio recommendation with the result's
    [optimal_ratio] and the last the staffing plan; all scores lie between
    1 and 10; the advice on single subjects is sound (a reduction proposes
    a lower ratio, an increase a higher one for a positive ratio, neither
    by more than 20 %); a classroom-balance recommendation reports a
    positive minimum and a gap above 3, and an efficiency recommendation a
    utilization below 80. *)
Theorem recommendations_are_consistent
  (inp : AllocationRequest) (r : OptimizationResult) :
  valid_request inp ->
  optimize_teacher_allocation inp = Ok r ->
  Forall well_scored (recommendations r)
  /\ (2 <= List.length (recommendations r) <= 5)%nat
  /\ hd_error (map text (recommendations r)) = Some (UseBestRatio (optimal_ratio r))
  /\ last (map text (recommendations r)) PlanStaffing = PlanStaffing
  /\ (forall items, In (AdjustEachSubject items) (map text (recommendations r)) ->
                    items <> [] /\ Forall sound_advice items)
  /\ (forall mn mx, In (BalanceClassrooms mn mx) (map text (recommendations r)) ->
                    (0 < mn)%Q /\ (mn + 3 < mx)%Q /\ 1 < num_classrooms inp)
  /\ (forall u, In (UseTeachersEfficiently u) (map text (recommendations r)) ->
                (u < 80)%Q).
Proof.
  intros Hv Hrun. pose proof (optimal_ratio_lower _ _ Hv Hrun) as Hlow.
  pose proof (valid_ideal_ratio _ Hv) as Hideal.
  assert (Hhalf : (ideal_ratio inp / 2 == ideal_ratio inp * (1 # 2))%Q) by field.
  rewrite Hhalf in Hlow.
  unfold optimize_teacher_allocation in Hrun.
  inv_bind Hrun. rename x into tps. inv_bind Hrun. rename x into sps.
  inv_bind Hrun. rename x into sa. inv_bind Hrun. rename x into max_size.
  inv_bind Hrun. destruct x as [cls ta]. inv_bind Hrun. rename x into q.
  inv_bind Hrun. rename x into recs. inversion Hrun; subst r; clear Hrun.
  cbn [recommendations optimal_ratio] in *.
  assert (Hlen : List.length cls = Z.to_nat (num_classrooms inp)).
  { rewrite (update_classrooms_length _ _ _ _ _ _ _ Hx3), range_length.
    f_equal. lia. }
  destruct (generate_recommendations_texts _ _ _ _ _ _ Hx5)
    as (Hscores & Hcount & Hhd & Hlast & Hadj & Hbal & Hutil).
  split; [exact Hscores|]. split; [exact Hcount|]. split; [exact Hhd|].
  split; [exact Hlast|]. split; [|split].
  - intros items Hin. destruct (Hadj _ Hin) as [-> Hne]. split; [exact Hne|].
    apply subject_recommendations_sound. lra.
  - intros mn mx Hin. destruct (Hbal _ _ Hin) as (Hmn & Hgap & Hmany).
    rewrite Hlen in Hmany. repeat split; [exact Hmn | exact Hgap | lia].
  - exact Hutil.
Qed.

(** The request of the application's defaults: three recommendations, the
    first with the optimal ratio 12. *)
Lemma recommendations_are_consistent_witness :
  exists r,
    optimize_teacher_allocation request_school = Ok r
    /\ List.length (recommendations r) = 3%nat
    /\ (Forall well_scored (recommendations r)
        /\ (2 <= List.length (recommendations r) <= 5)%nat
        /\ hd_error (map text (recommendations r))
           = Some (UseBestRatio (optimal_ratio r))
        /\ last (map text (recommendations r)) PlanStaffing = PlanStaffing
        /\ (forall items,
               In (AdjustEachSubject items) (map text (recommendations r)) ->
               items <> [] /\ Forall sound_advice items)
        /\ (forall mn mx,
               In (BalanceClassrooms mn mx) (map text (recommendations r)) ->
               (0 < mn)%Q /\ (mn + 3 < mx)%Q /\ 1 < num_classrooms request_school)
        /\ (forall u,
               In (UseTeachersEfficiently u) (map text (recommendations r)) ->
               (u < 80)%Q)).
Proof.
  eexists. split; [evaluates|]. split; [evaluates|].
  apply (recommendations_are_consistent request_school).
  - valid_request_tac.
  - evaluates.
Defined.

(** * The shape of a returned result *)

(** ** One classroom *)

Lemma update_classroom_subjects (inp : AllocationRequest) (tpcs : dict (list Z))
  (rows : dict (list Q)) (i : Z) (names : list string) :
  forall (c : ClassroomAllocation) (ta : list TeacherRecord)
         (c' : ClassroomAllocation) (ta' : list TeacherRecord),
    update_classroom inp tpcs rows i names c ta = Ok (c', ta') ->
    NoDup (subjects c) ->
    NoDup (subjects c')
    /\ incl (subjects c') (subjects c ++ names)
    /\ classroom_ratio c' = classroom_ratio c.
Proof.
  induction names as [|s names IH]; intros c ta c' ta' Hrun Hnd;
    cbn [update_classroom] in Hrun.
  - inversion Hrun; subst. rewrite app_nil_r. repeat split; auto. apply incl_refl.
  - assert (Hweak : forall l, incl l (subjects c ++ names) ->
                              incl l (subjects c ++ s :: names)).
    { intros l Hl k Hk. specialize (Hl k Hk). apply in_app_or in Hl.
      apply in_or_app. cbn. tauto. }
    destruct (Dict.get s tpcs) as [tcs|].
    + inv_bind Hrun. inv_bind Hrun. inv_bind Hrun.
      destruct (_ || _).
      * apply IH in Hrun; cbn [subjects classroom_ratio] in Hrun |- *.
        -- destruct Hrun as (H1 & H2 & H3). repeat split; auto.
           intros k Hk. specialize (H2 k Hk). apply in_app_or in H2.
           apply in_or_app. destruct H2 as [H2|H2]; [|cbn; tauto].
           destruct (existsb _ _); [tauto|].
           apply in_app_or in H2. cbn in H2 |- *. tauto.
        -- destruct (existsb (String.eqb s) (subjects c)) eqn:E; [exact Hnd|].
           apply NoDup_app; [exact Hnd | repeat constructor; cbn; tauto |].
           intros k Hk [Heq|[]]. subst k.
           assert (existsb (String.eqb s) (subjects c) = true); [|congruence].
           apply existsb_exists. exists s. split; [exact Hk|apply String.eqb_refl].
      * apply IH in Hrun; [|exact Hnd]. destruct Hrun as (H1 & H2 & H3). auto.
    + apply IH in Hrun; [|exact Hnd]. destruct Hrun as (H1 & H2 & H3). auto.
Qed.

Lemma update_classroom_records (P : TeacherRecord -> Prop) (inp : AllocationRequest)
  (tpcs : dict (list Z)) (rows : dict (list Q)) (i : Z) (names : list string) :
  (forall s row t, In s names -> Dict.get s rows = Some row ->
                   Forall P (teacher_records inp s i t (nth (Z.to_nat i) row 0%Q))) ->
  forall (c : ClassroomAllocation) (ta : list TeacherRecord)
         (c' : ClassroomAllocation) (ta' : list TeacherRecord),
    update_classroom inp tpcs rows i names c ta = Ok (c', ta') ->
    Forall P ta -> Forall P ta'.
Proof.
  induction names as [|s names IH]; intros Hrec c ta c' ta' Hrun Hta;
    cbn [update_classroom] in Hrun.
  - now inversion Hrun; subst.
  - assert (Hrest : forall s' row t, In s' names -> Dict.get s' rows = Some row ->
               Forall P (teacher_records inp s' i t (nth (Z.to_nat i) row 0%Q)))
      by (intros; apply Hrec; [now right | assumption]).
    destruct (Dict.get s tpcs) as [tcs|]; [|eapply IH; eauto].
    inv_bind Hrun. rename x into t. inv_bind Hrun. rename x into row.
    inv_bind Hrun. rename x into cell. apply lookup_Ok in Hx0.
    destruct (_ || _); [|eapply IH; eauto].
    eapply IH; [exact Hrest | exact Hrun |].
    apply Forall_app. split; [exact Hta|].
    rewrite <- (index_nth _ _ _ 0%Q Hx1). apply Hrec; [now left | exact Hx0].
Qed.

(** ** All classrooms *)

Lemma update_classrooms_consistent (inp : AllocationRequest) (tpcs : dict (list Z))
  (rows : dict (list Q)) (indices : list Z) :
  forall (ta : list TeacherRecord) (cls : list ClassroomAllocation)
         (ta' : list TeacherRecord),
    update_classrooms inp tpcs rows indices ta = Ok (cls, ta') ->
    Forall
      (fun c =>
         classroom_ratio c
         = (if 0 <? teachers_assigned c
            then (students_assigned c / inject_Z (teachers_assigned c))%Q
            else 0%Q)
         /\ NoDup (subjects c)
         /\ incl (subjects c) (subject_names inp))
      cls.
Proof.
  induction indices as [|i indices IH]; intros ta cls ta' Hrun;
    cbn [update_classrooms] in Hrun.
  - inversion Hrun; subst. constructor.
  - inv_bind Hrun. destruct x as [c ta1]. inv_bind Hrun. destruct x as [cs ta2].
    inversion Hrun; subst; clear Hrun. constructor; [|eapply IH; eauto].
    apply update_classroom_subjects in Hx; [|constructor].
    destruct Hx as (Hnd & Hincl & _).
    cbn [with_ratio classroom_ratio teachers_assigned students_assigned subjects].
    auto.
Qed.

Lemma update_classrooms_records (P : TeacherRecord -> Prop) (inp : AllocationRequest)
  (tpcs : dict (list Z)) (rows : dict (list Q)) (indices : list Z) :
  (forall i s row t, In i indices -> In s (subject_names inp) ->
                     Dict.get s rows = Some row ->
                     Forall P (teacher_records inp s i t (nth (Z.to_nat i) row 0%Q))) ->
  forall (ta : list TeacherRecord) (cls : list ClassroomAllocation)
         (ta' : list TeacherRecord),
    update_classrooms inp tpcs rows indices ta = Ok (cls, ta') ->
    Forall P ta -> Forall P ta'.
Proof.
  induction indices as [|i indices IH]; intros Hrec ta cls ta' Hrun Hta;
    cbn [update_classrooms] in Hrun.
  - now inversion Hrun; subst.
  - inv_bind Hrun. destruct x as [c ta1]. inv_bind Hrun. destruct x as [cs ta2].
    inversion Hrun; subst; clear Hrun.
    eapply IH; [|exact Hx0|].
    + intros j s row t Hj. apply Hrec. now right.
    + eapply update_classroom_records; [|exact Hx|exact Hta].
      intros s row t. apply Hrec. now left.
Qed.

(** ** The records of one subject in one classroom *)

Lemma teacher_records_consistent (inp : AllocationRequest) (s : string) (i t : Z)
  (cell : Q) :
  In s (subject_names inp) ->
  0 <= i < num_classrooms inp ->
  Forall (teacher_record_consistent inp) (teacher_records inp s i t cell).
Proof.
  intros Hs Hi. unfold teacher_records. apply Forall_forall. intros rec Hin.
  apply in_map_iff in Hin. destruct Hin as (t_idx & <- & _).
  unfold teacher_record_consistent.
  cbn [subject classroom utilization teacher_students_assigned].
  repeat split; try assumption; lia.
Qed.

Lemma teacher_records_at_least_one (inp : AllocationRequest) (s : string) (i t : Z)
  (cell : Q) :
  (0 <= cell)%Q ->
  Forall (fun rec => (1 <= teacher_students_assigned rec)%Q)
    (teacher_records inp s i t cell).
Proof.
  intros Hcell. unfold teacher_records. apply Forall_forall. intros rec Hin.
  apply in_map_iff in Hin. destruct Hin as (t_idx & <- & Hidx).
  apply in_range_iff in Hidx. cbn [teacher_students_assigned].
  replace (0 <? t) with true by (symmetry; apply Z.ltb_lt; lia).
  assert (Hbase : (0 <= Py.floordiv cell t)%Q).
  { unfold Py.floordiv. apply inject_Z_nonneg.
    change 0 with (Qfloor 0). apply Qfloor_resp_le.
    apply Qle_shift_div_l.
    - change 0%Q with (inject_Z 0). rewrite <- Zlt_Qlt. lia.
    - now rewrite Qmult_0_l. }
  set (base := Py.floordiv cell t) in *.
  set (share := if Py.Qltb (inject_Z t_idx) (Py.fmod cell t) then (base + 1)%Q else base).
  assert (Hshare : (0 <= share)%Q) by (subst share; destruct (Py.Qltb _ _); lra).
  set (rounded := Py.zmax 1 _).
  assert (Hrounded : (1 <= inject_Z rounded)%Q).
  { change 1%Q with (inject_Z 1). rewrite <- Zle_Qle. subst rounded.
    unfold Py.zmax. destruct (1 <? _) eqn:E; [apply Z.ltb_lt in E|]; lia. }
  destruct (Py.Qltb (share + 2) (inject_Z rounded)) eqn:E1.
  - destruct (Py.Qltb (share + 2) (share - 2)) eqn:E2;
      [apply Qltb_lt in E2|]; lra.
  - destruct (Py.Qltb (inject_Z rounded) (share - 2)) eqn:E2;
      [apply Qltb_lt in E2|]; lra.
Qed.

(** ** The result *)

Lemma students_of_result_nonneg (inp : AllocationRequest) (tps sps : dict Z)
  (sa : dict SubjectAllocation) :
  valid_request inp ->
  teachers_per_subject inp = Ok tps ->
  students_per_subject inp tps = Ok sps ->
  init_subject_allocation (subject_names inp) tps sps [] = Ok sa ->
  Forall (fun e => 0 <= students_allocated (snd e)) sa ->
  Forall (fun e => 0 <= snd e) sps.
Proof.
  intros Hv Ht Hs Ha Hpos.
  destruct (result_keys _ _ _ _ Hv Ht Hs Ha) as (Hnd & Hks & HP & Hsa).
  assert (Hnds : NoDup (Dict.keys sps)) by now rewrite Hks.
  apply Forall_forall. intros [k v] Hin. cbn [snd].
  assert (Hk : In k (subject_names inp)).
  { apply (Permutation_in _ (Permutation_sym HP)). rewrite <- Hks.
    change k with (fst (k, v)). now apply in_map. }
  rewrite Hsa, Forall_forall in Hpos.
  specialize (Hpos _ (in_map _ _ _ Hk)).
  cbn [snd entry_of students_allocated] in Hpos.
  now rewrite (get_default_get _ _ _ _ (NoDup_In_get _ _ _ Hnds Hin)) in Hpos.
Qed.

(** A returned result has one entry per listed subject, in the order of
    [subject_names], and one classroom per index; the ratio of each entry
    and of each classroom is its students per teacher (0 without
    teachers); a classroom names listed subjects, each once. *)
Theorem result_is_consistent (inp : AllocationRequest) (r : OptimizationResult) :
  valid_request inp ->
  optimize_teacher_allocation inp = Ok r ->
  Dict.keys (subject_allocation r) = subject_names inp
  /\ Forall (fun e => subject_entry_consistent (snd e)) (subject_allocation r)
  /\ List.length (classroom_allocation r) = Z.to_nat (num_classrooms inp)
  /\ Forall (classroom_consistent inp) (classroom_allocation r).
Proof.
  intros Hv Hrun. destruct (records_of_result _ _ Hv Hrun)
    as (tps' & Hnd' & HP' & Hpos' & _ & Hcs & _).
  apply optimize_Ok in Hrun.
  destruct Hrun as (tps & sps & max_size & Ht & Hs & Ha & Hc & Hcls & _).
  destruct (result_keys _ _ _ _ Hv Ht Hs Ha) as (Hnd & Hks & HP & Hsa).
  pose proof (valid_classrooms _ Hv) as Hn.
  split; [|split; [|split]].
  - rewrite Hsa. unfold Dict.keys. rewrite map_map. apply map_id.
  - rewrite Hsa. apply Forall_forall. intros e He. apply in_map_iff in He.
    destruct He as (s & <- & _). reflexivity.
  - rewrite (update_classrooms_length _ _ _ _ _ _ _ Hcls), range_length.
    f_equal. lia.
  - pose proof (update_classrooms_consistent _ _ _ _ _ _ _ Hcls) as Hall.
    assert (Hteachers : Forall (fun t => 0 <= t)
                          (map teachers_assigned (classroom_allocation r))).
    { rewrite Hcs. apply Forall_forall. intros t Hin. apply in_map_iff in Hin.
      destruct Hin as (i & <- & _). apply sum_nonneg. apply Forall_forall.
      intros x Hx. apply in_map_iff in Hx. destruct Hx as (s & <- & Hs').
      rewrite teachers_in_cases; [|exact Hnd' | eapply Permutation_in; eauto].
      pose proof (teacher_counts_entries (num_classrooms inp)
                    (Dict.get_default s 0 tps') (Z.to_nat i) Hn
                    (get_default_nonneg _ _ Hpos')).
      destruct (_ =? 0); lia. }
    rewrite Forall_map in Hteachers.
    rewrite Forall_forall in Hall, Hteachers |- *. intros c Hin.
    destruct (Hall c Hin) as (H1 & H2 & H3). unfold classroom_consistent.
    repeat split; auto.
Qed.

(** The request of the application's defaults: five subject entries and
    twenty classrooms. *)
Lemma result_is_consistent_witness :
  exists r,
    optimize_teacher_allocation request_school = Ok r
    /\ Dict.keys (subject_allocation r) = subject_names request_school
    /\ Forall (fun e => subject_entry_consistent (snd e)) (subject_allocation r)
    /\ List.length (classroom_allocation r) = Z.to_nat (num_classrooms request_school)
    /\ Forall (classroom_consistent request_school) (classroom_allocation r).
Proof.
  eexists. split; [evaluates|].
  apply (result_is_consistent request_school).
  - valid_request_tac.
  - evaluates.
Defined.

(** Each teacher record of a returned result names a listed subject and a
    classroom between 1 and [num_classrooms], and its utilization is its
    students over [max_students_per_teacher] in percent; when no subject
    has a negative student count, each record holds at least one student,
    whatever the number of students of its subject in the classroom. *)
Theorem teacher_records_are_consistent
  (inp : AllocationRequest) (r : OptimizationResult) :
  valid_request inp ->
  optimize_teacher_allocation inp = Ok r ->
  Forall (teacher_record_consistent inp) (teacher_allocation r)
  /\ (Forall (fun e => 0 <= students_allocated (snd e)) (subject_allocation r) ->
      Forall (fun rec => (1 <= teacher_students_assigned rec)%Q)
        (teacher_allocation r)).
Proof.
  intros Hv Hrun. apply optimize_Ok in Hrun.
  destruct Hrun as (tps & sps & max_size & Ht & Hs & Ha & Hc & Hcls & _).
  destruct (result_keys _ _ _ _ Hv Ht Hs Ha) as (Hnd & Hks & HP & Hsa).
  pose proof (valid_classrooms _ Hv) as Hn.
  split.
  - eapply update_classrooms_records; [|exact Hcls|constructor].
    intros i s row t Hi Hin _. apply in_range_iff in Hi.
    now apply teacher_records_consistent.
  - intros Hpos.
    pose proof (students_of_result_nonneg _ _ _ _ Hv Ht Hs Ha Hpos) as Hsps.
    assert (Hnds : NoDup (Dict.keys sps)) by now rewrite Hks.
    destruct (students_per_classroom_subject_spec (num_classrooms inp) max_size
                (total_teachers inp) tps sps ltac:(lia)
                (capacity_ceiling_nonneg _ _ Hv Hc) Hnds Hsps)
      as ((_ & _ & Hrows) & _).
    eapply update_classrooms_records; [|exact Hcls|constructor].
    intros i s row t Hi Hin Hrow. apply teacher_records_at_least_one.
    pose proof (Forall_values_get
                  (fun row => List.length row = Z.to_nat (num_classrooms inp)
                              /\ Forall (fun c => (0 <= c)%Q) row)
                  _ _ _ Hrows Hrow) as [_ Hcells].
    destruct (nth_in_or_default (Z.to_nat i) row 0%Q) as [Hcell | ->];
      [|discriminate].
    rewrite Forall_forall in Hcells. exact (Hcells _ Hcell).
Qed.

(** One teacher for subject A and none for subject B: one record is
    returned, for subject A in classroom 1. *)
Lemma teacher_records_are_consistent_witness :
  exists r,
    optimize_teacher_allocation request_no_teacher_subject = Ok r
    /\ List.length (teacher_allocation r) = 1%nat
    /\ (Forall (teacher_record_consistent request_no_teacher_subject)
          (teacher_allocation r)
        /\ (Forall (fun e => 0 <= students_allocated (snd e)) (subject_allocation r) ->
            Forall (fun rec => (1 <= teacher_students_assigned rec)%Q)
              (teacher_allocation r))).
Proof.
  eexists. split; [evaluates|]. split; [evaluates|].
  apply (teacher_records_are_consistent request_no_teacher_subject).
  - valid_request_tac.
  - evaluates.
Defined.

(** * The input page *)

(** ** The dictionaries of the form *)

Lemma get_app_fresh {V} (k : string) (l1 l2 : dict V) :
  ~ In k (Dict.keys l1) -> Dict.get k (l1 ++ l2) = Dict.get k l2.
Proof.
  induction l1 as [|[k1 v1] l1 IH]; cbn; [reflexivity|]. intros Hout.
  destruct (String.eqb k k1) eqn:E.
  - apply String.eqb_eq in E. subst. tauto.
  - apply IH. tauto.
Qed.

Lemma set_app_fresh {V} (k : string) (v v' : V) (l1 l2 : dict V) :
  ~ In k (Dict.keys l1) ->
  Dict.set k v' (l1 ++ (k, v) :: l2) = l1 ++ (k, v') :: l2.
Proof.
  induction l1 as [|[k1 v1] l1 IH]; cbn; intros Hout.
  - now rewrite String.eqb_refl.
  - destruct (String.eqb k k1) eqn:E.
    + apply String.eqb_eq in E. subst. tauto.
    + f_equal. apply IH. tauto.
Qed.

Lemma subject_dictionaries_spec (forms : list App.SubjectForm) :
  NoDup (map App.name forms) ->
  App.subject_dictionaries forms
  = (map App.name forms,
     map (fun f => (App.name f, App.difficulty f)) forms,
     map (fun f => (App.name f, inject_Z (App.percentage f))) forms).
Proof.
  unfold App.subject_dictionaries.
  enough (H : forall (names : list string) (sd : dict Z) (td : dict Q),
             Dict.keys sd = names -> Dict.keys td = names ->
             NoDup (names ++ map App.name forms) ->
             fold_left
               (fun acc f =>
                  let '(subject_names, subject_difficulties, teacher_distribution) :=
                    acc in
                  (subject_names ++ [App.name f],
                   Dict.set (App.name f) (App.difficulty f) subject_difficulties,
                   Dict.set (App.name f) (inject_Z (App.percentage f))
                     teacher_distribution))
               forms (names, sd, td)
             = (names ++ map App.name forms,
                sd ++ map (fun f => (App.name f, App.difficulty f)) forms,
                td ++ map (fun f => (App.name f, inject_Z (App.percentage f))) forms))
    by (intros Hnd; apply (H [] [] []); auto).
  induction forms as [|f forms IH]; intros names sd td Hsd Htd Hnd;
    cbn [fold_left map].
  - now rewrite !app_nil_r.
  - cbn [map] in Hnd.
    assert (Hout : ~ In (App.name f) names).
    { intros Hin. apply NoDup_remove_2 in Hnd. apply Hnd.
      apply in_or_app. now left. }
    rewrite !set_fresh by (rewrite ?Hsd, ?Htd; exact Hout).
    rewrite IH.
    + now rewrite <- !app_assoc.
    + unfold Dict.keys. rewrite map_app. cbn. now rewrite <- Hsd.
    + unfold Dict.keys. rewrite map_app. cbn. now rewrite <- Htd.
    + now rewrite <- app_assoc.
Qed.

(** ** The normalisation *)

Lemma normalize_spec (total : Q) (l2 : dict Q) :
  ~ (total == 0)%Q ->
  forall l1 : dict Q,
    NoDup (Dict.keys (l1 ++ l2)) ->
    App.normalize (Dict.keys l2) total (l1 ++ l2)
    = Ok (l1 ++ map (fun e => (fst e, (snd e / total * 100)%Q)) l2).
Proof.
  intros Htotal. induction l2 as [|[k v] l2 IH]; intros l1 Hnd;
    cbn [Dict.keys map App.normalize fst snd].
  - reflexivity.
  - assert (Hout : ~ In k (Dict.keys l1)).
    { unfold Dict.keys in *. rewrite map_app in Hnd. cbn [map fst] in Hnd.
      intros Hin. apply NoDup_remove_2 in Hnd. apply Hnd.
      apply in_or_app. now left. }
    unfold Dict.lookup. rewrite (get_app_fresh _ _ _ Hout). cbn [Dict.get].
    rewrite String.eqb_refl. cbn [bind]. unfold Py.div.
    destruct (Qeq_bool total 0) eqn:E; [apply Qeq_bool_iff in E; contradiction|].
    cbn [bind]. rewrite (set_app_fresh _ _ _ _ _ Hout).
    change (l1 ++ (k, (v / total * 100)%Q) :: l2)
      with (l1 ++ [(k, (v / total * 100)%Q)] ++ l2).
    rewrite app_assoc. fold (Dict.keys l2). rewrite IH.
    + now rewrite <- app_assoc.
    + rewrite <- app_assoc. cbn [app]. unfold Dict.keys in *.
      rewrite map_app in *. exact Hnd.
Qed.

Lemma fsum_scaled (total : Q) (l : list Q) :
  ~ (total == 0)%Q ->
  (Py.fsum (map (fun x => x / total * 100) l) == Py.fsum l / total * 100)%Q.
Proof.
  intros Htotal. induction l as [|x l IH]; cbn [map].
  - change (Py.fsum []) with 0%Q. field. exact Htotal.
  - rewrite !fsum_cons, IH. field. exact Htotal.
Qed.

Lemma fsum_at_least (l : list Q) :
  Forall (fun x => (1 <= x)%Q) l -> l <> [] -> (1 <= Py.fsum l)%Q.
Proof.
  induction 1 as [|x l Hx Hl IH]; intros Hne; [contradiction|].
  rewrite fsum_cons. destruct l as [|y l].
  - change (Py.fsum []) with 0%Q. lra.
  - assert (1 <= Py.fsum (y :: l))%Q by (apply IH; discriminate). lra.
Qed.

Lemma normalized_spec (td : dict Q) :
  NoDup (Dict.keys td) ->
  Forall (fun e => (1 <= snd e)%Q) td ->
  td <> [] ->
  exists td',
    App.normalized td = Ok td'
    /\ Dict.keys td' = Dict.keys td
    /\ List.length td' = List.length td
    /\ Forall (fun e => (0 <= snd e)%Q) td'
    /\ (Py.fsum (Dict.values td') == 100)%Q.
Proof.
  intros Hnd Hpos Hne. unfold App.normalized.
  assert (Htotal : (1 <= Py.fsum (Dict.values td))%Q).
  { apply fsum_at_least.
    - unfold Dict.values. now apply Forall_map.
    - destruct td; [contradiction|discriminate]. }
  destruct (Qeq_bool (Py.fsum (Dict.values td)) 100) eqn:E; cbn [negb].
  - apply Qeq_bool_iff in E. exists td. repeat split; auto.
    eapply Forall_impl; [|exact Hpos]. cbn. intros e He. lra.
  - assert (Hnz : ~ (Py.fsum (Dict.values td) == 0)%Q) by lra.
    pose proof (normalize_spec _ td Hnz [] Hnd) as Hrun. cbn [app] in Hrun.
    rewrite Hrun.
    eexists. split; [reflexivity|].
    split; [unfold Dict.keys; rewrite map_map; reflexivity|].
    split; [apply length_map|]. split.
    + apply Forall_map. eapply Forall_impl; [|exact Hpos]. cbn. intros e He.
      apply Qmult_le_0_compat; [|discriminate].
      apply Qle_shift_div_l; lra.
    + unfold Dict.values. rewrite map_map. cbn [snd].
      rewrite <- (map_map snd (fun x => (x / Py.fsum (map snd td) * 100)%Q)).
      rewrite fsum_scaled by exact Hnz. field. exact Hnz.
Qed.

(** ** The request of the page *)

Lemma input_data_spec (S T n : Z) (forms : list App.SubjectForm) :
  App.widgets_in_range S T n forms ->
  NoDup (map App.name forms) ->
  exists inp,
    App.input_data S T n forms = Ok inp
    /\ total_students inp = S /\ total_teachers inp = T /\ num_classrooms inp = n
    /\ subject_names inp = map App.name forms
    /\ Dict.keys (teacher_distribution inp) = map App.name forms
    /\ subject_difficulties inp
       = map (fun f => (App.name f, App.difficulty f)) forms
    /\ valid_request inp
    /\ complete_request inp
    /\ (Py.fsum (Dict.values (teacher_distribution inp)) == 100)%Q.
Proof.
  intros Hr Hnd. destruct Hr as [HS HT Hn Hlen Hsl].
  unfold App.input_data. rewrite (subject_dictionaries_spec _ Hnd).
  set (td := map (fun f => (App.name f, inject_Z (App.percentage f))) forms).
  assert (Hk : Dict.keys td = map App.name forms)
    by (unfold td, Dict.keys; now rewrite map_map).
  assert (Hkd : Dict.keys (map (fun f => (App.name f, App.difficulty f)) forms)
                = map App.name forms)
    by (unfold Dict.keys; now rewrite map_map).
  destruct (normalized_spec td) as (td' & -> & Hk' & Hlen' & Hpos' & Hsum).
  - now rewrite Hk.
  - unfold td. apply Forall_map. eapply Forall_impl; [|exact Hsl].
    cbn. intros f [_ Hf]. change 1%Q with (inject_Z 1). rewrite <- Zle_Qle. lia.
  - unfold td. destruct forms; [cbn in Hlen; lia | discriminate].
  - cbn [bind]. eexists. split; [reflexivity|].
    cbn [total_students total_teachers num_classrooms subject_names
         teacher_distribution subject_difficulties].
    split; [reflexivity|]. split; [reflexivity|]. split; [reflexivity|].
    split; [reflexivity|]. split; [now rewrite Hk', Hk|]. split; [reflexivity|].
    split; [|split; [|exact Hsum]].
    + constructor;
        cbn [total_students total_teachers num_classrooms subject_names
             teacher_distribution subject_difficulties ideal_ratio max_class_size];
        try lia; try reflexivity; try assumption.
      * apply Forall_map. eapply Forall_impl; [|exact Hsl]. cbn. tauto.
      * rewrite Hkd. split; [exact Hnd | apply incl_refl].
      * rewrite Hk', Hk. split; [exact Hnd | apply incl_refl].
    + unfold complete_request.
      cbn [subject_names teacher_distribution subject_difficulties].
      rewrite Hkd, Hk', Hk. split; apply incl_refl.
Qed.



(** For widget values within their ranges and distinct subject names, a
    press of the button either returns a result, with one entry per
    subject of the form and with at least [total_teachers] teachers
    allocated (at most half a teacher per subject more), or raises
    [ValueError], which needs more than one classroom. *)
Theorem input_page_outcome (S T n : Z) (forms : list App.SubjectForm) :
  App.widgets_in_range S T n forms ->
  NoDup (map App.name forms) ->
  (exists r,
     App.show_input_page S T n forms = Ok r
     /\ Dict.keys (subject_allocation r) = map App.name forms
     /\ T <= total_teachers_allocated r
     /\ 2 * (total_teachers_allocated r - T) <= Z.of_nat (List.length forms))
  \/ (App.show_input_page S T n forms = Raise ValueError /\ 1 < n).
Proof.
  intros Hr Hnd. destruct (input_data_spec S T n forms Hr Hnd)
    as (inp & Hrun & HS & HT & Hn & Hnames & Hkeys & Hsd & Hv & Hc & Hsum).
  unfold App.show_input_page. rewrite Hrun. cbn [bind]. unfold Py.div.
  destruct (Qeq_bool (inject_Z T) 0) eqn:E.
  { apply Qeq_bool_iff in E. unfold Qeq in E. cbn in E.
    pose proof (App.teachers_in_range _ _ _ _ Hr). lia. }
  cbn [bind].
  destruct (optimize_reaches_recommendations inp Hv Hc)
    as (sa & q & ta & cls & Hlen & Hrun').
  destruct (generate_recommendations_outcome inp q ta cls sa)
    as [[recs Hrecs] | (Hrecs & Hmany & _)]; rewrite Hrecs in Hrun'; cbn [bind] in Hrun'.
  - left. eexists. split; [exact Hrun'|]. pose proof Hrun' as Hok.
    apply optimize_Ok in Hok. cbn [subject_allocation] in Hok |- *.
    destruct Hok as (tps & sps & max_size & Ht & Hs & Ha & _).
    destruct (result_keys _ _ _ _ Hv Ht Hs Ha) as (Hndk & _ & HP & Hsa).
    split.
    + rewrite Hsa, Hnames. unfold Dict.keys. rewrite map_map. apply map_id.
    + unfold total_teachers_allocated. cbn [subject_allocation].
      rewrite Hsa, subject_allocation_teachers.
      rewrite sum_over_names by assumption.
      replace (Z.of_nat (List.length forms))
        with (Z.of_nat (List.length (teacher_distribution inp))).
      * rewrite <- HT. apply normalised_teachers_sum; auto.
        -- exact (proj1 (valid_distribution_keys _ Hv)).
        -- exact (proj1 (valid_difficulty_keys _ Hv)).
        -- rewrite Hsd, length_map.
           rewrite <- (length_map fst (teacher_distribution inp)).
           change (map fst (teacher_distribution inp))
             with (Dict.keys (teacher_distribution inp)).
           rewrite Hkeys, length_map. lia.
      * rewrite <- (length_map fst (teacher_distribution inp)).
        change (map fst (teacher_distribution inp))
          with (Dict.keys (teacher_distribution inp)).
        now rewrite Hkeys, length_map.
  - right. split; [exact Hrun'|]. rewrite Hlen, Hn in Hmany.
    pose proof (App.classrooms_in_range _ _ _ _ Hr). lia.
Qed.

(** Sliders at 50, 30 and 50 percent and ten teachers: the normalised
    shares round to 4, 2 and 4, and the ten teachers are allocated. *)
Lemma input_page_outcome_witness :
  (exists r,
     App.show_input_page 100 10 2 App.three_subjects = Ok r
     /\ map (fun e => teachers_allocated (snd e)) (subject_allocation r) = [4; 2; 4])
  /\ ((exists r,
         App.show_input_page 100 10 2 App.three_subjects = Ok r
         /\ Dict.keys (subject_allocation r) = map App.name App.three_subjects
         /\ 10 <= total_teachers_allocated r
         /\ 2 * (total_teachers_allocated r - 10)
            <= Z.of_nat (List.length App.three_subjects))
      \/ (App.show_input_page 100 10 2 App.three_subjects = Raise ValueError
          /\ 1 < 2)).
Proof.
  split; [eexists; split; evaluates|].
  apply (input_page_outcome 100 10 2 App.three_subjects).
  - constructor; cbn; try lia. repeat constructor; cbn; lia.
  - cbn. repeat constructor; cbn; intuition discriminate.
Defined.

(** * The classrooms never hold more than the staffed subjects' students *)

(** ** One row *)



(** ** All rows *)


(** ** Sums over classrooms and subjects *)







(** * What a returned result requires of the request *)

Lemma initial_students_lookups (S : Z) (isr : dict Q) (items : list (string * Z)) :
  forall (sps : dict Z) (rem : Z) (out : dict Z * Z),
    initial_students S isr items sps rem = Ok out ->
    forall s t, In (s, t) items -> 0 < t -> In s (Dict.keys isr).
Proof.
  induction items as [|[k c] items IH]; intros sps rem out Hrun s t Hin Ht;
    cbn [initial_students] in Hrun; [destruct Hin|].
  inv_bind Hrun. destruct Hin as [Heq|Hin].
  - inversion Heq; subst k c. apply Z.ltb_lt in Ht. rewrite Ht in Hx.
    inv_bind Hx. apply lookup_Ok in Hx0. eapply get_In_keys; eauto.
  - eapply IH; eauto.
Qed.

(** A call returns only if every listed subject has a percentage and
    every subject that is allocated a teacher has a difficulty; on any
    other valid request it raises. *)
Theorem returned_result_requires_keys
  (inp : AllocationRequest) (r : OptimizationResult) :
  valid_request inp ->
  optimize_teacher_allocation inp = Ok r ->
  incl (subject_names inp) (Dict.keys (teacher_distribution inp))
  /\ (forall s e, Dict.get s (subject_allocation r) = Some e ->
                  0 < teachers_allocated e ->
                  In s (Dict.keys (subject_difficulties inp))).
Proof.
  intros Hv Hrun. apply optimize_Ok in Hrun.
  destruct Hrun as (tps & sps & max_size & Ht & Hs & Ha & _).
  destruct (result_keys _ _ _ _ Hv Ht Hs Ha) as (Hnd & Hks & HP & Hsa).
  pose proof (teachers_per_subject_keeps _ _ Ht) as [Hk _].
  rewrite initial_teachers_keys in Hk by exact (proj1 (valid_distribution_keys _ Hv)).
  split.
  - intros s Hin. rewrite <- Hk. eapply Permutation_in; eauto.
  - intros s e He Hpos. rewrite Hsa in He. apply get_map_names in He.
    destruct He as [Hin ->]. cbn [entry_of teachers_allocated] in Hpos.
    destruct (In_keys_get s tps) as [c Hget]; [eapply Permutation_in; eauto|].
    rewrite (get_default_get _ _ _ _ Hget) in Hpos.
    destruct (students_per_subject_steps _ _ _ Hs) as (sps0 & rem0 & _ & _ & H0 & _).
    rewrite <- (ideal_subject_ratios_keys inp (proj1 (valid_difficulty_keys _ Hv))).
    eapply initial_students_lookups; eauto. now apply get_In.
Qed.

(** A subject with 0 % of the teachers and no difficulty: the call
    returns, and the subject that holds the teacher has a difficulty. *)
Lemma returned_result_requires_keys_witness :
  exists r,
    optimize_teacher_allocation request_unstaffed_without_difficulty = Ok r
    /\ incl (subject_names request_unstaffed_without_difficulty)
         (Dict.keys (teacher_distribution request_unstaffed_without_difficulty))
    /\ (forall s e,
           Dict.get s (subject_allocation r) = Some e ->
           0 < teachers_allocated e ->
           In s (Dict.keys (subject_difficulties request_unstaffed_without_difficulty))).
Proof.
  eexists. split; [evaluates|].
  apply (returned_result_requires_keys request_unstaffed_without_difficulty).
  - valid_request_tac.
  - evaluates.
Defined.
(** * Students in the classrooms and in the subjects *)




(** * Binary64: the optimal ratio *)

(** ** The literals and some known values *)

(** The literals of the source are the floats nearest to their decimals. *)
Lemma binary64_literals :
  B64.of_Q (85 # 100) = B64.c0_85 /\ B64.of_Q (115 # 100) = B64.c1_15
  /\ B64.of_Q 1 = B64.c1_0 /\ B64.of_Q (9 # 10) = B64.c0_9
  /\ B64.of_Q (12 # 10) = B64.c1_2 /\ B64.of_Q (8 # 10) = B64.c0_8
  /\ B64.of_Q 2 = B64.c2 /\ B64.of_Q 100 = B64.c100.
Proof. repeat split; reflexivity. Qed.

(** [0.1 + 0.2] is [0.30000000000000004] and not [0.3]; [float(2**53 + 1)]
    is [2.0**53]; [round(2.5)] is 2 and [round(3.5)] is 4; an int of 1025
    bits is too large for a float. *)
Lemma binary64_known_values :
  B64.add (B64.of_Q (1 # 10)) (B64.of_Q (2 # 10))
  = B64.of_Q (30000000000000004 # 100000000000000000)
  /\ B64.add (B64.of_Q (1 # 10)) (B64.of_Q (2 # 10)) <> B64.of_Q (3 # 10)
  /\ B64.of_int (2 ^ 53 + 1) = B64.of_int (2 ^ 53)
  /\ B64.round (B64.of_Q (5 # 2)) = Ok 2
  /\ B64.round (B64.of_Q (7 # 2)) = Ok 4
  /\ B64.of_int (2 ^ 1024) = Raise OverflowError.
Proof.
  split; [evaluates|]. split; [vm_compute; discriminate|].
  split; [evaluates|]. split; [evaluates|]. split; evaluates.
Qed.

(** ** The sign of a weighted sum *)

(** ** Shifts and digits *)

Lemma digits2_pos_size (m : positive) : digits2_pos m = Pos.size m.
Proof. induction m; cbn; congruence. Qed.

Lemma digits2_pos_bounds (m : positive) :
  2 ^ (Zpos (digits2_pos m) - 1) <= Zpos m < 2 ^ Zpos (digits2_pos m).
Proof.
  rewrite digits2_pos_size.
  pose proof (Pos.size_gt m) as Hgt. pose proof (Pos.size_le m) as Hle.
  apply Pos2Z.pos_lt_pos in Hgt. apply Pos2Z.pos_le_pos in Hle.
  rewrite Pos2Z.inj_pow in Hgt, Hle.
  split; [|exact Hgt].
  replace (Zpos (Pos.size m)) with (Zpos (Pos.size m) - 1 + 1) in Hle by lia.
  rewrite Z.pow_add_r in Hle by lia. rewrite Z.pow_1_r in Hle. lia.
Qed.

Lemma shr_1_m (r : shr_record) :
  shr_m (shr_1 r) = Z.div2 (shr_m r) \/ shr_m r < 0.
Proof.
  destruct r as [m r s]. cbn. destruct m as [|[p|p|]|p]; cbn; auto; right; lia.
Qed.

Lemma pow2_xO (p : positive) : 2 ^ Zpos p~0 = 2 ^ Zpos p * 2 ^ Zpos p.
Proof. rewrite <- Z.pow_add_r by lia. f_equal. lia. Qed.

Lemma pow2_xI (p : positive) : 2 ^ Zpos p~1 = 2 * (2 ^ Zpos p * 2 ^ Zpos p).
Proof.
  rewrite <- Z.pow_add_r, <- Z.pow_succ_r by lia. f_equal. lia.
Qed.

(** [p] right shifts of a mantissa that is not negative divide it by
    [2 ^ p]. *)
Lemma iter_shr_1_m (p : positive) :
  forall r, 0 <= shr_m r -> shr_m (iter_pos shr_1 p r) = shr_m r / 2 ^ Zpos p.
Proof.
  assert (H1 : forall r, 0 <= shr_m r -> shr_m (shr_1 r) = shr_m r / 2).
  { intros r Hr. destruct (shr_1_m r) as [E|E]; [|lia]. now rewrite E, Z.div2_div. }
  induction p as [p IH|p IH|]; intros r Hr; cbn [iter_pos];
    try (assert (Hpow : 0 < 2 ^ Zpos p) by (apply Z.pow_pos_nonneg; lia)).
  - assert (H0 : 0 <= shr_m (shr_1 r)) by (rewrite H1 by exact Hr; apply Z.div_pos; lia).
    assert (H2 : 0 <= shr_m (iter_pos shr_1 p (shr_1 r)))
      by (rewrite IH by exact H0; apply Z.div_pos; lia).
    rewrite IH by exact H2. rewrite IH by exact H0. rewrite H1 by exact Hr.
    rewrite !Z.div_div by lia. rewrite pow2_xI. f_equal; ring.
  - assert (H2 : 0 <= shr_m (iter_pos shr_1 p r))
      by (rewrite IH by exact Hr; apply Z.div_pos; lia).
    rewrite IH by exact H2. rewrite IH by exact Hr.
    rewrite Z.div_div by lia. now rewrite pow2_xO.
  - rewrite H1 by exact Hr. reflexivity.
Qed.

(** ** Rounding a positive mantissa *)

Lemma positive_weaken (k k' : Z) (x : B64.float) :
  k <= k' -> B64.positive k' x -> B64.positive k x.
Proof.
  intros Hk. destruct x as [s|s| |s m e]; cbn; auto. destruct s; [auto|lia].
Qed.

Lemma shr_fexp_unchanged (m : positive) (e : Z) :
  fexp B64.prec B64.emax (Zpos (digits2_pos m) + e) - e <= 0 ->
  shr_fexp B64.prec B64.emax (Zpos m) e loc_Exact
  = ({| shr_m := Zpos m; shr_r := false; shr_s := false |}, e).
Proof.
  intros H. unfold shr_fexp. cbn [Zdigits2 shr_record_of_loc].
  unfold shr. destruct (fexp _ _ _ - e); [reflexivity|lia|reflexivity].
Qed.

(** Above the smallest exponent a positive mantissa does not round to
    zero, and rounding does not lower the exponent. *)
Lemma binary_round_aux_positive (m : positive) (e : Z) :
  emin B64.prec B64.emax <= e ->
  B64.positive e (binary_round_aux B64.prec B64.emax false (Zpos m) e loc_Exact).
Proof.
  intros He. unfold binary_round_aux.
  pose proof (digits2_pos_bounds m) as Hd.
  set (d := Zpos (digits2_pos m)) in *.
  destruct (Z_le_gt_dec (fexp B64.prec B64.emax (d + e) - e) 0) as [Hn|Hn].
  - rewrite (shr_fexp_unchanged m e Hn). cbn [shr_m loc_of_shr_record round_nearest_even].
    rewrite (shr_fexp_unchanged m e Hn). cbn [shr_m].
    destruct (e <=? B64.emax - B64.prec); cbn; lia.
  - unfold shr_fexp at 1. cbn [Zdigits2 shr_record_of_loc]. fold d.
    assert (Hshift : fexp B64.prec B64.emax (d + e) - e = d - B64.prec).
    { unfold fexp, emin, B64.prec, B64.emax in *. lia. }
    rewrite Hshift in *. unfold shr.
    destruct (d - B64.prec) as [|p|p] eqn:Ep; try lia.
    set (r0 := {| shr_m := Zpos m; shr_r := false; shr_s := false |}).
    pose proof (iter_shr_1_m p r0 ltac:(cbn; lia)) as Hk. cbn [shr_m r0] in Hk.
    set (r1 := iter_pos shr_1 p r0) in *.
    assert (Hpow : 2 ^ d = 2 ^ Zpos p * 2 ^ 53).
    { rewrite <- Z.pow_add_r by lia. f_equal. unfold B64.prec in Ep. lia. }
    assert (Hpow' : 2 ^ (d - 1) = 2 ^ Zpos p * 2 ^ 52).
    { rewrite <- Z.pow_add_r by lia. f_equal. unfold B64.prec in Ep. lia. }
    assert (H2p : 0 < 2 ^ Zpos p) by (apply Z.pow_pos_nonneg; lia).
    assert (Hlo : 2 ^ 52 <= shr_m r1).
    { rewrite Hk. apply Z.div_le_lower_bound; lia. }
    assert (Hhi : shr_m r1 < 2 ^ 53).
    { rewrite Hk. apply Z.div_lt_upper_bound; lia. }
    set (k := round_nearest_even (shr_m r1) (loc_of_shr_record r1)).
    assert (Hkb : 2 ^ 52 <= k <= 2 ^ 53).
    { unfold k, round_nearest_even.
      destruct (loc_of_shr_record r1) as [|[]]; try destruct (Z.even _); lia. }
    destruct k as [|q|q] eqn:Eq; try lia.
    pose proof (digits2_pos_bounds q) as Hdq.
    set (dq := Zpos (digits2_pos q)) in *.
    assert (Hdq' : dq = 53 \/ (dq = 54 /\ Zpos q = 2 ^ 53)).
    { destruct (Z.eq_dec (Zpos q) (2 ^ 53)) as [E|E].
      - right. split; [|exact E]. rewrite E in Hdq.
        destruct Hdq as [H1 H2].
        apply Z.pow_le_mono_r_iff in H1; [|lia|lia].
        apply Z.pow_lt_mono_r_iff in H2; [|lia|lia]. lia.
      - left. destruct Hdq as [H1 H2].
        assert (H3 : 2 ^ (dq - 1) < 2 ^ 53) by lia.
        assert (H4 : 2 ^ 52 < 2 ^ dq) by lia.
        apply Z.pow_lt_mono_r_iff in H3; [|lia|lia].
        apply Z.pow_lt_mono_r_iff in H4; [|lia|lia]. lia. }
    unfold shr_fexp. cbn [Zdigits2 shr_record_of_loc]. fold dq.
    destruct Hdq' as [Hdq'|[Hdq' Hq]]; rewrite Hdq'.
    + assert (Hz : fexp B64.prec B64.emax (53 + (e + Zpos p)) - (e + Zpos p) = 0).
      { unfold fexp, emin, B64.prec, B64.emax in *. lia. }
      rewrite Hz. cbn [shr shr_m].
      destruct (_ <=? _); cbn; lia.
    + assert (Hz : fexp B64.prec B64.emax (54 + (e + Zpos p)) - (e + Zpos p) = 1).
      { unfold fexp, emin, B64.prec, B64.emax in *. lia. }
      rewrite Hz. cbn [shr iter_pos].
      assert (Hq' : q = (2 ^ 53)%positive).
      { apply Pos2Z.inj. rewrite Hq. reflexivity. }
      rewrite Hq'. cbn.
      destruct (_ <=? _); cbn; lia.
Qed.

Lemma binary_round_positive (m : positive) (e k : Z) :
  emin B64.prec B64.emax <= k ->
  k <= e ->
  k <= fexp B64.prec B64.emax (Zpos (digits2_pos m) + e) ->
  B64.positive k (binary_round B64.prec B64.emax false m e).
Proof.
  intros Hk He Hf. unfold binary_round, shl_align.
  destruct (fexp _ _ _ - e) eqn:E.
  - eapply positive_weaken; [|apply binary_round_aux_positive]; lia.
  - eapply positive_weaken; [|apply binary_round_aux_positive]; lia.
  - eapply positive_weaken; [|apply binary_round_aux_positive]; lia.
Qed.

(** ** The operations on floats that are not negative *)

Lemma of_int_zero : B64.of_int 0 = Ok B64.zero.
Proof. reflexivity. Qed.

Lemma of_int_positive (n : Z) (x : B64.float) :
  1 <= n -> B64.of_int n = Ok x -> B64.positive (-52) x.
Proof.
  intros Hn Hx. unfold B64.of_int in Hx. destruct n as [|m|m]; try lia.
  cbn [binary_normalize] in Hx.
  assert (H : B64.positive (-52) (binary_round B64.prec B64.emax false m 0)).
  { apply binary_round_positive.
    - unfold emin, B64.prec, B64.emax. lia.
    - lia.
    - unfold fexp, emin, B64.prec, B64.emax. lia. }
  destruct (binary_round _ _ _ _ _); inversion Hx; subst; exact H.
Qed.

Lemma weight_factor_exponent (d : Z) :
  exists m e, B64.weight_factor d = S754_finite false m e /\ -53 <= e.
Proof.
  unfold B64.weight_factor. destruct (7 <=? d); [|destruct (d <=? 3)];
    eexists; eexists; (split; [reflexivity|lia]).
Qed.

Lemma mul_weight_zero (d : Z) : B64.mul B64.zero (B64.weight_factor d) = B64.zero.
Proof.
  destruct (weight_factor_exponent d) as (m & e & -> & _). reflexivity.
Qed.

Lemma mul_weight_positive (x : B64.float) (d : Z) :
  B64.positive (-52) x ->
  B64.positive (emin B64.prec B64.emax) (B64.mul x (B64.weight_factor d)).
Proof.
  intros Hx. destruct (weight_factor_exponent d) as (m & e & -> & He).
  destruct x as [s|s| |s mx ex]; cbn in Hx; try contradiction.
  - destruct s; [contradiction|]. exact I.
  - destruct s; [contradiction|]. unfold B64.mul, SFmul. cbn [xorb].
    eapply positive_weaken; [|apply binary_round_aux_positive];
      unfold emin, B64.prec, B64.emax; lia.
Qed.

Lemma add_zero_r (k : Z) (x : B64.float) :
  x = B64.zero \/ B64.positive k x -> B64.add x B64.zero = x.
Proof.
  intros [->|Hx]; [reflexivity|].
  destruct x as [s|s| |s m e]; cbn in Hx; try contradiction;
    destruct s; try contradiction; reflexivity.
Qed.

Lemma add_positive (x y : B64.float) :
  x = B64.zero \/ B64.positive (emin B64.prec B64.emax) x ->
  B64.positive (emin B64.prec B64.emax) y ->
  B64.positive (emin B64.prec B64.emax) (B64.add x y).
Proof.
  intros Hx Hy.
  destruct y as [sy|sy| |sy my ey]; cbn in Hy; try contradiction;
    destruct sy; try contradiction.
  - destruct Hx as [->|Hx]; [exact I|].
    destruct x as [s|s| |s m e]; cbn in Hx; try contradiction;
      destruct s; try contradiction; exact I.
  - destruct Hx as [->|Hx]; [exact Hy|].
    destruct x as [s|s| |s m e]; cbn in Hx; try contradiction;
      destruct s; try contradiction; [exact I|].
    unfold B64.add, SFadd. cbn [cond_Zopp Z.add binary_normalize].
    apply binary_round_positive; unfold fexp, emin, B64.prec, B64.emax in *; lia.
Qed.

Lemma ltb_zero_positive (k : Z) (x : B64.float) :
  B64.positive k x -> B64.ltb B64.zero x = true /\ B64.eqb x B64.zero = false.
Proof.
  destruct x as [s|s| |s m e]; cbn; try contradiction;
    destruct s; try contradiction; intros _; split; reflexivity.
Qed.

(** ** The weighted teachers *)

Lemma weight_factor_spec (inp : AllocationRequest) (subject : string) :
  B64.weight_factor (Dict.get_default subject 5 (subject_difficulties inp))
  = B64.spec_difficulty_factor inp subject.
Proof.
  unfold B64.spec_difficulty_factor, Dict.get_default.
  destruct (Dict.get subject (subject_difficulties inp)); reflexivity.
Qed.

Lemma weighted_totals_spec64 (inp : AllocationRequest) (sa : dict SubjectAllocation) :
  B64.weighted_totals inp sa
  = (weighted_teachers <- B64.spec_weighted_teachers inp B64.zero sa ;;
     Ok (Py.sum (map (fun e => students_allocated (snd e)) sa), weighted_teachers)).
Proof.
  unfold B64.weighted_totals.
  set (F := fun (acc : result (Z * B64.float)) (sd : string * SubjectAllocation) => _).
  assert (Hraise : forall l e, fold_left F l (Raise e) = Raise e).
  { induction l as [|x l IH]; intros e; cbn [fold_left]; [reflexivity|].
    unfold F at 2. cbn [bind]. apply IH. }
  assert (H : forall l ws w,
             fold_left F l (Ok (ws, w))
             = (weighted_teachers <- B64.spec_weighted_teachers inp w l ;;
                Ok (ws + Py.sum (map (fun e => students_allocated (snd e)) l),
                    weighted_teachers))).
  { induction l as [|[s d] l IH]; intros ws w; cbn [fold_left map].
    - cbn. unfold Py.sum. cbn. now rewrite Z.add_0_r.
    - unfold F at 2. cbn [bind fst snd B64.spec_weighted_teachers].
      destruct (B64.of_int (teachers_allocated d)) as [t|e]; cbn [bind].
      + rewrite IH, sum_cons, weight_factor_spec.
        destruct (B64.spec_weighted_teachers _ _ _); cbn [bind]; [|reflexivity].
        do 2 f_equal. cbn [snd]. lia.
      + apply Hraise. }
  rewrite H. destruct (B64.spec_weighted_teachers _ _ _); reflexivity.
Qed.

(** The weighted sum of teacher counts that are not negative is zero when
    every count is 0 and above zero otherwise. *)
Lemma spec_weighted_teachers_sign (inp : AllocationRequest) :
  forall (sa : dict SubjectAllocation) (w wt : B64.float),
    Forall (fun e => 0 <= teachers_allocated (snd e)) sa ->
    B64.spec_weighted_teachers inp w sa = Ok wt ->
    (B64.positive (emin B64.prec B64.emax) w ->
     B64.positive (emin B64.prec B64.emax) wt)
    /\ (w = B64.zero ->
        B64.positive (emin B64.prec B64.emax) wt
        \/ (wt = B64.zero /\ Forall (fun e => teachers_allocated (snd e) = 0) sa)).
Proof.
  induction sa as [|[s d] sa IH]; intros w wt Hpos Hrun;
    cbn [B64.spec_weighted_teachers] in Hrun.
  - inversion Hrun; subst. split; [auto|]. intros ->. right. split; constructor.
  - inversion Hpos as [|? ? Hd Hpos']; subst. cbn [snd] in Hd.
    inv_bind Hrun. rename x into t.
    rewrite <- weight_factor_spec in Hrun.
    destruct (IH _ _ Hpos' Hrun) as [IHp IHz].
    destruct (Z.eq_dec (teachers_allocated d) 0) as [E|E].
    + rewrite E, of_int_zero in Hx. inversion Hx; subst t; clear Hx.
      rewrite mul_weight_zero in *.
      split.
      * intros Hw. apply IHp.
        now rewrite (add_zero_r _ _ (or_intror Hw)).
      * intros ->. destruct (IHz eq_refl) as [H|[H1 H2]]; [now left|].
        right. split; [exact H1|]. constructor; [exact E|exact H2].
    + assert (Hy : B64.positive (emin B64.prec B64.emax)
                     (B64.mul t (B64.weight_factor
                                   (Dict.get_default s 5 (subject_difficulties inp))))).
      { apply mul_weight_positive. apply (of_int_positive (teachers_allocated d)); [lia|exact Hx]. }
      split.
      * intros Hw. apply IHp. apply add_positive; auto.
      * intros ->. left. apply IHp. apply add_positive; auto.
Qed.

(** ** The optimal ratio *)

(** Claim C6: the binary64 value that lines 305-341 compute for
    [optimal_ratio] is the value of the specification's formula, taken in
    binary64: the students of [subject_allocation] over its teachers
    weighted by 0.85, 1.15 or 1.0, times 0.9 unless [prioritize_experience]
    is false (or [total_students / total_teachers * 0.9] when the weighted
    teachers are 0), replaced once by its midpoint with [ideal_ratio] when
    it is above 1.2 or below 0.8 times [ideal_ratio]; an exception of the
    one is an exception of the other. It holds for every subject
    allocation without a negative teacher count, the local variable
    [total_teachers] of line 332 being the request's when no subject holds
    a teacher; [ratio_premises] shows both of a returned result. *)
Theorem optimal_ratio_is_weighted_ratio
  (inp : AllocationRequest) (sa : dict SubjectAllocation)
  (line_332_total_teachers : Z) :
  Forall (fun e => 0 <= teachers_allocated (snd e)) sa ->
  (Forall (fun e => teachers_allocated (snd e) = 0) sa ->
   line_332_total_teachers = total_teachers inp) ->
  B64.overall_ratio inp sa line_332_total_teachers = B64.spec_optimal_ratio inp sa.
Proof.
  intros Hpos Hlocal. unfold B64.overall_ratio, B64.spec_optimal_ratio.
  rewrite weighted_totals_spec64.
  destruct (B64.spec_weighted_teachers inp B64.zero sa) as [wt|e] eqn:Hwt;
    cbn [bind]; [|reflexivity].
  assert (Hpull : forall x,
             Ok (B64.pull_towards_ideal (B64.of_Q (ideal_ratio inp)) x)
             = (if B64.ltb (B64.mul (B64.of_Q (ideal_ratio inp)) B64.c1_2) x
                   || B64.ltb x (B64.mul (B64.of_Q (ideal_ratio inp)) B64.c0_8)
                then Ok (SFdiv B64.prec B64.emax
                           (B64.add x (B64.of_Q (ideal_ratio inp))) B64.c2)
                else Ok x)).
  { intros x. unfold B64.pull_towards_ideal.
    destruct (B64.ltb (B64.mul _ B64.c1_2) x); cbn [orb]; [reflexivity|].
    destruct (B64.ltb x _); reflexivity. }
  destruct (spec_weighted_teachers_sign inp sa _ _ Hpos Hwt) as [_ Hsign].
  destruct (Hsign eq_refl) as [Hp|[-> Hzero]].
  - destruct (ltb_zero_positive _ _ Hp) as [-> ->].
    destruct (B64.of_int _) as [s|e]; cbn [bind]; [|reflexivity].
    rewrite Hpull. unfold prioritizes_experience, B64.spec_experience_factor.
    destruct (prioritize_experience inp) as [[|]|]; reflexivity.
  - rewrite (Hlocal Hzero).
    change (B64.ltb B64.zero B64.zero) with false.
    change (B64.eqb B64.zero B64.zero) with true.
    destruct (B64.int_div _ _) as [q|e]; cbn [bind]; [|reflexivity].
    apply Hpull.
Qed.

(** The request of 64 students and three teachers: the subjects hold 15,
    15 and 27 students and one teacher each, the formula gives
    57 / 2.85 * 0.9, which is 18.000000000000004 in binary64 and so above
    1.2 * 15; the ratio is the midpoint 16.5. The local [total_teachers] is
    1 at line 332, the teachers of the last subject. *)
Lemma optimal_ratio_is_weighted_ratio_witness :
  exists r,
    optimize_teacher_allocation request_threshold = Ok r
    /\ B64.overall_ratio request_threshold (subject_allocation r) 1
       = Ok (B64.of_Q (33 # 2))
    /\ B64.overall_ratio request_threshold (subject_allocation r) 1
       = B64.spec_optimal_ratio request_threshold (subject_allocation r).
Proof.
  eexists. split; [evaluates|]. split; [evaluates|].
  apply (optimal_ratio_is_weighted_ratio request_threshold).
  - vm_compute. repeat constructor; discriminate.
  - vm_compute. intros H. inversion H; discriminate.
Defined.

(** On that request the rational model of the whole function computes
    exactly 18, which is not above 1.2 * 15, and keeps it: there the
    rational [optimal_ratio] is not the value of the source. *)
Lemma threshold_decided_in_binary64 :
  exists r,
    optimize_teacher_allocation request_threshold = Ok r
    /\ (optimal_ratio r == 18)%Q
    /\ B64.overall_ratio request_threshold (subject_allocation r) 1
       = Ok (B64.of_Q (33 # 2))
    /\ (B64.to_Q (B64.of_Q (33 # 2)) == 33 # 2)%Q.
Proof.
  eexists. split; [evaluates|]. split; [evaluates|]. split; evaluates.
Qed.

(** On the other concrete requests of this development the two
    evaluations agree. *)
Lemma binary64_agrees_on_requests :
  forallb binary64_agrees
    [request_unnormalised; request_floor_of_one; request_school;
     request_two_subjects; request_no_teacher_subject; request_tight_classrooms;
     request_small_classroom; request_missing_difficulty;
     request_one_teacher_four_classrooms; request_four_classrooms;
     request_single_teacher; request_negative_count; request_thirds;
     request_halves; request_unstaffed_without_difficulty; request_one_student]
  = true
  /\ binary64_agrees request_threshold = false
  /\ binary64_agrees request_half_teacher = false.
Proof. split; [evaluates|]. split; evaluates. Qed.
